(** * cmsis_dap_tcp: framing and single-client connection management

    A shallow embedding of the TCP server of the CMSIS-DAP probe
    (cmsis_dap_tcp.h and the server source: socket_available,
    socket_disconnected, handle_server, handle_client, socket_read,
    socket_peek, socket_write, send_dap_response, recv_dap_request,
    process_dap_requests, cmsis_dap_tcp_process, start_server,
    cmsis_dap_tcp_init), and of two parts of DAP_config.h: the serial
    number string and the reset pins.

    The C statics and the part of the kernel the server talks to are one
    [world] value threaded through a state monad whose failure case stands
    for a loop that has not returned.  Bytes are [Byte.byte]; C integers are
    [Z], with the conversions the C comparisons perform written out.  The
    command processor of DAP.c is an interface, the class
    [CommandProcessor]. *)

From Stdlib Require Import ZArith List Lia Bool String.
From coqutil Require Import Byte Word.LittleEndianList.
Import ListNotations.
Local Open Scope Z_scope.

(** ** cmsis_dap_tcp.h *)

Module Hdr.
(** struct cmsis_dap_tcp_packet_hdr: 4 + 2 + 1 + 1 bytes, no padding. *)
Record cmsis_dap_tcp_packet_hdr : Type := mk {
  signature : Z;      (* uint32_t *)
  length : Z;         (* uint16_t, not including the header *)
  packet_type : Z;    (* uint8_t *)
  reserved : Z        (* uint8_t *)
}.
End Hdr.

Definition DAP_PKT_HDR_SIGNATURE : Z := 0x00504144.
Definition DAP_PKT_TYPE_REQUEST : Z := 0x01.
Definition DAP_PKT_TYPE_RESPONSE : Z := 0x02.
Definition CMSIS_DAP_TCP_PORT : Z := 4441.
Definition CMSIS_DAP_PACKET_SIZE : Z := 1024.

(** sizeof(struct cmsis_dap_tcp_packet_hdr) *)
Definition sizeof_hdr : Z := 8.
(** sizeof(packet_buf) = CMSIS_DAP_PACKET_SIZE + sizeof(header) *)
Definition sizeof_packet_buf : Z := CMSIS_DAP_PACKET_SIZE + sizeof_hdr.
(** sizeof(request) *)
Definition sizeof_request : Z := CMSIS_DAP_PACKET_SIZE.

(** The byte-order macros, as on a little-endian host (the first branch of
    the #if): the identity.  The struct then lies in memory in wire order. *)
Definition le_to_h_u16 (a : Z) : Z := a.
Definition le_to_h_u32 (a : Z) : Z := a.
Definition h_u16_to_le (a : Z) : Z := a.
Definition h_u32_to_le (a : Z) : Z := a.

(** Integer conversions of C: an int compared with a size_t is converted to
    size_t (32 bits on the ESP32); an int stored in a uint16_t or uint8_t
    field is truncated. *)
Definition to_size_t (z : Z) : Z := z mod 2 ^ 32.
Definition to_u16 (z : Z) : Z := z mod 2 ^ 16.
Definition to_u8 (z : Z) : Z := z mod 2 ^ 8.

(** The header as the bytes of the struct in memory. *)
Definition hdr_bytes (h : Hdr.cmsis_dap_tcp_packet_hdr) : list byte :=
  le_split 4 (Hdr.signature h) ++ le_split 2 (Hdr.length h)
    ++ [byte.of_Z (Hdr.packet_type h); byte.of_Z (Hdr.reserved h)].

(** The struct read back from the bytes a recv or read stored over it. *)
Definition hdr_of_bytes (bs : list byte) : Hdr.cmsis_dap_tcp_packet_hdr :=
  Hdr.mk (le_combine (firstn 4 bs))
         (le_combine (firstn 2 (skipn 4 bs)))
         (byte.unsigned (nth 6 bs Byte.x00))
         (byte.unsigned (nth 7 bs Byte.x00)).

(** memcpy(dst, src, n) into the start of an array: the first bytes are
    replaced, the rest of the array stays. *)
Definition store (dst data : list byte) : list byte :=
  data ++ skipn (List.length data) dst.

(** ** errno values the server tests (Linux numbering) *)

Definition EINTR : Z := 4.
Definition EBADF : Z := 9.
Definition EAGAIN : Z := 11.
Definition EWOULDBLOCK : Z := 11.
Definition ENOTCONN : Z := 107.
Definition ETIMEDOUT : Z := 110.

(** ** The kernel side of a connected socket *)

Record sock : Type := mkSock {
  rx : list byte;           (* received, not yet consumed *)
  peer_shut : bool;         (* the peer has closed its write side *)
  so_error : option Z       (* pending socket error (an errno value) *)
}.

Definition set_rx (q : list byte) (s : sock) : sock :=
  mkSock q (peer_shut s) (so_error s).
Definition clear_error (s : sock) : sock :=
  mkSock (rx s) (peer_shut s) None.

(** What accept finds at the head of the listen queue. *)
Inductive incoming : Type :=
| Conn (fd : Z) (s : sock)      (* a connection; accept returns fd *)
| AcceptFail (e : Z).           (* accept fails with errno e *)

(** What the server does that can be seen from outside. *)
Inductive event : Type :=
| EvLog (msg : string)                      (* fprintf(stderr, ...) *)
| EvWrite (fd : Z) (data : list byte) (r : Z) (* write(fd, data, len) = r *)
| EvClose (fd : Z)                          (* close(fd) *)
| EvCommand (req : list byte).              (* DAP_ProcessCommand(req, _) *)

Fixpoint sock_lookup (fd : Z) (t : list (Z * sock)) : option sock :=
  match t with
  | [] => None
  | (k, s) :: t' => if k =? fd then Some s else sock_lookup fd t'
  end.

Fixpoint sock_put (fd : Z) (s : sock) (t : list (Z * sock)) : list (Z * sock) :=
  match t with
  | [] => [(fd, s)]
  | (k, s0) :: t' => if k =? fd then (k, s) :: t' else (k, s0) :: sock_put fd s t'
  end.

Fixpoint sock_remove (fd : Z) (t : list (Z * sock)) : list (Z * sock) :=
  match t with
  | [] => []
  | (k, s) :: t' => if k =? fd then sock_remove fd t' else (k, s) :: sock_remove fd t'
  end.

(** ** DAP_config.h: the serial number string *)

(** The digits of "%X". *)
Definition hex_upper : list byte :=
  [Byte.x30; Byte.x31; Byte.x32; Byte.x33; Byte.x34; Byte.x35; Byte.x36; Byte.x37;
   Byte.x38; Byte.x39; Byte.x41; Byte.x42; Byte.x43; Byte.x44; Byte.x45; Byte.x46].

(** One "%02X" conversion of a uint8_t argument. *)
Definition fmt_02X (b : byte) : list byte :=
  [nth (Z.to_nat (byte.unsigned b / 16)) hex_upper Byte.x00;
   nth (Z.to_nat (byte.unsigned b mod 16)) hex_upper Byte.x00].

(** strlen(s) on the bytes of a buffer. *)
Fixpoint strlen (s : list byte) : Z :=
  match s with
  | [] => 0
  | c :: t => if Byte.eqb c Byte.x00 then 0 else 1 + strlen t
  end.

(** snprintf(str, maxlen, ...) given the characters the format produces:
    at most maxlen - 1 of them are stored, then a NUL. *)
Definition snprintf (str : list byte) (maxlen : Z) (out : list byte) : list byte :=
  if maxlen <=? 0 then str
  else store str (firstn (Z.to_nat (maxlen - 1)) out ++ [Byte.x00]).

(** DAP_GetSerNumString(str), with the six bytes esp_read_mac stores in
    mac_addr: the result and the buffer. *)
Definition DAP_GetSerNumString (mac_addr str : list byte) : Z * list byte :=
  let maxlen := 60 in
  let m (i : nat) := nth i mac_addr Byte.x00 in
  let str :=
    snprintf str maxlen
      (fmt_02X (m 0%nat) ++ fmt_02X (m 1%nat) ++ fmt_02X (m 2%nat)
         ++ fmt_02X (m 3%nat) ++ fmt_02X (m 4%nat) ++ fmt_02X (m 5%nat)) in
  (to_u8 (strlen str + 1), str).

(** Reading two hex digits back (for the statements only). *)
Definition unhex_digit (c : byte) : Z :=
  let v := byte.unsigned c in
  if v <? 0x41 then v - 0x30 else v - 0x41 + 10.
Fixpoint unhex (s : list byte) : list byte :=
  match s with
  | h :: l :: t => byte.of_Z (16 * unhex_digit h + unhex_digit l) :: unhex t
  | _ => []
  end.

(** ** DAP_config.h: the reset pins *)

Definition GPIO_SWCLK_TCK : Z := 19.
Definition GPIO_SWDIO_TMS : Z := 20.
Definition GPIO_TDI : Z := 22.
Definition GPIO_TDO : Z := 23.
Definition GPIO_NTRST : Z := 21.
Definition GPIO_NRESET : Z := 18.
Definition GPIO_LED : Z := 15.

(** The registers of the GPIO block the pin functions reach: the output
    latch, the output enable and the input levels, one bit per pin. *)
Record gpio_dev : Type := mkGpio {
  gpio_out : Z;
  gpio_enable : Z;
  gpio_in : Z
}.

(** gpio_ll_set_level: a write of 1 << gpio_num to out_w1ts or out_w1tc. *)
Definition gpio_ll_set_level (hw : gpio_dev) (gpio_num level : Z) : gpio_dev :=
  if level =? 0
  then mkGpio (Z.ldiff (gpio_out hw) (Z.shiftl 1 gpio_num)) (gpio_enable hw) (gpio_in hw)
  else mkGpio (Z.lor (gpio_out hw) (Z.shiftl 1 gpio_num)) (gpio_enable hw) (gpio_in hw).

(** gpio_ll_output_enable, gpio_ll_output_disable: the same on enable_w1ts
    and enable_w1tc. *)
Definition gpio_ll_output_enable (hw : gpio_dev) (gpio_num : Z) : gpio_dev :=
  mkGpio (gpio_out hw) (Z.lor (gpio_enable hw) (Z.shiftl 1 gpio_num)) (gpio_in hw).
Definition gpio_ll_output_disable (hw : gpio_dev) (gpio_num : Z) : gpio_dev :=
  mkGpio (gpio_out hw) (Z.ldiff (gpio_enable hw) (Z.shiftl 1 gpio_num)) (gpio_in hw).

(** gpio_ll_get_level *)
Definition gpio_ll_get_level (hw : gpio_dev) (gpio_num : Z) : Z :=
  Z.land (Z.shiftr (gpio_in hw) gpio_num) 1.

Definition PIN_nTRST_OUT (bit : Z) (hw : gpio_dev) : gpio_dev :=
  if negb (Z.land bit 1 =? 0) then
    (* Set to input (pullup was enabled). *)
    gpio_ll_output_disable hw GPIO_NTRST
  else
    (* Drive low. *)
    gpio_ll_output_enable (gpio_ll_set_level hw GPIO_NTRST 0) GPIO_NTRST.

Definition PIN_nRESET_OUT (bit : Z) (hw : gpio_dev) : gpio_dev :=
  if negb (Z.land bit 1 =? 0) then
    (* Set to input (pullup was enabled). *)
    gpio_ll_output_disable hw GPIO_NRESET
  else
    (* Drive low. *)
    gpio_ll_output_enable (gpio_ll_set_level hw GPIO_NRESET 0) GPIO_NRESET.

Definition PIN_nRESET_IN (hw : gpio_dev) : Z := gpio_ll_get_level hw GPIO_NRESET.
Definition PIN_nTRST_IN (hw : gpio_dev) : Z := gpio_ll_get_level hw GPIO_NTRST.

(** Pin n is an output driving the line high. *)
Definition drives_high (hw : gpio_dev) (n : Z) : bool :=
  Z.testbit (gpio_enable hw) n && Z.testbit (gpio_out hw) n.

(** The command processor (DAP.c) is outside this code: a state of its own
    and one synchronous operation from the request buffer and the response
    buffer to the packed lengths (request length in the upper 16 bits,
    response length in the lower 16) and the response buffer it leaves. *)
Class CommandProcessor : Type := {
  dap_state : Type;
  DAP_ProcessCommand :
    dap_state -> list byte -> list byte -> Z * list byte * dap_state
}.

Section Server.

Context {processor : CommandProcessor}.

Record world : Type := mkWorld {
  (* the statics of the server *)
  client_sockfd : Z;
  server_sockfd : Z;
  request : list byte;
  response : list byte;
  errno : Z;
  (* the kernel *)
  socks : list (Z * sock);      (* open connected sockets *)
  backlog : list incoming;      (* listen queue of server_sockfd *)
  intr : nat;                   (* signals that will interrupt a waiting recv *)
  wscript : list Z;             (* results of the coming writes; then full writes *)
  (* the outside *)
  trace : list event;
  dap : dap_state
}.

Definition set_client_sockfd (v : Z) (w : world) : world :=
  mkWorld v (server_sockfd w) (request w) (response w) (errno w) (socks w)
          (backlog w) (intr w) (wscript w) (trace w) (dap w).
Definition set_request (v : list byte) (w : world) : world :=
  mkWorld (client_sockfd w) (server_sockfd w) v (response w) (errno w) (socks w)
          (backlog w) (intr w) (wscript w) (trace w) (dap w).
Definition set_response (v : list byte) (w : world) : world :=
  mkWorld (client_sockfd w) (server_sockfd w) (request w) v (errno w) (socks w)
          (backlog w) (intr w) (wscript w) (trace w) (dap w).
Definition set_errno (v : Z) (w : world) : world :=
  mkWorld (client_sockfd w) (server_sockfd w) (request w) (response w) v (socks w)
          (backlog w) (intr w) (wscript w) (trace w) (dap w).
Definition set_socks (v : list (Z * sock)) (w : world) : world :=
  mkWorld (client_sockfd w) (server_sockfd w) (request w) (response w) (errno w) v
          (backlog w) (intr w) (wscript w) (trace w) (dap w).
Definition set_backlog (v : list incoming) (w : world) : world :=
  mkWorld (client_sockfd w) (server_sockfd w) (request w) (response w) (errno w)
          (socks w) v (intr w) (wscript w) (trace w) (dap w).
Definition set_intr (v : nat) (w : world) : world :=
  mkWorld (client_sockfd w) (server_sockfd w) (request w) (response w) (errno w)
          (socks w) (backlog w) v (wscript w) (trace w) (dap w).
Definition set_wscript (v : list Z) (w : world) : world :=
  mkWorld (client_sockfd w) (server_sockfd w) (request w) (response w) (errno w)
          (socks w) (backlog w) (intr w) v (trace w) (dap w).
Definition set_trace (v : list event) (w : world) : world :=
  mkWorld (client_sockfd w) (server_sockfd w) (request w) (response w) (errno w)
          (socks w) (backlog w) (intr w) (wscript w) v (dap w).
Definition set_dap (v : dap_state) (w : world) : world :=
  mkWorld (client_sockfd w) (server_sockfd w) (request w) (response w) (errno w)
          (socks w) (backlog w) (intr w) (wscript w) (trace w) v.

Definition emit (e : event) (w : world) : world :=
  set_trace (trace w ++ [e]) w.

(** ** The monad: state, and [None] for a loop that has not returned *)

Definition M (A : Type) : Type := world -> option (A * world).

Definition ret {A} (a : A) : M A := fun w => Some (a, w).
Definition bind {A B} (m : M A) (k : A -> M B) : M B :=
  fun w => match m w with
           | Some (a, w') => k a w'
           | None => None
           end.
Definition diverge {A} : M A := fun _ => None.
Definition get {A} (f : world -> A) : M A := fun w => Some (f w, w).
Definition modify (f : world -> world) : M unit := fun w => Some (tt, f w).

Notation "x <- m ;; k" := (bind m (fun x => k))
  (at level 61, m at next level, right associativity).
Notation "' pat <- m ;; k" := (bind m (fun x => match x with pat => k end))
  (at level 61, pat pattern, m at next level, right associativity).
Notation "m ;;; k" := (bind m (fun _ => k))
  (at level 61, right associativity).

(** ** System calls, on the model of the kernel *)

(** fprintf(stderr, ...) *)
Definition fprintf_stderr (msg : string) : M unit := modify (emit (EvLog msg)).

(** ioctl(fd, FIONREAD, &nbytes): the result and nbytes. *)
Definition sys_ioctl_FIONREAD (fd : Z) : M (Z * Z) := fun w =>
  match sock_lookup fd (socks w) with
  | Some s => Some ((0, Z.of_nat (List.length (rx s))), w)
  | None => Some ((-1, 0), set_errno EBADF w)
  end.

(** recv(fd, buf, len, flags) and read(fd, buf, len) on a non-blocking
    stream socket: the result and the bytes stored at buf.  Queued bytes are
    delivered first, up to len of them, and stay queued under MSG_PEEK; an
    empty queue answers a request for no bytes with 0 at once, and else
    reports the pending error (once: reporting clears it), then the end of
    the stream, and otherwise that the call would have to wait, or that a
    signal interrupted it. *)
Definition sys_recv (fd len : Z) (peek : bool) : M (Z * list byte) := fun w =>
  match sock_lookup fd (socks w) with
  | None => Some ((-1, []), set_errno EBADF w)
  | Some s =>
      match rx s with
      | _ :: _ =>
          let data := firstn (Z.to_nat len) (rx s) in
          Some ((Z.of_nat (List.length data), data),
                if peek then w
                else set_socks (sock_put fd (set_rx (skipn (Z.to_nat len) (rx s)) s)
                                         (socks w)) w)
      | [] =>
          if len =? 0 then Some ((0, []), w) else
          match so_error s with
          | Some e =>
              Some ((-1, []),
                    set_errno e (set_socks (sock_put fd (clear_error s) (socks w)) w))
          | None =>
              if peer_shut s then Some ((0, []), w) else
              match intr w with
              | S n => Some ((-1, []), set_errno EINTR (set_intr n w))
              | O => Some ((-1, []), set_errno EAGAIN w)
              end
          end
      end
  end.

(** write(fd, data, len): the kernel accepts all of it unless the script
    says otherwise; every call is seen on the trace. *)
Definition sys_write (fd : Z) (data : list byte) (len : Z) : M Z := fun w =>
  match sock_lookup fd (socks w) with
  | None => Some (-1, emit (EvWrite fd data (-1)) (set_errno EBADF w))
  | Some _ =>
      match wscript w with
      | [] => Some (len, emit (EvWrite fd data len) w)
      | r :: rs => Some (r, emit (EvWrite fd data r) (set_wscript rs w))
      end
  end.

(** close(fd) *)
Definition sys_close (fd : Z) : M Z := fun w =>
  Some (0, emit (EvClose fd) (set_socks (sock_remove fd (socks w)) w)).

(** accept(server_sockfd, ...) on the non-blocking listening socket. *)
Definition sys_accept : M Z := fun w =>
  match backlog w with
  | [] => Some (-1, set_errno EAGAIN w)
  | Conn fd s :: q =>
      Some (fd, set_socks (sock_put fd s (socks w)) (set_backlog q w))
  | AcceptFail e :: q => Some (-1, set_errno e (set_backlog q w))
  end.

(** fcntl(fd, F_SETFL, O_NONBLOCK) *)
Definition sys_fcntl_nonblock (fd : Z) : M Z := fun w =>
  match sock_lookup fd (socks w) with
  | Some _ => Some (0, w)
  | None => Some (-1, set_errno EBADF w)
  end.

(** ** The server *)

Definition socket_available : M Z :=
  fd <- get client_sockfd ;;
  if fd =? 0 then ret 0 else
  '(r, nbytes) <- sys_ioctl_FIONREAD fd ;;
  if r <? 0 then ret 0 else ret nbytes.

Definition b2z (b : bool) : Z := if b then 1 else 0.

(** The while(true) of socket_disconnected; one iteration per unit of fuel. *)
Fixpoint socket_disconnected_loop (fuel : nat) : M Z :=
  match fuel with
  | O => diverge
  | S fuel' =>
      fd <- get client_sockfd ;;
      '(r, _) <- sys_recv fd 1 true ;;
      if r <? 0 then
        e <- get errno ;;
        if e =? EINTR then socket_disconnected_loop fuel'
        else if (e =? EAGAIN) || (e =? ETIMEDOUT) || (e =? ENOTCONN)
             then ret (b2z (r =? 0))
             else ret (- e)
      else ret (b2z (r =? 0))
  end.

(** Returns 1 if disconnected, 0 if still connected, <0 on error.  Each
    turn of the loop but the last uses up a pending interruption or the
    pending error of the socket. *)
Definition socket_disconnected : M Z :=
  n <- get intr ;; socket_disconnected_loop (S (S n)).

Definition handle_server : M Z :=
  r <- sys_accept ;;
  if r <? 0 then
    e <- get errno ;;
    if (e =? EWOULDBLOCK) || (e =? EAGAIN) then ret 0 else ret r
  else
    c <- get client_sockfd ;;
    if negb (c =? 0) then
      fprintf_stderr "cmsis_dap_tcp: dropping new connection." ;;;
      sys_close r ;;;
      ret 0
    else
      modify (set_client_sockfd r) ;;;
      fprintf_stderr "cmsis_dap_tcp: client connected" ;;;
      (* setsockopt(SO_KEEPALIVE, TCP_KEEPIDLE, TCP_KEEPINTVL, TCP_KEEPCNT):
         results ignored, no effect on the queues modelled here *)
      r' <- sys_fcntl_nonblock r ;;
      if r' <? 0 then
        fprintf_stderr "cmsis_dap_tcp: failed to set nonblocking server socket." ;;;
        ret (-1)
      else ret 0.

Definition handle_client : M Z :=
  c <- get client_sockfd ;;
  if c =? 0 then ret 0 else
  d <- socket_disconnected ;;
  if negb (d =? 0) then
    fprintf_stderr "cmsis_dap_tcp: client disconnected." ;;;
    sys_close c ;;;
    modify (set_client_sockfd 0) ;;;
    ret 0
  else ret 0.

Definition socket_read (len : Z) : M (Z * list byte) :=
  c <- get client_sockfd ;;
  if c =? 0 then ret (-1, []) else sys_recv c len false.

Definition socket_peek (len : Z) : M (Z * list byte) :=
  c <- get client_sockfd ;;
  if c =? 0 then ret (-1, []) else sys_recv c len true.

Definition socket_write (data : list byte) (len : Z) : M Z :=
  c <- get client_sockfd ;;
  if c =? 0 then ret (-1) else sys_write c data len.

(** send_dap_response(buf, len).  packet_buf is scratch: its first
    len + sizeof(header) bytes are built here and handed to the one write. *)
Definition send_dap_response (buf : list byte) (len : Z) : M Z :=
  if to_size_t len >? sizeof_packet_buf - sizeof_hdr then
    fprintf_stderr "cmsis_dap_tcp: response too large for buffer!" ;;;
    ret (-1)
  else
    let header :=
      Hdr.mk (h_u32_to_le DAP_PKT_HDR_SIGNATURE) (h_u16_to_le (to_u16 len))
             DAP_PKT_TYPE_RESPONSE 0 in
    let packet_buf := hdr_bytes header ++ firstn (Z.to_nat len) buf in
    let len := len + sizeof_hdr in
    r <- socket_write packet_buf len ;;
    if r <? 0 then ret r
    else ret (if r =? len then 0 else -1).

(** recv_dap_request(buf, len): the result and buf as the call leaves it.
    LOG_ERROR and LOG_DEBUG_IO expand to nothing (DEBUG_PRINTING is off). *)
Definition recv_dap_request (buf : list byte) (len : Z) : M (Z * list byte) :=
  avail <- socket_available ;;
  if to_size_t avail <? sizeof_hdr then ret (0, buf) else
  '(r, data) <- socket_peek sizeof_hdr ;;
  let header := hdr_of_bytes data in
  if r <? 0 then ret (r, buf) else
  if to_size_t r <? sizeof_hdr then ret (-1, buf) else
  if negb (le_to_h_u32 (Hdr.signature header) =? DAP_PKT_HDR_SIGNATURE) then
    socket_read sizeof_hdr ;;;            (* Discard. *)
    ret (-1, buf)
  else
  if negb (Hdr.packet_type header =? DAP_PKT_TYPE_REQUEST) then
    socket_read sizeof_hdr ;;;            (* Discard. *)
    ret (-1, buf)
  else
  avail <- socket_available ;;
  if to_size_t avail <? to_size_t (sizeof_hdr + le_to_h_u16 (Hdr.length header))
  then ret (0, buf) else
  (* A complete packet is available. Strip the header and return the data. *)
  if len <? le_to_h_u16 (Hdr.length header) then ret (-1, buf) else
  '(r, data) <- socket_read sizeof_hdr ;;
  let header := hdr_of_bytes data in
  if r <? 0 then ret (r, buf) else
  if to_size_t r <? sizeof_hdr then ret (-1, buf) else
  '(r, data) <- socket_read (le_to_h_u16 (Hdr.length header)) ;;
  let buf := store buf data in
  if r <? 0 then ret (r, buf) else
  if r <? Hdr.length header then ret (-1, buf) else
  ret (r, buf).

(** The while(true) of process_dap_requests; one iteration per unit of fuel. *)
Fixpoint process_dap_requests_loop (fuel : nat) : M Z :=
  match fuel with
  | O => diverge
  | S fuel' =>
      req <- get request ;;
      '(r, req') <- recv_dap_request req sizeof_request ;;
      modify (set_request req') ;;;
      if r <=? 0 then ret r else
      resp <- get response ;;
      st <- get dap ;;
      modify (emit (EvCommand req')) ;;;
      let '(r, resp', st') := DAP_ProcessCommand st req' resp in
      modify (set_response resp') ;;;
      modify (set_dap st') ;;;
      let request_len := Z.land (Z.shiftr r 16) 0xFFFF in
      let response_len := Z.land r 0xFFFF in
      r <- send_dap_response resp' response_len ;;
      if r <? 0 then ret r else process_dap_requests_loop fuel'
  end.

(** Bytes queued on the client socket. *)
Definition client_rx (w : world) : list byte :=
  match sock_lookup (client_sockfd w) (socks w) with
  | Some s => rx s
  | None => []
  end.

(** Every turn that goes on has consumed a header and a payload byte, so
    the queue length bounds the turns. *)
Definition process_dap_requests : M Z :=
  q <- get client_rx ;; process_dap_requests_loop (S (List.length q)).

Definition cmsis_dap_tcp_process : M Z :=
  handle_server ;;;
  handle_client ;;;
  c <- get client_sockfd ;;
  if negb (c =? 0) then process_dap_requests else ret 0.

(** ** Vocabulary of the statements *)

(** A frame on the wire: header, then payload. *)
Definition frame (ty : Z) (p : list byte) : list byte :=
  hdr_bytes (Hdr.mk DAP_PKT_HDR_SIGNATURE (Z.of_nat (List.length p)) ty 0) ++ p.
Definition request_frame (p : list byte) : list byte :=
  frame DAP_PKT_TYPE_REQUEST p.
Definition response_frame (p : list byte) : list byte :=
  frame DAP_PKT_TYPE_RESPONSE p.

(** The client socket is open. *)
Definition connected (w : world) : Prop :=
  client_sockfd w <> 0 /\
  exists s, sock_lookup (client_sockfd w) (socks w) = Some s.

(** The world with the queue of the client socket replaced. *)
Definition set_client_rx (q : list byte) (w : world) : world :=
  match sock_lookup (client_sockfd w) (socks w) with
  | Some s => set_socks (sock_put (client_sockfd w) (set_rx q s) (socks w)) w
  | None => w
  end.

(** Bytes arriving from the peer. *)
Definition feed (data : list byte) (w : world) : world :=
  set_client_rx (client_rx w ++ data) w.

(** The peer sends its bytes in pieces; recv_dap_request is called on
    sizeof(request) bytes after each piece has arrived.  The results of the
    calls and the buffer after the last one. *)
Fixpoint recv_chunks (chunks : list (list byte)) (buf : list byte)
  : M (list Z * list byte) :=
  match chunks with
  | [] => ret ([], buf)
  | c :: cs =>
      modify (feed c) ;;;
      '(r, buf1) <- recv_dap_request buf sizeof_request ;;
      '(rs, buf2) <- recv_chunks cs buf1 ;;
      ret (r :: rs, buf2)
  end.

(** What the next write of len bytes returns, and the world behind it. *)
Definition next_write (len : Z) (w : world) : Z :=
  match wscript w with
  | [] => len
  | r :: _ => r
  end.
Definition written (w : world) : world := set_wscript (tl (wscript w)) w.

(** The one-byte non-consuming peek of the disconnect probe. *)
Definition probe_peek : M (Z * list byte) :=
  fd <- get client_sockfd ;; sys_recv fd 1 true.

(** An errno the probe neither retries on nor takes for "no data yet". *)
Definition hard_error (e : Z) : Prop :=
  e <> EINTR /\ e <> EAGAIN /\ e <> ETIMEDOUT /\ e <> ENOTCONN.

(** The world once handle_client has torn the connection down. *)
Definition disconnect_client (w : world) : world :=
  set_client_sockfd 0
    (emit (EvClose (client_sockfd w))
       (set_socks (sock_remove (client_sockfd w) (socks w))
          (emit (EvLog "cmsis_dap_tcp: client disconnected.") w))).

(** The descriptors of the open connections. *)
Definition open_fds (w : world) : list Z := map fst (socks w).

(** At most one connection is open, and it is the one client_sockfd names. *)
Definition single_client (w : world) : Prop :=
  open_fds w = if client_sockfd w =? 0 then [] else [client_sockfd w].

(** What is left of the tick once handle_server has run. *)
Definition tick_after_accept : M Z :=
  handle_client ;;;
  c <- get client_sockfd ;;
  if negb (c =? 0) then process_dap_requests else ret 0.

(** The descriptor accept is about to return is a new one, and not 0. *)
Definition accept_fresh (w : world) : Prop :=
  match backlog w with
  | Conn fd _ :: _ => 0 < fd /\ ~ In fd (open_fds w)
  | _ => True
  end.

(** Turns the probe may still have to retry: pending interruptions, and
    the pending error of the client socket. *)
Definition waits (w : world) : nat :=
  (intr w +
   match sock_lookup (client_sockfd w) (socks w) with
   | Some s => match so_error s with Some _ => 1 | None => 0 end
   | None => 0
   end)%nat.

(** What the pump is expected to do with the payloads ps of complete
    request frames, from the processor state st and the buffers req and
    resp: for each payload in turn, the command on the request buffer
    holding it, then the write of the framed response. *)
Fixpoint pump_events (c : Z) (ps : list (list byte)) (st : dap_state)
                     (req resp : list byte) : list event :=
  match ps with
  | [] => []
  | p :: ps' =>
      let req' := store req p in
      let '(x, resp', st') := DAP_ProcessCommand st req' resp in
      let n := Z.land x 0xFFFF in
      EvCommand req'
        :: EvWrite c
             (hdr_bytes (Hdr.mk DAP_PKT_HDR_SIGNATURE n DAP_PKT_TYPE_RESPONSE 0)
                ++ firstn (Z.to_nat n) resp')
             (n + sizeof_hdr)
        :: pump_events c ps' st' req' resp'
  end.

(** The header at the head of a queue. *)
Definition head_hdr (q : list byte) : Hdr.cmsis_dap_tcp_packet_hdr :=
  hdr_of_bytes (firstn 8 q).

(** recv_dap_request as a function of the queue alone: the result, the
    buffer and the queue it leaves. *)
Definition recv_stream (q buf : list byte) (len : Z)
  : Z * list byte * list byte :=
  let avail := Z.of_nat (List.length q) in
  if to_size_t avail <? sizeof_hdr then (0, buf, q) else
  let h := head_hdr q in
  if negb (Hdr.signature h =? DAP_PKT_HDR_SIGNATURE) then (-1, buf, skipn 8 q) else
  if negb (Hdr.packet_type h =? DAP_PKT_TYPE_REQUEST) then (-1, buf, skipn 8 q) else
  if to_size_t avail <? to_size_t (sizeof_hdr + Hdr.length h) then (0, buf, q) else
  if len <? Hdr.length h then (-1, buf, q) else
  let n := Z.to_nat (Hdr.length h) in
  (Hdr.length h, store buf (firstn n (skipn 8 q)), skipn n (skipn 8 q)).

(** ** The rest of the server: start-up, and polling *)

Definition set_server_sockfd (v : Z) (w : world) : world :=
  mkWorld (client_sockfd w) v (request w) (response w) (errno w) (socks w)
          (backlog w) (intr w) (wscript w) (trace w) (dap w).

(** What the kernel answers to the four calls of start_server that can
    fail: socket, bind, fcntl(F_SETFL) and listen. *)
Record listen_calls : Type := mkListenCalls {
  socket_ret : Z;
  bind_ret : Z;
  fcntl_ret : Z;
  listen_ret : Z
}.

(** start_server(port).  The result of setsockopt(SO_REUSEPORT) is ignored
    by the code. *)
Definition start_server (os : listen_calls) (port : Z) : M Z :=
  modify (set_server_sockfd (socket_ret os)) ;;;
  s <- get server_sockfd ;;
  if s <? 0 then
    fprintf_stderr "cmsis_dap_tcp: failed to open server socket." ;;;
    ret (-1)
  else
  if negb (bind_ret os =? 0) then
    fprintf_stderr "cmsis_dap_tcp: failed to bind server socket." ;;;
    ret (-1)
  else
  if fcntl_ret os <? 0 then
    fprintf_stderr "cmsis_dap_tcp: failed to set nonblocking server socket." ;;;
    ret (-1)
  else
  if listen_ret os <? 0 then
    fprintf_stderr "cmsis_dap_tcp: failed to listen to server socket." ;;;
    ret (-1)
  else
    fprintf_stderr "cmsis_dap_tcp: listening on port" ;;;
    ret 0.

(** cmsis_dap_tcp_init(port_number); its LOG_ERROR expands to nothing. *)
Definition cmsis_dap_tcp_init (os : listen_calls) (port_number : Z) : M Z :=
  r <- start_server os port_number ;;
  ret r.

(** n successive calls of cmsis_dap_tcp_process, nothing arriving in
    between: their results, in order. *)
Fixpoint ticks (n : nat) : M (list Z) :=
  match n with
  | O => ret []
  | S n' =>
      r <- cmsis_dap_tcp_process ;;
      rs <- ticks n' ;;
      ret (r :: rs)
  end.

(** The pump's turn on a head frame with payload p, up to the command: the
    response length the processor reports, the response buffer, and the
    world with the frame taken (rest stays queued) and the command run. *)
Definition run_command (p rest : list byte) (w : world) : Z * list byte * world :=
  let req' := store (request w) p in
  let '(x, resp', st') := DAP_ProcessCommand (dap w) req' (response w) in
  (Z.land x 0xFFFF, resp',
   set_dap st' (set_response resp'
     (emit (EvCommand req') (set_request req' (set_client_rx rest w))))).

Definition response_len (p rest : list byte) (w : world) : Z :=
  fst (fst (run_command p rest w)).
Definition response_buf (p rest : list byte) (w : world) : list byte :=
  snd (fst (run_command p rest w)).

(** The bytes send_dap_response hands to write for n bytes of buf. *)
Definition response_packet (n : Z) (buf : list byte) : list byte :=
  hdr_bytes (Hdr.mk DAP_PKT_HDR_SIGNATURE n DAP_PKT_TYPE_RESPONSE 0)
    ++ firstn (Z.to_nat n) buf.

End Server.

(** * Concrete processors and worlds *)

(** A stand-in command processor: a one-byte response echoing the command
    byte, no state. *)
#[export] Instance echo : CommandProcessor := {|
  dap_state := unit;
  DAP_ProcessCommand := fun st req resp => (1, store resp (firstn 1 req), st)
|}.

Definition zeros : list byte := repeat Byte.x00 1024.

(** A client on descriptor 3 with q queued, nothing else pending. *)
Definition client_world (q : list byte) : world :=
  mkWorld 3 2 zeros zeros 0 [(3, mkSock q false None)] [] 0 [] [] tt.

(** A client on descriptor 3 and a second connection, descriptor 4, in the
    listen queue. *)
Definition busy_world : world :=
  mkWorld 3 2 zeros zeros 0 [(3, mkSock [] false None)]
          [Conn 4 (mkSock [Byte.x01] false None)] 0 [] [] tt.

(** A client on descriptor 3 that has sent eight bytes that are no header,
    and a second connection, descriptor 4, in the listen queue. *)
Definition noisy_busy_world : world :=
  mkWorld 3 2 zeros zeros 0 [(3, mkSock (repeat Byte.x00 8) false None)]
          [Conn 4 (mkSock [] false None)] 0 [] [] tt.

(** A client whose next write takes only five bytes. *)
Definition short_write_world : world :=
  mkWorld 3 2 zeros zeros 0 [(3, mkSock [] false None)] [] 0 [5] [] tt.

(** A client whose peer has closed its write side, nothing queued. *)
Definition half_closed_world : world :=
  mkWorld 3 2 zeros zeros 0 [(3, mkSock [] true None)] [] 0 [] [] tt.

(** A client whose connection was reset (ECONNRESET, 104). *)
Definition reset_world : world :=
  mkWorld 3 2 zeros zeros 0 [(3, mkSock [] false (Some 104))] [] 0 [] [] tt.


(** A client on descriptor 3, nothing queued, and two signals that will
    interrupt a waiting recv. *)
Definition interrupted_world : world :=
  mkWorld 3 2 zeros zeros 0 [(3, mkSock [] false None)] [] 2 [] [] tt.

(** No client; one connection, descriptor 4, in the listen queue, the peer
    having already sent q. *)
Definition fresh_world (q : list byte) : world :=
  mkWorld 0 2 zeros zeros 0 [] [Conn 4 (mkSock q false None)] 0 [] [] tt.

(** No client, and an accept that fails with errno e. *)
Definition refused_world (e : Z) : world :=
  mkWorld 0 2 zeros zeros 0 [] [AcceptFail e] 0 [] [] tt.

(** A command processor that claims a response of 2000 bytes, and a client
    of it on descriptor 3 with q queued. *)
Definition chatty : CommandProcessor := {|
  dap_state := unit;
  DAP_ProcessCommand := fun st req resp => (2000, resp, st)
|}.

Definition chatty_world (q : list byte) : @world chatty :=
  @mkWorld chatty 3 2 zeros zeros 0 [(3, mkSock q false None)] [] 0 [] [] tt.

Ltac connected_here :=
  split; [simpl; lia | eexists; reflexivity].

(** Closed comparisons, by evaluation. *)
Ltac by_evaluation :=
  vm_compute; repeat split; first [reflexivity | discriminate].

Section Properties.

Context {processor : CommandProcessor}.

(** ** The socket table *)

Lemma sock_lookup_put_same fd s t : sock_lookup fd (sock_put fd s t) = Some s.
Proof.
  induction t as [|[k s0] t IH]; simpl.
  - now rewrite Z.eqb_refl.
  - destruct (k =? fd) eqn:E; simpl; now rewrite E.
Qed.

Lemma sock_put_put fd s1 s2 t :
  sock_put fd s2 (sock_put fd s1 t) = sock_put fd s2 t.
Proof.
  induction t as [|[k s0] t IH]; simpl.
  - now rewrite Z.eqb_refl.
  - destruct (k =? fd) eqn:E; simpl; rewrite E; congruence.
Qed.

Lemma sock_put_same fd s t : sock_lookup fd t = Some s -> sock_put fd s t = t.
Proof.
  induction t as [|[k s0] t IH]; simpl; [discriminate|].
  destruct (k =? fd) eqn:E; intros H.
  - congruence.
  - now rewrite IH.
Qed.

Lemma sock_remove_put_fresh fd s t :
  sock_lookup fd t = None -> sock_remove fd (sock_put fd s t) = t.
Proof.
  induction t as [|[k s0] t IH]; simpl.
  - now rewrite Z.eqb_refl.
  - destruct (k =? fd) eqn:E; [discriminate|]. intros H. simpl.
    rewrite E. now rewrite IH.
Qed.

Lemma set_rx_same s : set_rx (rx s) s = s.
Proof. now destruct s. Qed.

Lemma set_socks_same (w : world) : set_socks (socks w) w = w.
Proof. now destruct w. Qed.

Lemma set_client_rx_same (w : world) : set_client_rx (client_rx w) w = w.
Proof.
  unfold set_client_rx, client_rx.
  destruct (sock_lookup (client_sockfd w) (socks w)) as [s|] eqn:E; [|reflexivity].
  rewrite set_rx_same, (sock_put_same _ _ _ E). apply set_socks_same.
Qed.

Lemma client_rx_set_client_rx q (w : world) :
  connected w -> client_rx (set_client_rx q w) = q.
Proof.
  intros [_ [s E]]. unfold set_client_rx, client_rx. rewrite E. simpl.
  now rewrite sock_lookup_put_same.
Qed.

Lemma set_client_rx_twice q1 q2 (w : world) :
  set_client_rx q2 (set_client_rx q1 w) = set_client_rx q2 w.
Proof.
  unfold set_client_rx.
  destruct (sock_lookup (client_sockfd w) (socks w)) as [s|] eqn:E; simpl.
  - rewrite sock_lookup_put_same, sock_put_put. reflexivity.
  - now rewrite E.
Qed.

Lemma connected_set_client_rx q (w : world) :
  connected w -> connected (set_client_rx q w).
Proof.
  intros [N [s E]]. unfold connected, set_client_rx. rewrite E. simpl.
  split; [assumption|]. rewrite sock_lookup_put_same. eauto.
Qed.

(** ** Header bytes *)

Lemma length_hdr_bytes h : List.length (hdr_bytes h) = 8%nat.
Proof. reflexivity. Qed.

Lemma hdr_of_bytes_hdr_bytes h t :
  hdr_of_bytes (hdr_bytes h ++ t) =
  Hdr.mk (Hdr.signature h mod 2 ^ 32) (Hdr.length h mod 2 ^ 16)
         (Hdr.packet_type h mod 2 ^ 8) (Hdr.reserved h mod 2 ^ 8).
Proof.
  unfold hdr_of_bytes, hdr_bytes.
  cbv [le_split]. cbn [app firstn skipn nth].
  rewrite !byte.unsigned_of_Z. unfold byte.wrap.
  change [byte.of_Z (Hdr.signature h); byte.of_Z (Z.shiftr (Hdr.signature h) 8);
          byte.of_Z (Z.shiftr (Z.shiftr (Hdr.signature h) 8) 8);
          byte.of_Z (Z.shiftr (Z.shiftr (Z.shiftr (Hdr.signature h) 8) 8) 8)]
    with (le_split 4 (Hdr.signature h)).
  change [byte.of_Z (Hdr.length h); byte.of_Z (Z.shiftr (Hdr.length h) 8)]
    with (le_split 2 (Hdr.length h)).
  rewrite !le_combine_split. reflexivity.
Qed.

Lemma firstn_8_frame ty p t :
  firstn 8 (frame ty p ++ t) =
  hdr_bytes (Hdr.mk DAP_PKT_HDR_SIGNATURE (Z.of_nat (List.length p)) ty 0).
Proof. reflexivity. Qed.

Lemma skipn_8_frame ty p t : skipn 8 (frame ty p ++ t) = p ++ t.
Proof. reflexivity. Qed.

Lemma length_frame ty p : List.length (frame ty p) = (8 + List.length p)%nat.
Proof. reflexivity. Qed.

Lemma head_hdr_frame ty p t :
  0 <= ty < 256 -> Z.of_nat (List.length p) < 2 ^ 16 ->
  head_hdr (frame ty p ++ t) =
  Hdr.mk DAP_PKT_HDR_SIGNATURE (Z.of_nat (List.length p)) ty 0.
Proof.
  intros Hty Hp. unfold head_hdr. rewrite firstn_8_frame.
  rewrite <- (app_nil_r (hdr_bytes _)), hdr_of_bytes_hdr_bytes.
  cbn [Hdr.signature Hdr.length Hdr.packet_type Hdr.reserved].
  f_equal; try reflexivity; apply Z.mod_small; lia.
Qed.

Lemma to_size_t_small z : 0 <= z < 2 ^ 32 -> to_size_t z = z.
Proof. intros. unfold to_size_t. now apply Z.mod_small. Qed.

Lemma to_size_t_le z : 0 <= z -> to_size_t z <= z.
Proof. intros. unfold to_size_t. apply Z.mod_le; lia. Qed.

(** ** The socket primitives on an open client socket *)

Lemma bind_eq {A B} (m : M A) (k : A -> M B) w a w' :
  m w = Some (a, w') -> bind m k w = k a w'.
Proof. intros H. unfold bind. now rewrite H. Qed.

Lemma connected_client_rx (w : world) :
  connected w ->
  exists s, sock_lookup (client_sockfd w) (socks w) = Some s /\ rx s = client_rx w.
Proof.
  intros [_ [s E]]. exists s. split; [assumption|].
  unfold client_rx. now rewrite E.
Qed.

Lemma socket_available_connected (w : world) :
  connected w ->
  socket_available w = Some (Z.of_nat (List.length (client_rx w)), w).
Proof.
  intros C. destruct (connected_client_rx w C) as [s [E R]]. destruct C as [N _].
  unfold socket_available, bind, get, sys_ioctl_FIONREAD, ret.
  apply Z.eqb_neq in N. rewrite N, E. simpl. now rewrite R.
Qed.

Lemma socket_available_unconnected (w : world) :
  ~ connected w ->
  exists w', socket_available w = Some (0, w') /\
             client_sockfd w' = client_sockfd w /\ socks w' = socks w /\
             trace w' = trace w.
Proof.
  intros C. unfold socket_available, bind, get, sys_ioctl_FIONREAD, ret.
  destruct (Z.eqb_spec (client_sockfd w) 0) as [E|N]; [eauto|].
  destruct (sock_lookup (client_sockfd w) (socks w)) as [s|] eqn:E.
  - exfalso. apply C. split; eauto.
  - simpl. eauto.
Qed.

Lemma socket_peek_connected n (w : world) :
  connected w -> client_rx w <> [] ->
  socket_peek n w =
  Some ((Z.of_nat (List.length (firstn (Z.to_nat n) (client_rx w))),
         firstn (Z.to_nat n) (client_rx w)), w).
Proof.
  intros C Q. destruct (connected_client_rx w C) as [s [E R]]. destruct C as [N _].
  unfold socket_peek, bind, get, sys_recv. apply Z.eqb_neq in N. rewrite N, E, R.
  destruct (client_rx w); [congruence|reflexivity].
Qed.

Lemma socket_read_connected n (w : world) :
  connected w -> client_rx w <> [] ->
  socket_read n w =
  Some ((Z.of_nat (List.length (firstn (Z.to_nat n) (client_rx w))),
         firstn (Z.to_nat n) (client_rx w)),
        set_client_rx (skipn (Z.to_nat n) (client_rx w)) w).
Proof.
  intros C Q. destruct (connected_client_rx w C) as [s [E R]]. destruct C as [N _].
  unfold socket_read, bind, get, sys_recv, set_client_rx.
  apply Z.eqb_neq in N. rewrite N, E, R.
  destruct (client_rx w); [congruence|reflexivity].
Qed.

Lemma socket_read_0_empty (w : world) :
  connected w -> client_rx w = [] ->
  socket_read 0 w = Some ((0, []), w).
Proof.
  intros C Q. destruct (connected_client_rx w C) as [s [E R]]. destruct C as [N _].
  unfold socket_read, bind, get, sys_recv.
  apply Z.eqb_neq in N. rewrite N, E, R, Q. reflexivity.
Qed.

Lemma head_hdr_length_range q : 0 <= Hdr.length (head_hdr q) < 2 ^ 16.
Proof.
  unfold head_hdr, hdr_of_bytes. cbn [Hdr.length].
  pose proof (le_combine_bound (firstn 2 (skipn 4 (firstn 8 q)))) as B.
  pose proof (firstn_le_length 2 (skipn 4 (firstn 8 q))) as L.
  assert (2 ^ (8 * Z.of_nat (List.length (firstn 2 (skipn 4 (firstn 8 q))))) <= 2 ^ 16).
  { apply Z.pow_le_mono_r; lia. }
  lia.
Qed.

(** recv_dap_request on an open client socket is [recv_stream] on its queue. *)
Lemma recv_dap_request_stream (w : world) buf len :
  connected w ->
  recv_dap_request buf len w =
  let '(r, buf', q') := recv_stream (client_rx w) buf len in
  Some ((r, buf'), set_client_rx q' w).
Proof.
  intros C. unfold recv_dap_request, recv_stream.
  rewrite (bind_eq _ _ _ _ _ (socket_available_connected w C)).
  remember (client_rx w) as q eqn:Hq.
  destruct (to_size_t (Z.of_nat (List.length q)) <? sizeof_hdr) eqn:E1.
  { unfold ret. now rewrite Hq, set_client_rx_same. }
  apply Z.ltb_ge in E1. unfold sizeof_hdr in *.
  pose proof (to_size_t_le (Z.of_nat (List.length q)) ltac:(lia)) as L8.
  assert (Q : client_rx w <> []).
  { rewrite <- Hq. intros ->. simpl List.length in *. lia. }
  assert (F8 : List.length (firstn 8 q) = 8%nat).
  { rewrite length_firstn. lia. }
  rewrite (bind_eq _ _ _ _ _ (socket_peek_connected 8 w C Q)).
  rewrite <- Hq. change (Z.to_nat 8) with 8%nat. rewrite F8.
  change (Z.of_nat 8 <? 0) with false.
  change (to_size_t (Z.of_nat 8) <? 8) with false.
  cbv iota. unfold le_to_h_u32, le_to_h_u16.
  fold (head_hdr q).
  pose proof (head_hdr_length_range q) as Hn.
  set (h := head_hdr q) in *.
  pose proof (socket_read_connected 8 w C Q) as R8.
  rewrite <- Hq in R8. change (Z.to_nat 8) with 8%nat in R8. rewrite F8 in R8.
  destruct (negb (Hdr.signature h =? DAP_PKT_HDR_SIGNATURE)).
  { unfold bind at 1. rewrite R8. reflexivity. }
  destruct (negb (Hdr.packet_type h =? DAP_PKT_TYPE_REQUEST)).
  { unfold bind at 1. rewrite R8. reflexivity. }
  rewrite (bind_eq _ _ _ _ _ (socket_available_connected w C)), <- Hq.
  rewrite (to_size_t_small (8 + Hdr.length h)) by lia.
  destruct (to_size_t (Z.of_nat (List.length q)) <? 8 + Hdr.length h) eqn:E2.
  { unfold ret. now rewrite Hq, set_client_rx_same. }
  apply Z.ltb_ge in E2.
  destruct (len <? Hdr.length h) eqn:E3.
  { unfold ret. now rewrite Hq, set_client_rx_same. }
  rewrite (bind_eq _ _ _ _ _ R8).
  change (Z.of_nat 8 <? 0) with false.
  change (to_size_t (Z.of_nat 8) <? 8) with false.
  cbv iota. fold (head_hdr q). fold h.
  set (w1 := set_client_rx (skipn 8 q) w).
  assert (C1 : connected w1) by (apply connected_set_client_rx; assumption).
  assert (Q1 : client_rx w1 = skipn 8 q) by (apply client_rx_set_client_rx; assumption).
  assert (Lq : (8 + Z.to_nat (Hdr.length h) <= List.length q)%nat) by lia.
  destruct (skipn 8 q) as [|b q1] eqn:S8.
  - assert (Hdr.length h = 0).
    { pose proof (length_skipn 8 q) as SL. rewrite S8 in SL. simpl in SL. lia. }
    replace (Hdr.length h) with 0 in *.
    rewrite (bind_eq _ _ _ _ _ (socket_read_0_empty w1 C1 Q1)).
    reflexivity.
  - assert (Q1' : client_rx w1 <> []) by (rewrite Q1; discriminate).
    rewrite (bind_eq _ _ _ _ _ (socket_read_connected (Hdr.length h) w1 C1 Q1')).
    rewrite Q1.
    assert (Fn : List.length (firstn (Z.to_nat (Hdr.length h)) (b :: q1))
                 = Z.to_nat (Hdr.length h)).
    { rewrite length_firstn, <- S8, length_skipn. lia. }
    rewrite Fn, Z2Nat.id by lia.
    destruct (Z.ltb_spec (Hdr.length h) 0); [lia|].
    rewrite Z.ltb_irrefl. unfold ret, w1.
    now rewrite set_client_rx_twice.
Qed.

Lemma recv_dap_request_unconnected (w : world) buf len :
  ~ connected w ->
  exists w', recv_dap_request buf len w = Some ((0, buf), w') /\
             client_sockfd w' = client_sockfd w /\ socks w' = socks w /\
             trace w' = trace w.
Proof.
  intros C. destruct (socket_available_unconnected w C) as [w' [E I]].
  exists w'. split; [|exact I].
  unfold recv_dap_request. rewrite (bind_eq _ _ _ _ _ E). reflexivity.
Qed.

(** ** [recv_stream] on frames *)

Lemma recv_stream_request_frame p rest buf len :
  Z.of_nat (List.length p) < 2 ^ 16 ->
  Z.of_nat (List.length p) <= len ->
  Z.of_nat (List.length (request_frame p ++ rest)) < 2 ^ 32 ->
  recv_stream (request_frame p ++ rest) buf len =
  (Z.of_nat (List.length p), store buf p, rest).
Proof.
  intros Hp Hl Hq. unfold recv_stream, request_frame.
  rewrite head_hdr_frame by (unfold DAP_PKT_TYPE_REQUEST; lia).
  cbn [Hdr.signature Hdr.length Hdr.packet_type].
  rewrite !Z.eqb_refl. cbn [negb].
  rewrite skipn_8_frame.
  unfold request_frame in Hq.
  rewrite !to_size_t_small by (unfold sizeof_hdr; lia).
  rewrite length_app, length_frame in *. unfold sizeof_hdr.
  destruct (Z.ltb_spec (Z.of_nat (8 + List.length p + List.length rest)) 8); [lia|].
  destruct (Z.ltb_spec (Z.of_nat (8 + List.length p + List.length rest))
                       (8 + Z.of_nat (List.length p))); [lia|].
  destruct (Z.ltb_spec len (Z.of_nat (List.length p))); [lia|].
  rewrite Nat2Z.id, firstn_app, Nat.sub_diag, firstn_all, firstn_O, app_nil_r.
  rewrite skipn_app, Nat.sub_diag, skipn_all. reflexivity.
Qed.

Lemma recv_stream_short q buf len :
  Z.of_nat (List.length q) < 8 -> recv_stream q buf len = (0, buf, q).
Proof.
  intros H. unfold recv_stream, sizeof_hdr.
  rewrite to_size_t_small by lia.
  destruct (Z.ltb_spec (Z.of_nat (List.length q)) 8); [reflexivity|lia].
Qed.

Lemma recv_stream_prefix p k buf len :
  Z.of_nat (List.length p) < 2 ^ 16 ->
  (k < 8 + List.length p)%nat ->
  recv_stream (firstn k (request_frame p)) buf len =
  (0, buf, firstn k (request_frame p)).
Proof.
  intros Hp Hk.
  assert (Lk : List.length (firstn k (request_frame p)) = k).
  { rewrite length_firstn. unfold request_frame. rewrite length_frame. lia. }
  destruct (Nat.lt_ge_cases k 8) as [S8|G8].
  { apply recv_stream_short. lia. }
  unfold recv_stream. rewrite Lk.
  assert (HH : head_hdr (firstn k (request_frame p)) =
               Hdr.mk DAP_PKT_HDR_SIGNATURE (Z.of_nat (List.length p))
                      DAP_PKT_TYPE_REQUEST 0).
  { unfold head_hdr. rewrite firstn_firstn, Nat.min_l by assumption.
    rewrite <- (app_nil_r (request_frame p)).
    apply (head_hdr_frame DAP_PKT_TYPE_REQUEST p []);
      [unfold DAP_PKT_TYPE_REQUEST; lia | assumption]. }
  rewrite HH. cbn [Hdr.signature Hdr.length Hdr.packet_type].
  rewrite !Z.eqb_refl. cbn [negb]. unfold sizeof_hdr.
  rewrite !to_size_t_small by lia.
  destruct (Z.ltb_spec (Z.of_nat k) 8); [lia|].
  destruct (Z.ltb_spec (Z.of_nat k) (8 + Z.of_nat (List.length p))); [reflexivity|lia].
Qed.

(** * Partial arrival *)

(** C4: a proper prefix of a well-formed request frame, shorter than a
    header or not, makes recv_dap_request return 0 (no complete packet),
    never a packet or an error, and leaves the queue, the buffer and the
    rest of the world as they were. *)
Theorem recv_dap_request_partial_frame (w : world) p k buf len :
  connected w ->
  Z.of_nat (List.length p) < 2 ^ 16 ->
  (k < 8 + List.length p)%nat ->
  client_rx w = firstn k (request_frame p) ->
  recv_dap_request buf len w = Some ((0, buf), w).
Proof.
  intros C Hp Hk Hq.
  rewrite (recv_dap_request_stream w buf len C), Hq.
  rewrite (recv_stream_prefix p k buf len Hp Hk).
  now rewrite <- Hq, set_client_rx_same.
Qed.

(** * The receive buffer *)

Lemma connected_dec (w : world) : {connected w} + {~ connected w}.
Proof.
  unfold connected.
  destruct (Z.eq_dec (client_sockfd w) 0) as [E|N].
  - right. intros [H _]. contradiction.
  - destruct (sock_lookup (client_sockfd w) (socks w)) as [s|].
    + left. eauto.
    + right. intros [_ [s H]]. discriminate.
Qed.

Lemma skipn_store buf data k :
  (List.length data <= k)%nat -> skipn k (store buf data) = skipn k buf.
Proof.
  intros H. unfold store.
  rewrite skipn_app, skipn_all2, skipn_skipn by assumption.
  simpl. f_equal. lia.
Qed.

(** C10: recv_dap_request(buf, len) always returns, and writes at most len
    bytes into buf.  A positive result n is the length the header declares,
    is at most len, and exactly the n payload bytes were copied to the
    start of buf; on a zero or negative result, and whenever the declared
    length exceeds len, buf is as it was; bytes of buf from index len on
    are never touched. *)
Theorem recv_dap_request_buffer_bounds (w : world) buf len :
  exists r buf' w',
    recv_dap_request buf len w = Some ((r, buf'), w') /\
    let n := Hdr.length (head_hdr (client_rx w)) in
    let data := firstn (Z.to_nat n) (skipn 8 (client_rx w)) in
    (0 < r -> r = n /\ n <= len /\ Z.of_nat (List.length data) = n /\
              buf' = store buf data) /\
    (r <= 0 -> buf' = buf) /\
    (len < n -> buf' = buf) /\
    skipn (Z.to_nat len) buf' = skipn (Z.to_nat len) buf.
Proof.
  destruct (connected_dec w) as [C|C].
  2:{ destruct (recv_dap_request_unconnected w buf len C) as [w' [E _]].
      exists 0, buf, w'. split; [exact E|]. cbv zeta. repeat split; auto; intros; lia. }
  rewrite (recv_dap_request_stream w buf len C). unfold recv_stream.
  set (q := client_rx w). set (h := head_hdr q).
  pose proof (head_hdr_length_range q) as Hn. fold h in Hn.
  destruct (to_size_t (Z.of_nat (List.length q)) <? sizeof_hdr) eqn:E1.
  { do 3 eexists. split; [reflexivity|]. cbv zeta. repeat split; auto; intros; lia. }
  destruct (negb (Hdr.signature h =? DAP_PKT_HDR_SIGNATURE)).
  { do 3 eexists. split; [reflexivity|]. cbv zeta. repeat split; auto; intros; lia. }
  destruct (negb (Hdr.packet_type h =? DAP_PKT_TYPE_REQUEST)).
  { do 3 eexists. split; [reflexivity|]. cbv zeta. repeat split; auto; intros; lia. }
  unfold sizeof_hdr in *.
  rewrite (to_size_t_small (8 + Hdr.length h)) by lia.
  destruct (to_size_t (Z.of_nat (List.length q)) <? 8 + Hdr.length h) eqn:E2.
  { do 3 eexists. split; [reflexivity|]. cbv zeta. repeat split; auto; intros; lia. }
  destruct (len <? Hdr.length h) eqn:E3.
  { do 3 eexists. split; [reflexivity|]. cbv zeta. repeat split; auto; intros; lia. }
  apply Z.ltb_ge in E2, E3.
  pose proof (to_size_t_le (Z.of_nat (List.length q)) ltac:(lia)) as Lq.
  assert (Ld : List.length (firstn (Z.to_nat (Hdr.length h)) (skipn 8 q))
               = Z.to_nat (Hdr.length h)).
  { rewrite length_firstn, length_skipn. lia. }
  do 3 eexists. split; [reflexivity|]. cbv zeta. repeat split.
  - assumption.
  - rewrite Ld. lia.
  - intros Hr. assert (Hdr.length h = 0) as -> by lia. reflexivity.
  - lia.
  - apply skipn_store. rewrite Ld. lia.
Qed.

(** * Declared length beyond the buffer *)

(** C2, as the code has it: behind a header with the right signature and
    the REQUEST type whose declared length exceeds len, recv_dap_request
    returns -1 once header and declared payload are all queued and 0 (no
    complete packet) while fewer bytes are; either way nothing is consumed
    and nothing is copied. *)
Theorem recv_dap_request_length_beyond_buffer (w : world) buf len :
  connected w ->
  8 <= Z.of_nat (List.length (client_rx w)) < 2 ^ 32 ->
  Hdr.signature (head_hdr (client_rx w)) = DAP_PKT_HDR_SIGNATURE ->
  Hdr.packet_type (head_hdr (client_rx w)) = DAP_PKT_TYPE_REQUEST ->
  len < Hdr.length (head_hdr (client_rx w)) ->
  recv_dap_request buf len w =
  Some ((if Z.of_nat (List.length (client_rx w))
            <? sizeof_hdr + Hdr.length (head_hdr (client_rx w))
         then 0 else -1, buf), w).
Proof.
  intros C Hq Hs Ht Hl.
  rewrite (recv_dap_request_stream w buf len C). unfold recv_stream.
  pose proof (head_hdr_length_range (client_rx w)) as Hn.
  rewrite Hs, Ht, !Z.eqb_refl. cbn [negb]. unfold sizeof_hdr.
  rewrite !to_size_t_small by lia.
  destruct (Z.ltb_spec (Z.of_nat (List.length (client_rx w))) 8); [lia|].
  destruct (Z.of_nat (List.length (client_rx w))
              <? 8 + Hdr.length (head_hdr (client_rx w))).
  - now rewrite set_client_rx_same.
  - destruct (Z.ltb_spec len (Hdr.length (head_hdr (client_rx w)))); [|lia].
    now rewrite set_client_rx_same.
Qed.

(** * A header with a wrong signature *)

(** C3, as the code has it: when the first four queued bytes are not the
    signature, recv_dap_request returns -1 and discards exactly the eight
    header bytes it examined; if what follows those eight bytes is one
    complete valid request frame, the next call returns its payload intact
    and empties the queue. *)
Theorem recv_dap_request_bad_signature (w : world) buf len q :
  connected w ->
  client_rx w = q ->
  8 <= Z.of_nat (List.length q) < 2 ^ 32 ->
  Hdr.signature (head_hdr q) <> DAP_PKT_HDR_SIGNATURE ->
  recv_dap_request buf len w = Some ((-1, buf), set_client_rx (skipn 8 q) w) /\
  forall p,
    skipn 8 q = request_frame p ->
    Z.of_nat (List.length p) < 2 ^ 16 ->
    Z.of_nat (List.length p) <= len ->
    recv_dap_request buf len (set_client_rx (skipn 8 q) w) =
    Some ((Z.of_nat (List.length p), store buf p), set_client_rx [] w).
Proof.
  intros C Hq Hl Hs. split.
  - rewrite (recv_dap_request_stream w buf len C), Hq. unfold recv_stream.
    unfold sizeof_hdr. rewrite to_size_t_small by lia.
    destruct (Z.ltb_spec (Z.of_nat (List.length q)) 8); [lia|].
    apply Z.eqb_neq in Hs. rewrite Hs. reflexivity.
  - intros p Hp Hp16 Hlen.
    assert (C1 : connected (set_client_rx (skipn 8 q) w))
      by (apply connected_set_client_rx; assumption).
    rewrite (recv_dap_request_stream _ buf len C1).
    rewrite client_rx_set_client_rx by assumption.
    assert (Lp : (List.length (request_frame p) <= List.length q)%nat).
    { rewrite <- Hp, length_skipn. lia. }
    unfold request_frame in Lp. rewrite length_frame in Lp.
    rewrite Hp, <- (app_nil_r (request_frame p)).
    rewrite recv_stream_request_frame.
    + now rewrite set_client_rx_twice.
    + assumption.
    + assumption.
    + rewrite app_nil_r. unfold request_frame. rewrite length_frame. lia.
Qed.

(** * Framing round trip *)

Lemma recv_dap_request_empty_queue (w : world) buf len :
  connected w -> client_rx w = [] ->
  recv_dap_request buf len w = Some ((0, buf), w).
Proof.
  intros C Q. rewrite (recv_dap_request_stream w buf len C), Q.
  rewrite recv_stream_short by (simpl; lia).
  now rewrite <- Q, set_client_rx_same.
Qed.

Lemma recv_dap_request_prefix (w : world) p k buf len :
  connected w ->
  Z.of_nat (List.length p) < 2 ^ 16 ->
  (k < 8 + List.length p)%nat ->
  client_rx w = firstn k (request_frame p) ->
  recv_dap_request buf len w = Some ((0, buf), w).
Proof.
  intros C Hp Hk Hq.
  rewrite (recv_dap_request_stream w buf len C), Hq.
  rewrite (recv_stream_prefix p k buf len Hp Hk).
  now rewrite <- Hq, set_client_rx_same.
Qed.

Lemma recv_dap_request_complete (w : world) p rest buf len :
  connected w ->
  client_rx w = request_frame p ++ rest ->
  Z.of_nat (List.length p) < 2 ^ 16 ->
  Z.of_nat (List.length p) <= len ->
  Z.of_nat (List.length (client_rx w)) < 2 ^ 32 ->
  recv_dap_request buf len w =
  Some ((Z.of_nat (List.length p), store buf p), set_client_rx rest w).
Proof.
  intros C Hq Hp Hl Hb.
  rewrite (recv_dap_request_stream w buf len C), Hq.
  rewrite recv_stream_request_frame; congruence.
Qed.

Lemma feed_nil (w : world) : feed [] w = w.
Proof. unfold feed. rewrite app_nil_r. apply set_client_rx_same. Qed.

Lemma connected_feed c (w : world) : connected w -> connected (feed c w).
Proof. apply connected_set_client_rx. Qed.

Lemma client_rx_feed c (w : world) :
  connected w -> client_rx (feed c w) = client_rx w ++ c.
Proof. intros C. unfold feed. now apply client_rx_set_client_rx. Qed.

Lemma set_client_rx_feed q c (w : world) :
  set_client_rx q (feed c w) = set_client_rx q w.
Proof. unfold feed. apply set_client_rx_twice. Qed.

Lemma app_is_firstn {A} (l1 l2 l : list A) :
  l1 ++ l2 = l -> l1 = firstn (List.length l1) l.
Proof.
  intros <-. now rewrite firstn_app, Nat.sub_diag, firstn_all, firstn_O, app_nil_r.
Qed.

Lemma recv_chunks_cons c cs buf (w : world) r buf1 w1 :
  recv_dap_request buf sizeof_request (feed c w) = Some ((r, buf1), w1) ->
  recv_chunks (c :: cs) buf w =
  match recv_chunks cs buf1 w1 with
  | Some ((rs, buf2), w2) => Some ((r :: rs, buf2), w2)
  | None => None
  end.
Proof.
  intros H. cbn [recv_chunks]. unfold bind at 1. unfold modify at 1.
  rewrite (bind_eq _ _ _ _ _ H). unfold bind.
  destruct (recv_chunks cs buf1 w1) as [[[rs buf2] w2]|]; reflexivity.
Qed.

Lemma recv_chunks_idle cs buf (w : world) :
  connected w -> client_rx w = [] -> List.concat cs = [] ->
  recv_chunks cs buf w = Some ((repeat 0 (List.length cs), buf), w).
Proof.
  intros C Q. induction cs as [|c cs IH]; intros H; [reflexivity|].
  simpl in H. apply app_eq_nil in H. destruct H as [-> H].
  rewrite (recv_chunks_cons [] cs buf w 0 buf w).
  - now rewrite IH.
  - rewrite feed_nil. now apply recv_dap_request_empty_queue.
Qed.

Lemma recv_chunks_frame p : 
  Z.of_nat (List.length p) <= CMSIS_DAP_PACKET_SIZE ->
  forall cs buf (w : world),
    connected w ->
    client_rx w ++ List.concat cs = request_frame p ->
    (List.length (client_rx w) < 8 + List.length p)%nat ->
    exists k j,
      recv_chunks cs buf w =
      Some ((repeat 0 k ++ Z.of_nat (List.length p) :: repeat 0 j, store buf p),
            set_client_rx [] w).
Proof.
  intros Hp. unfold CMSIS_DAP_PACKET_SIZE in Hp.
  induction cs as [|c cs IH]; intros buf w C Hq Hl.
  { simpl in Hq. rewrite app_nil_r in Hq. rewrite Hq in Hl.
    unfold request_frame in Hl. rewrite length_frame in Hl. lia. }
  simpl in Hq. rewrite app_assoc in Hq.
  pose proof (connected_feed c w C) as C1.
  pose proof (client_rx_feed c w C) as Q1.
  pose proof (f_equal (@List.length byte) Hq) as HL.
  rewrite length_app in HL. unfold request_frame in HL. rewrite length_frame in HL.
  destruct (Nat.lt_ge_cases (List.length (client_rx w ++ c)) (8 + List.length p))
    as [Lt|Ge].
  - assert (R : recv_dap_request buf sizeof_request (feed c w)
                = Some ((0, buf), feed c w)).
    { apply (recv_dap_request_prefix _ p (List.length (client_rx w ++ c)));
        [assumption | lia | assumption |].
      rewrite Q1. now apply app_is_firstn with (l2 := List.concat cs). }
    rewrite (recv_chunks_cons c cs buf w _ _ _ R).
    destruct (IH buf (feed c w) C1) as [k [j E]].
    + now rewrite Q1.
    + now rewrite Q1.
    + exists (S k), j. rewrite E, set_client_rx_feed. reflexivity.
  - assert (Hc : List.concat cs = []).
    { apply length_zero_iff_nil. lia. }
    rewrite Hc, app_nil_r in Hq.
    assert (R : recv_dap_request buf sizeof_request (feed c w)
                = Some ((Z.of_nat (List.length p), store buf p),
                        set_client_rx [] (feed c w))).
    { apply recv_dap_request_complete; try assumption.
      - now rewrite Q1, Hq, app_nil_r.
      - lia.
      - rewrite Q1. lia. }
    rewrite (recv_chunks_cons c cs buf w _ _ _ R).
    rewrite recv_chunks_idle.
    + exists 0%nat, (List.length cs). now rewrite set_client_rx_feed.
    + now apply connected_set_client_rx.
    + now apply client_rx_set_client_rx.
    + assumption.
Qed.

(** C1, as the code has it: for every payload p of 0 to 1024 bytes, the
    REQUEST frame of p (the header send_dap_response writes, with the
    REQUEST type) arriving on an empty queue in pieces, however it is cut,
    with recv_dap_request called after each piece, comes back as exactly p:
    the calls return 0 until the frame is whole, then the length of p with
    p copied to the start of the buffer, then 0; the queue is empty again
    and nothing else has changed. *)
Theorem request_frame_round_trip (w : world) p chunks buf :
  connected w ->
  client_rx w = [] ->
  Z.of_nat (List.length p) <= CMSIS_DAP_PACKET_SIZE ->
  List.concat chunks = request_frame p ->
  exists k j buf',
    recv_chunks chunks buf w =
    Some ((repeat 0 k ++ Z.of_nat (List.length p) :: repeat 0 j, buf'), w) /\
    buf' = store buf p /\
    firstn (List.length p) buf' = p.
Proof.
  intros C Q Hp Hc.
  destruct (recv_chunks_frame p Hp chunks buf w C) as [k [j E]].
  - now rewrite Q.
  - rewrite Q. simpl. lia.
  - exists k, j, (store buf p). split; [|split].
    + rewrite E. now rewrite <- Q, set_client_rx_same.
    + reflexivity.
    + unfold store. now rewrite firstn_app, Nat.sub_diag, firstn_all, firstn_O, app_nil_r.
Qed.

(** * Sending a response *)

Lemma written_nil (w : world) : wscript w = [] -> written w = w.
Proof. unfold written. destruct w; simpl. now intros ->. Qed.

Lemma socket_write_connected (w : world) data len :
  connected w ->
  socket_write data len w =
  Some (next_write len w,
        emit (EvWrite (client_sockfd w) data (next_write len w)) (written w)).
Proof.
  intros [N [s E]]. unfold socket_write, bind, get, sys_write, next_write.
  apply Z.eqb_neq in N. rewrite N, E.
  destruct (wscript w) as [|r rs] eqn:W.
  - now rewrite written_nil.
  - unfold written. now rewrite W.
Qed.

Lemma send_dap_response_large (w : world) buf len :
  CMSIS_DAP_PACKET_SIZE < len < 2 ^ 31 \/ - 2 ^ 31 <= len < 0 ->
  send_dap_response buf len w =
  Some (-1, emit (EvLog "cmsis_dap_tcp: response too large for buffer!") w).
Proof.
  intros H. unfold send_dap_response, sizeof_packet_buf, sizeof_hdr,
    CMSIS_DAP_PACKET_SIZE in *.
  assert (G : (to_size_t len >? 1024 + 8 - 8) = true).
  { apply Z.gtb_lt. unfold to_size_t. destruct H as [H|H].
    - rewrite Z.mod_small; lia.
    - replace len with (len + 2 ^ 32 - 1 * 2 ^ 32) by lia.
      rewrite Zminus_mod, Z_mod_mult, Z.sub_0_r, Z.mod_mod by lia.
      rewrite Z.mod_small; lia. }
  rewrite G. reflexivity.
Qed.

Lemma send_dap_response_fits (w : world) buf len :
  connected w ->
  0 <= len <= CMSIS_DAP_PACKET_SIZE ->
  let wr := next_write (len + sizeof_hdr) w in
  send_dap_response buf len w =
  Some (if wr <? 0 then wr else if wr =? len + sizeof_hdr then 0 else -1,
        emit (EvWrite (client_sockfd w)
                (hdr_bytes (Hdr.mk DAP_PKT_HDR_SIGNATURE len DAP_PKT_TYPE_RESPONSE 0)
                   ++ firstn (Z.to_nat len) buf) wr)
             (written w)).
Proof.
  intros C H wr. unfold send_dap_response, sizeof_packet_buf, sizeof_hdr,
    CMSIS_DAP_PACKET_SIZE in *.
  rewrite to_size_t_small by lia.
  destruct (Z.gtb_spec len (1024 + 8 - 8)); [lia|].
  rewrite (bind_eq _ _ _ _ _ (socket_write_connected w _ _ C)).
  unfold h_u32_to_le, h_u16_to_le, to_u16. rewrite (Z.mod_small len) by lia.
  fold wr. destruct (wr <? 0); reflexivity.
Qed.

(** C7: send_dap_response fails with -1 without any write when the
    payload count exceeds CMSIS_DAP_PACKET_SIZE; otherwise it makes exactly
    one write of header plus payload, returns 0 exactly when that write
    reports header size plus payload size, and a negative result for every
    other count the write reports, with no second write. *)
Theorem send_dap_response_results (w : world) buf len :
  connected w ->
  - 2 ^ 31 <= len < 2 ^ 31 ->
  (CMSIS_DAP_PACKET_SIZE < len \/ len < 0 ->
   send_dap_response buf len w =
   Some (-1, emit (EvLog "cmsis_dap_tcp: response too large for buffer!") w)) /\
  (0 <= len <= CMSIS_DAP_PACKET_SIZE ->
   let wr := next_write (len + sizeof_hdr) w in
   exists r data,
     send_dap_response buf len w =
     Some (r, emit (EvWrite (client_sockfd w) data wr) (written w)) /\
     (r = 0 <-> wr = len + sizeof_hdr) /\
     (wr <> len + sizeof_hdr -> r < 0)).
Proof.
  intros C Hi. split.
  - intros H. apply send_dap_response_large. lia.
  - intros H wr. rewrite (send_dap_response_fits w buf len C H). fold wr.
    do 2 eexists. split; [reflexivity|].
    destruct (Z.ltb_spec wr 0); destruct (Z.eqb_spec wr (len + sizeof_hdr));
      unfold sizeof_hdr in *; split; try lia; intuition lia.
Qed.

(** C8: for a payload count n from 0 to 1024, send_dap_response hands to
    one write call exactly: the signature 0x00504144 low byte first
    (44 41 50 00), n as 16 bits low byte first, the type byte 0x02, a zero
    reserved byte, and the first n bytes of the payload buffer. *)
Theorem send_dap_response_wire_bytes (w : world) buf len :
  connected w ->
  0 <= len <= CMSIS_DAP_PACKET_SIZE ->
  len <= Z.of_nat (List.length buf) ->
  exists r wr w',
    send_dap_response buf len w = Some (r, w') /\
    trace w' =
    trace w ++
      [EvWrite (client_sockfd w)
         ([Byte.x44; Byte.x41; Byte.x50; Byte.x00]
            ++ [byte.of_Z len; byte.of_Z (Z.shiftr len 8)]
            ++ [Byte.x02; Byte.x00]
            ++ firstn (Z.to_nat len) buf) wr] /\
    le_combine [byte.of_Z len; byte.of_Z (Z.shiftr len 8)] = len /\
    List.length (firstn (Z.to_nat len) buf) = Z.to_nat len /\
    response_frame (firstn (Z.to_nat len) buf) =
    [Byte.x44; Byte.x41; Byte.x50; Byte.x00]
      ++ [byte.of_Z len; byte.of_Z (Z.shiftr len 8)]
      ++ [Byte.x02; Byte.x00]
      ++ firstn (Z.to_nat len) buf.
Proof.
  intros C H Hb. rewrite (send_dap_response_fits w buf len C H).
  assert (Lf : List.length (firstn (Z.to_nat len) buf) = Z.to_nat len).
  { rewrite length_firstn. lia. }
  do 3 eexists. split; [reflexivity|]. split; [|split; [|split]].
  - reflexivity.
  - change [byte.of_Z len; byte.of_Z (Z.shiftr len 8)] with (le_split 2 len).
    rewrite le_combine_split. apply Z.mod_small.
    unfold CMSIS_DAP_PACKET_SIZE in H. lia.
  - exact Lf.
  - unfold response_frame, frame. rewrite Lf, Z2Nat.id by lia. reflexivity.
Qed.

(** * Detecting that the peer is gone *)

Lemma sock_lookup_remove_same fd t : sock_lookup fd (sock_remove fd t) = None.
Proof.
  induction t as [|[k s] t IH]; simpl; [reflexivity|].
  destruct (k =? fd) eqn:E; simpl; [assumption|]. now rewrite E.
Qed.

Lemma socket_disconnected_loop_peek fuel (w : world) r d w1 :
  probe_peek w = Some ((r, d), w1) ->
  socket_disconnected_loop (S fuel) w =
  if r <? 0 then
    if errno w1 =? EINTR then socket_disconnected_loop fuel w1
    else if (errno w1 =? EAGAIN) || (errno w1 =? ETIMEDOUT) || (errno w1 =? ENOTCONN)
         then Some (b2z (r =? 0), w1)
         else Some (- errno w1, w1)
  else Some (b2z (r =? 0), w1).
Proof.
  unfold probe_peek. intros H. cbn [socket_disconnected_loop].
  unfold bind at 1 in H. unfold get at 1 in H.
  unfold bind at 1. unfold get at 1.
  rewrite (bind_eq _ _ _ _ _ H).
  destruct (r <? 0); [|reflexivity].
  unfold bind, get.
  destruct (errno w1 =? EINTR); [reflexivity|].
  destruct ((errno w1 =? EAGAIN) || (errno w1 =? ETIMEDOUT) || (errno w1 =? ENOTCONN));
    reflexivity.
Qed.

Lemma handle_client_result (w : world) d w1 :
  client_sockfd w <> 0 ->
  socket_disconnected w = Some (d, w1) ->
  client_sockfd w1 = client_sockfd w ->
  handle_client w = Some (0, if d =? 0 then w1 else disconnect_client w1).
Proof.
  intros N H Hc. unfold handle_client. unfold bind at 1. unfold get at 1.
  apply Z.eqb_neq in N. rewrite N.
  rewrite (bind_eq _ _ _ _ _ H).
  destruct (d =? 0); [reflexivity|].
  unfold disconnect_client. rewrite Hc. reflexivity.
Qed.

Lemma open_fds_put_existing fd s s0 t :
  sock_lookup fd t = Some s0 -> map fst (sock_put fd s t) = map fst t.
Proof.
  induction t as [|[k s1] t IH]; simpl; [discriminate|].
  destruct (k =? fd); [reflexivity|]. intros H. simpl. now rewrite IH.
Qed.

Lemma probe_peek_keeps (w : world) r d w1 :
  probe_peek w = Some ((r, d), w1) ->
  client_sockfd w1 = client_sockfd w /\ open_fds w1 = open_fds w.
Proof.
  unfold probe_peek, bind, get, sys_recv, open_fds.
  destruct (sock_lookup (client_sockfd w) (socks w)) as [s|] eqn:E.
  - destruct (rx s).
    + destruct (1 =? 0); [intros [= _ _ <-]; auto|].
      destruct (so_error s).
      { intros [= _ _ <-]. simpl. split; [reflexivity|].
        now apply open_fds_put_existing with (s0 := s). }
      destruct (peer_shut s); [intros [= _ _ <-]; auto|].
      destruct (intr w); intros [= _ _ <-]; auto.
    + intros [= _ _ <-]. auto.
  - intros [= _ _ <-]. auto.
Qed.

Lemma probe_peek_client_rx (w : world) r d w1 :
  probe_peek w = Some ((r, d), w1) -> client_rx w1 = client_rx w.
Proof.
  unfold probe_peek, bind, get, sys_recv, client_rx.
  destruct (sock_lookup (client_sockfd w) (socks w)) as [s|] eqn:E.
  - destruct (rx s) eqn:R.
    + destruct (1 =? 0); [intros [= _ _ <-]; now rewrite E|].
      destruct (so_error s).
      { intros [= _ _ <-]. simpl. now rewrite sock_lookup_put_same. }
      destruct (peer_shut s); [intros [= _ _ <-]; now rewrite E|].
      destruct (intr w); intros [= _ _ <-]; simpl; now rewrite E.
    + intros [= _ _ <-]. now rewrite E.
  - intros [= _ _ <-]. simpl. now rewrite E.
Qed.

Lemma probe_peek_client_sockfd (w : world) r d w1 :
  probe_peek w = Some ((r, d), w1) -> client_sockfd w1 = client_sockfd w.
Proof. intros P. exact (proj1 (probe_peek_keeps w r d w1 P)). Qed.

Lemma disconnect_client_closed (w : world) :
  client_sockfd (disconnect_client w) = 0 /\
  sock_lookup (client_sockfd w) (socks (disconnect_client w)) = None /\
  trace (disconnect_client w) =
  trace w ++ [EvLog "cmsis_dap_tcp: client disconnected."; EvClose (client_sockfd w)].
Proof.
  unfold disconnect_client. cbn. split; [reflexivity|]. split.
  - apply sock_lookup_remove_same.
  - now rewrite <- app_assoc.
Qed.

(** C9: with a client connected, let the probe's one-byte MSG_PEEK recv
    return r.  If r is 0 the probe returns 1 and handle_client closes the
    socket and clears client_sockfd.  If it fails with EAGAIN, ETIMEDOUT or
    ENOTCONN the probe returns 0 and the connection stays.  The peek
    consumes nothing.  If it fails
    with any other errno that is not retried, the probe returns minus that
    errno, which is not zero, and handle_client tears the connection down
    as well.  When the peer has closed its write side and nothing is
    queued or pending, the very next probe returns 1. *)
Theorem socket_disconnected_probe (w : world) r d w1 :
  client_sockfd w <> 0 ->
  probe_peek w = Some ((r, d), w1) ->
  client_rx w1 = client_rx w /\
  (r = 0 ->
   socket_disconnected w = Some (1, w1) /\
   handle_client w = Some (0, disconnect_client w1) /\
   client_sockfd (disconnect_client w1) = 0 /\
   sock_lookup (client_sockfd w) (socks (disconnect_client w1)) = None) /\
  (r < 0 ->
   errno w1 = EAGAIN \/ errno w1 = ETIMEDOUT \/ errno w1 = ENOTCONN ->
   socket_disconnected w = Some (0, w1) /\
   handle_client w = Some (0, w1) /\
   client_sockfd w1 = client_sockfd w /\ open_fds w1 = open_fds w) /\
  (r < 0 -> hard_error (errno w1) -> 0 < errno w1 ->
   socket_disconnected w = Some (- errno w1, w1) /\
   handle_client w = Some (0, disconnect_client w1) /\
   client_sockfd (disconnect_client w1) = 0 /\
   sock_lookup (client_sockfd w) (socks (disconnect_client w1)) = None) /\
  (forall s,
     sock_lookup (client_sockfd w) (socks w) = Some s ->
     rx s = [] -> so_error s = None -> peer_shut s = true ->
     socket_disconnected w = Some (1, w) /\
     handle_client w = Some (0, disconnect_client w)).
Proof.
  intros N P.
  pose proof (probe_peek_client_sockfd w r d w1 P) as Hc.
  pose proof (socket_disconnected_loop_peek (S (intr w)) w r d w1 P) as L.
  assert (SD : socket_disconnected w = socket_disconnected_loop (S (S (intr w))) w)
    by reflexivity.
  destruct (disconnect_client_closed w1) as [D1 [D2 _]]. rewrite Hc in D2.
  split; [exact (probe_peek_client_rx w r d w1 P)|].
  split; [|split; [|split]].
  - intros ->.
    assert (S0 : socket_disconnected w = Some (1, w1)) by (now rewrite SD, L).
    rewrite (handle_client_result w 1 w1 N S0 Hc). auto.
  - intros Hr He.
    assert (S0 : socket_disconnected w = Some (0, w1)).
    { rewrite SD, L. destruct (Z.ltb_spec r 0); [|lia].
      destruct (Z.eqb_spec r 0); [lia|].
      unfold EINTR, EAGAIN, ETIMEDOUT, ENOTCONN in *.
      destruct He as [-> | [-> | ->]]; reflexivity. }
    rewrite (handle_client_result w 0 w1 N S0 Hc).
    repeat split; try assumption.
    exact (proj2 (probe_peek_keeps w r d w1 P)).
  - intros Hr [E1 [E2 [E3 E4]]] Hp.
    assert (S0 : socket_disconnected w = Some (- errno w1, w1)).
    { rewrite SD, L. destruct (Z.ltb_spec r 0); [|lia].
      apply Z.eqb_neq in E1, E2, E3, E4. now rewrite E1, E2, E3, E4. }
    rewrite (handle_client_result w _ w1 N S0 Hc).
    destruct (Z.eqb_spec (- errno w1) 0); [lia|]. auto.
  - intros s Hs Hrx Herr Hshut.
    assert (P0 : probe_peek w = Some ((0, []), w)).
    { unfold probe_peek, bind, get, sys_recv. now rewrite Hs, Hrx, Herr, Hshut. }
    assert (S0 : socket_disconnected w = Some (1, w)).
    { rewrite SD, (socket_disconnected_loop_peek (S (intr w)) w 0 [] w P0). reflexivity. }
    now rewrite (handle_client_result w 1 w N S0 eq_refl).
Qed.

(** * One client at a time *)

Lemma probe_peek_total (w : world) :
  exists r d w1, probe_peek w = Some ((r, d), w1).
Proof.
  unfold probe_peek, bind, get, sys_recv.
  destruct (sock_lookup (client_sockfd w) (socks w)) as [s|]; [|eauto].
  destruct (rx s); [|eauto].
  destruct (1 =? 0); [eauto|].
  destruct (so_error s); [eauto|].
  destruct (peer_shut s); [eauto|].
  destruct (intr w); eauto.
Qed.

Lemma probe_peek_progress (w : world) r d w1 :
  probe_peek w = Some ((r, d), w1) ->
  r < 0 -> errno w1 = EINTR -> (waits w1 < waits w)%nat.
Proof.
  unfold probe_peek, bind, get, sys_recv, waits.
  destruct (sock_lookup (client_sockfd w) (socks w)) as [s|] eqn:E.
  - destruct (rx s).
    + destruct (1 =? 0); [intros [= <- _ <-]; lia|].
      destruct (so_error s) eqn:SE.
      { intros [= <- _ <-] _ _. cbn [client_sockfd socks intr set_errno set_socks].
        rewrite sock_lookup_put_same. simpl. lia. }
      destruct (peer_shut s); [intros [= <- _ <-]; lia|].
      destruct (intr w) eqn:I.
      * intros [= <- _ <-] _. simpl. discriminate.
      * intros [= <- _ <-] _ _.
        cbn [client_sockfd socks intr set_errno set_intr]. rewrite E, SE. lia.
    + intros [= <- _ <-]. lia.
  - intros [= <- _ <-] _. simpl. discriminate.
Qed.

Lemma socket_disconnected_loop_total fuel :
  forall w : world,
    (waits w < fuel)%nat ->
    exists d w1,
      socket_disconnected_loop fuel w = Some (d, w1) /\
      client_sockfd w1 = client_sockfd w /\ open_fds w1 = open_fds w.
Proof.
  induction fuel as [|fuel IH]; intros w Hw; [lia|].
  destruct (probe_peek_total w) as [r [d [w1 P]]].
  destruct (probe_peek_keeps w r d w1 P) as [K1 K2].
  rewrite (socket_disconnected_loop_peek fuel w r d w1 P).
  destruct (Z.ltb_spec r 0); [|eauto].
  destruct (Z.eqb_spec (errno w1) EINTR) as [E|E].
  - pose proof (probe_peek_progress w r d w1 P H E) as Pr.
    destruct (IH w1 ltac:(lia)) as [d' [w2 [L [K3 K4]]]].
    exists d', w2. split; [assumption|]. split; congruence.
  - destruct ((errno w1 =? EAGAIN) || (errno w1 =? ETIMEDOUT) || (errno w1 =? ENOTCONN));
      eauto.
Qed.

Lemma socket_disconnected_total (w : world) :
  exists d w1,
    socket_disconnected w = Some (d, w1) /\
    client_sockfd w1 = client_sockfd w /\ open_fds w1 = open_fds w.
Proof.
  apply (socket_disconnected_loop_total (S (S (intr w))) w).
  unfold waits.
  destruct (sock_lookup (client_sockfd w) (socks w)) as [s|];
    [destruct (so_error s)|]; lia.
Qed.

Lemma socket_disconnected_loop_client_rx fuel :
  forall (w : world) d w1,
    socket_disconnected_loop fuel w = Some (d, w1) -> client_rx w1 = client_rx w.
Proof.
  induction fuel as [|fuel IH]; intros w d w1; [discriminate|].
  destruct (probe_peek_total w) as [r [x [w0 P]]].
  rewrite (socket_disconnected_loop_peek fuel w r x w0 P).
  pose proof (probe_peek_client_rx w r x w0 P) as K.
  destruct (r <? 0); [|intros [= _ <-]; exact K].
  destruct (errno w0 =? EINTR).
  - intros H. rewrite (IH w0 d w1 H). exact K.
  - destruct ((errno w0 =? EAGAIN) || (errno w0 =? ETIMEDOUT) || (errno w0 =? ENOTCONN));
      intros [= _ <-]; exact K.
Qed.

Lemma single_client_socks (w : world) :
  single_client w -> client_sockfd w <> 0 ->
  exists s, socks w = [(client_sockfd w, s)].
Proof.
  unfold single_client, open_fds. intros H N.
  apply Z.eqb_neq in N. rewrite N in H.
  destruct (socks w) as [|[k s] [|x t]]; try discriminate.
  injection H as <-. eauto.
Qed.

Lemma single_client_connected (w : world) :
  single_client w -> client_sockfd w <> 0 -> connected w.
Proof.
  intros H N. destruct (single_client_socks w H N) as [s E].
  split; [assumption|]. exists s. rewrite E. simpl. now rewrite Z.eqb_refl.
Qed.

Lemma handle_client_total (w : world) :
  single_client w ->
  exists w', handle_client w = Some (0, w') /\ single_client w'.
Proof.
  intros S.
  destruct (Z.eq_dec (client_sockfd w) 0) as [E|N].
  { exists w. split; [|assumption].
    unfold handle_client, bind, get. now rewrite E. }
  destruct (socket_disconnected_total w) as [d [w1 [SD [K1 K2]]]].
  rewrite (handle_client_result w d w1 N SD K1).
  assert (S1 : single_client w1).
  { unfold single_client. now rewrite K1, K2. }
  destruct (d =? 0); [eauto|].
  eexists. split; [reflexivity|].
  destruct (single_client_socks w1 S1 ltac:(congruence)) as [s E].
  unfold single_client, disconnect_client, open_fds. cbn.
  rewrite E. simpl. now rewrite Z.eqb_refl.
Qed.

Lemma send_dap_response_keeps (w : world) buf len :
  exists r w',
    send_dap_response buf len w = Some (r, w') /\
    client_sockfd w' = client_sockfd w /\ socks w' = socks w.
Proof.
  unfold send_dap_response.
  destruct (to_size_t len >? sizeof_packet_buf - sizeof_hdr).
  { do 2 eexists. split; [reflexivity|]. auto. }
  cbv zeta. unfold bind at 1.
  set (data := hdr_bytes _ ++ _). clearbody data.
  unfold socket_write, bind, get, sys_write.
  destruct (client_sockfd w =? 0).
  { do 2 eexists. split; [reflexivity|]. auto. }
  destruct (sock_lookup (client_sockfd w) (socks w)).
  - destruct (wscript w) as [|r rs].
    + destruct (len + sizeof_hdr <? 0); do 2 eexists; (split; [reflexivity|]); auto.
    + destruct (r <? 0); do 2 eexists; (split; [reflexivity|]); auto.
  - do 2 eexists. split; [reflexivity|]. auto.
Qed.

Lemma recv_stream_consumes q buf len r buf' q' :
  recv_stream q buf len = (r, buf', q') -> 0 < r ->
  (List.length q' < List.length q)%nat.
Proof.
  unfold recv_stream.
  pose proof (head_hdr_length_range q) as Hn.
  set (n := Hdr.length (head_hdr q)) in *. clearbody n.
  set (q8 := skipn 8 q).
  assert (L8 : List.length q8 = (List.length q - 8)%nat) by apply length_skipn.
  clearbody q8.
  destruct (to_size_t (Z.of_nat (List.length q)) <? sizeof_hdr); [intros [= <- _ _]; lia|].
  destruct (negb _); [intros [= <- _ _]; lia|].
  destruct (negb _); [intros [= <- _ _]; lia|].
  unfold sizeof_hdr. rewrite (to_size_t_small (8 + _)) by lia.
  destruct (Z.ltb_spec (to_size_t (Z.of_nat (List.length q))) (8 + n));
    [intros [= <- _ _]; lia|].
  destruct (len <? _); [intros [= <- _ _]; lia|].
  intros [= <- _ <-] Hr.
  pose proof (to_size_t_le (Z.of_nat (List.length q)) ltac:(lia)).
  rewrite !length_skipn. lia.
Qed.

Lemma open_fds_set_client_rx q (w : world) :
  open_fds (set_client_rx q w) = open_fds w.
Proof.
  unfold set_client_rx, open_fds.
  destruct (sock_lookup (client_sockfd w) (socks w)) as [s|] eqn:E; [|reflexivity].
  simpl. now apply open_fds_put_existing with (s0 := s).
Qed.

Lemma client_sockfd_set_client_rx q (w : world) :
  client_sockfd (set_client_rx q w) = client_sockfd w.
Proof.
  unfold set_client_rx.
  destruct (sock_lookup (client_sockfd w) (socks w)); reflexivity.
Qed.

Lemma recv_dap_request_keeps (w : world) buf len :
  exists r buf' w',
    recv_dap_request buf len w = Some ((r, buf'), w') /\
    client_sockfd w' = client_sockfd w /\ open_fds w' = open_fds w /\
    (0 < r -> (List.length (client_rx w') < List.length (client_rx w))%nat).
Proof.
  destruct (connected_dec w) as [C|C].
  - rewrite (recv_dap_request_stream w buf len C).
    destruct (recv_stream (client_rx w) buf len) as [[r buf'] q'] eqn:E.
    exists r, buf', (set_client_rx q' w). split; [reflexivity|].
    split; [apply client_sockfd_set_client_rx|].
    split; [apply open_fds_set_client_rx|].
    intros Hr. rewrite client_rx_set_client_rx by assumption.
    exact (recv_stream_consumes _ _ _ _ _ _ E Hr).
  - destruct (recv_dap_request_unconnected w buf len C) as [w' [E [K1 [K2 _]]]].
    exists 0, buf, w'. split; [exact E|]. split; [exact K1|].
    split; [unfold open_fds; now rewrite K2|]. lia.
Qed.

Lemma client_rx_ext (a b : world) :
  client_sockfd a = client_sockfd b -> socks a = socks b ->
  client_rx a = client_rx b.
Proof. unfold client_rx. now intros -> ->. Qed.

Lemma process_dap_requests_loop_step fuel (w : world) r req' w1 :
  recv_dap_request (request w) sizeof_request w = Some ((r, req'), w1) ->
  process_dap_requests_loop (S fuel) w =
  if r <=? 0 then Some (r, set_request req' w1)
  else
    let '(x, resp', st') := DAP_ProcessCommand (dap w1) req' (response w1) in
    match send_dap_response resp' (Z.land x 0xFFFF)
            (set_dap st' (set_response resp'
               (emit (EvCommand req') (set_request req' w1)))) with
    | Some (r2, w2) =>
        if r2 <? 0 then Some (r2, w2) else process_dap_requests_loop fuel w2
    | None => None
    end.
Proof.
  intros H. cbn [process_dap_requests_loop].
  unfold bind at 1. unfold get at 1.
  rewrite (bind_eq _ _ _ _ _ H).
  unfold bind at 1. unfold modify at 1.
  destruct (r <=? 0); [reflexivity|].
  unfold bind at 1. unfold get at 1.
  unfold bind at 1. unfold get at 1.
  unfold bind at 1. unfold modify at 1.
  cbn [response dap set_request emit set_trace].
  destruct (DAP_ProcessCommand (dap w1) req' (response w1)) as [[x resp'] st'].
  unfold bind at 1. unfold modify at 1.
  unfold bind at 1. unfold modify at 1.
  unfold bind at 1.
  match goal with
  | |- match ?a with _ => _ end = match ?b with _ => _ end =>
      change a with b; destruct b as [[r2 w2]|]; [|reflexivity]
  end.
  destruct (r2 <? 0); reflexivity.
Qed.

Lemma process_dap_requests_loop_total fuel :
  forall w : world,
    (List.length (client_rx w) < fuel)%nat ->
    exists r w',
      process_dap_requests_loop fuel w = Some (r, w') /\
      client_sockfd w' = client_sockfd w /\ open_fds w' = open_fds w.
Proof.
  induction fuel as [|fuel IH]; intros w Hw; [lia|].
  destruct (recv_dap_request_keeps w (request w) sizeof_request)
    as [r [req' [w1 [E [K1 [K2 K3]]]]]].
  rewrite (process_dap_requests_loop_step fuel w r req' w1 E).
  destruct (Z.leb_spec r 0) as [Hr|Hr].
  { do 2 eexists. split; [reflexivity|]. auto. }
  destruct (DAP_ProcessCommand (dap w1) req' (response w1)) as [[x resp'] st'].
  set (w1' := set_dap st' _).
  destruct (send_dap_response_keeps w1' resp' (Z.land x 0xFFFF))
    as [r2 [w2 [E2 [K4 K5]]]].
  rewrite E2.
  destruct (r2 <? 0).
  { do 2 eexists. split; [reflexivity|]. split.
    - now rewrite K4.
    - unfold open_fds in *. now rewrite K5. }
  assert (Q : client_rx w2 = client_rx w1).
  { apply client_rx_ext; [now rewrite K4 | now rewrite K5]. }
  destruct (IH w2) as [r3 [w3 [E3 [K6 K7]]]].
  { rewrite Q. specialize (K3 Hr). lia. }
  exists r3, w3. split; [exact E3|]. split.
  - now rewrite K6, K4.
  - rewrite K7. unfold open_fds in *. now rewrite K5.
Qed.

Lemma process_dap_requests_loop_nonpositive fuel :
  forall (w : world) r w',
    process_dap_requests_loop fuel w = Some (r, w') -> r <= 0.
Proof.
  induction fuel as [|fuel IH]; intros w r w'; [discriminate|].
  destruct (recv_dap_request_keeps w (request w) sizeof_request)
    as [r0 [req' [w1 [E _]]]].
  rewrite (process_dap_requests_loop_step fuel w r0 req' w1 E).
  destruct (Z.leb_spec r0 0) as [Hr|Hr]; [intros [= <- _]; exact Hr|].
  destruct (DAP_ProcessCommand (dap w1) req' (response w1)) as [[x resp'] st'].
  destruct (send_dap_response _ _ _) as [[r2 w2]|]; [|discriminate].
  destruct (Z.ltb_spec r2 0); [intros [= <- _]; lia|apply IH].
Qed.

Lemma process_dap_requests_short (w : world) :
  connected w ->
  Z.of_nat (List.length (client_rx w)) < 8 ->
  process_dap_requests w = Some (0, w).
Proof.
  intros C Q.
  assert (E : recv_dap_request (request w) sizeof_request w =
              Some ((0, request w), w)).
  { rewrite (recv_dap_request_stream w _ _ C), (recv_stream_short _ _ _ Q).
    now rewrite set_client_rx_same. }
  change (process_dap_requests w)
    with (process_dap_requests_loop (S (List.length (client_rx w))) w).
  rewrite (process_dap_requests_loop_step _ w 0 (request w) w E).
  cbn [Z.leb Z.compare]. now destruct w.
Qed.

Lemma process_dap_requests_total (w : world) :
  exists r w',
    process_dap_requests w = Some (r, w') /\
    client_sockfd w' = client_sockfd w /\ open_fds w' = open_fds w.
Proof.
  apply (process_dap_requests_loop_total (S (List.length (client_rx w))) w). lia.
Qed.

Lemma process_dap_requests_idle (w : world) :
  connected w -> client_rx w = [] ->
  process_dap_requests w = Some (0, w).
Proof.
  intros C Q. unfold process_dap_requests, bind, get. rewrite Q.
  cbn [List.length].
  rewrite (process_dap_requests_loop_step 0 w 0 (request w) w
             (recv_dap_request_empty_queue w _ _ C Q)).
  cbn [Z.leb Z.compare]. now destruct w.
Qed.

Lemma tick_after_accept_total (w : world) :
  single_client w ->
  exists r w', tick_after_accept w = Some (r, w') /\ single_client w'.
Proof.
  intros S. destruct (handle_client_total w S) as [w1 [H S1]].
  unfold tick_after_accept. rewrite (bind_eq _ _ _ _ _ H).
  unfold bind, get.
  destruct (client_sockfd w1 =? 0) eqn:E; simpl.
  - do 2 eexists. split; [reflexivity|assumption].
  - destruct (process_dap_requests_total w1) as [r [w2 [P [K1 K2]]]].
    exists r, w2. split; [exact P|].
    unfold single_client in *. now rewrite K1, K2.
Qed.

Lemma sock_lookup_not_open fd t :
  ~ In fd (map fst t) -> sock_lookup fd t = None.
Proof.
  induction t as [|[k s] t IH]; simpl; [reflexivity|].
  intros H. destruct (Z.eqb_spec k fd); [tauto|]. apply IH. tauto.
Qed.

Lemma handle_server_drop (w : world) fd s2 rest :
  client_sockfd w <> 0 ->
  backlog w = Conn fd s2 :: rest ->
  0 <= fd ->
  ~ In fd (open_fds w) ->
  handle_server w =
  Some (0, emit (EvClose fd)
             (emit (EvLog "cmsis_dap_tcp: dropping new connection.")
                (set_backlog rest w))).
Proof.
  intros N B F O. apply sock_lookup_not_open in O.
  unfold handle_server, bind, sys_accept, get, fprintf_stderr, modify, sys_close.
  rewrite B. destruct (Z.ltb_spec fd 0); [lia|].
  cbn [client_sockfd set_socks set_backlog]. apply Z.eqb_neq in N. rewrite N.
  cbn [negb]. cbn [socks emit set_trace set_socks].
  rewrite (sock_remove_put_fresh fd s2 (socks w) O).
  destruct w; reflexivity.
Qed.

Lemma handle_server_total (w : world) :
  single_client w -> accept_fresh w ->
  exists r w', handle_server w = Some (r, w') /\ single_client w'.
Proof.
  intros S A. unfold accept_fresh in A.
  destruct (backlog w) as [|[fd s2|e] rest] eqn:B.
  - unfold handle_server, bind, sys_accept, get. rewrite B. simpl.
    do 2 eexists. split; [reflexivity|]. exact S.
  - destruct A as [F O].
    destruct (Z.eq_dec (client_sockfd w) 0) as [E|N].
    + unfold single_client, open_fds in S. rewrite E in S. simpl in S.
      apply map_eq_nil in S.
      unfold handle_server, bind, sys_accept, get, fprintf_stderr, modify,
        sys_fcntl_nonblock.
      rewrite B. destruct (Z.ltb_spec fd 0); [lia|].
      cbn [client_sockfd set_socks set_backlog]. rewrite E. cbn [Z.eqb negb].
      cbn [socks emit set_trace set_socks set_client_sockfd].
      rewrite S. cbn [sock_put sock_lookup]. rewrite Z.eqb_refl. cbn.
      do 2 eexists. split; [reflexivity|].
      unfold single_client, open_fds. cbn.
      destruct (Z.eqb_spec fd 0); [lia|reflexivity].
    + rewrite (handle_server_drop w fd s2 rest N B ltac:(lia) O).
      do 2 eexists. split; [reflexivity|]. exact S.
  - unfold handle_server, bind, sys_accept, get. rewrite B. simpl.
    destruct ((e =? EWOULDBLOCK) || (e =? EAGAIN));
      do 2 eexists; (split; [reflexivity|]); exact S.
Qed.

Lemma cmsis_dap_tcp_process_single_client (w : world) :
  single_client w -> accept_fresh w ->
  exists r w', cmsis_dap_tcp_process w = Some (r, w') /\ single_client w'.
Proof.
  intros S A. destruct (handle_server_total w S A) as [r0 [w0 [H S0]]].
  change cmsis_dap_tcp_process with (bind handle_server (fun _ => tick_after_accept)).
  rewrite (bind_eq _ _ _ _ _ H).
  now apply tick_after_accept_total.
Qed.

(** C6: with a client connected, a second connection waiting in the listen
    queue is accepted and closed at once by handle_server, which returns 0:
    the dropped connection itself raises no error.  The world changes only
    by the queue entry taken and by the log line and the close on the trace:
    client_sockfd, the client's socket and its queue stay as they were.
    The rest of the tick, handle_client and the pump, runs from that world
    and returns; its result is never positive, and is 0 whenever the client
    has fewer than eight bytes queued, so an error result comes only from
    what the client itself has sent.  At most one connection is open
    afterwards, the one client_sockfd names. *)
Theorem second_connection_dropped (w : world) fd s2 rest :
  connected w ->
  single_client w ->
  backlog w = Conn fd s2 :: rest ->
  0 <= fd ->
  ~ In fd (open_fds w) ->
  let w0 := emit (EvClose fd)
              (emit (EvLog "cmsis_dap_tcp: dropping new connection.")
                 (set_backlog rest w)) in
  handle_server w = Some (0, w0) /\
  client_sockfd w0 = client_sockfd w /\
  socks w0 = socks w /\
  sock_lookup fd (socks w0) = None /\
  cmsis_dap_tcp_process w = tick_after_accept w0 /\
  exists r w',
    cmsis_dap_tcp_process w = Some (r, w') /\
    single_client w' /\
    (List.length (open_fds w') <= 1)%nat /\
    ~ In fd (open_fds w') /\
    r <= 0 /\
    (Z.of_nat (List.length (client_rx w)) < 8 -> r = 0).
Proof.
  intros [N C] S B F O w0.
  pose proof (handle_server_drop w fd s2 rest N B F O) as H. fold w0 in H.
  assert (T : cmsis_dap_tcp_process w = tick_after_accept w0).
  { change cmsis_dap_tcp_process with (bind handle_server (fun _ => tick_after_accept)).
    now rewrite (bind_eq _ _ _ _ _ H). }
  split; [exact H|]. split; [reflexivity|]. split; [reflexivity|].
  split; [now apply sock_lookup_not_open|]. split; [exact T|].
  assert (S0 : single_client w0) by exact S.
  destruct (handle_client_total w0 S0) as [w1 [HC S1]].
  destruct (socket_disconnected_total w0) as [d [w2 [SD [K1 K2]]]].
  pose proof HC as HC'.
  rewrite (handle_client_result w0 d w2 N SD K1) in HC'.
  pose proof (socket_disconnected_loop_client_rx _ w0 d w2 SD) as K3.
  assert (Hfd : fd <> client_sockfd w).
  { intros ->. apply O. unfold single_client in S. apply Z.eqb_neq in N.
    rewrite N in S. rewrite S. now left. }
  assert (T1 : tick_after_accept w0 =
               if client_sockfd w1 =? 0 then Some (0, w1)
               else process_dap_requests w1).
  { unfold tick_after_accept. rewrite (bind_eq _ _ _ _ _ HC).
    unfold bind, get. now destruct (client_sockfd w1 =? 0). }
  rewrite T, T1.
  destruct (d =? 0); injection HC' as <-.
  - (* still connected *)
    change (client_sockfd w0) with (client_sockfd w) in K1.
    apply Z.eqb_neq in N. rewrite K1, N.
    destruct (process_dap_requests_total w2) as [r [w' [P [K4 K5]]]].
    exists r, w'. split; [exact P|].
    assert (S' : single_client w').
    { unfold single_client in *. now rewrite K4, K5. }
    split; [exact S'|].
    unfold single_client in S'. rewrite K4, K1, N in S'. rewrite S'. simpl.
    split; [lia|]. split; [intros [X|[]]; congruence|].
    split; [exact (process_dap_requests_loop_nonpositive _ w2 r w' P)|].
    intros Q.
    assert (C2 : connected w2).
    { apply single_client_connected; [exact S1 | rewrite K1; now apply Z.eqb_neq]. }
    rewrite (process_dap_requests_short w2 C2) in P by (now rewrite K3).
    now injection P as <- _.
  - (* torn down *)
    cbn [client_sockfd disconnect_client set_client_sockfd Z.eqb].
    do 2 eexists. split; [reflexivity|]. split; [exact S1|].
    unfold single_client, open_fds in S1. cbn in S1.
    unfold open_fds. cbn. rewrite S1. simpl.
    split; [lia|]. split; [tauto|]. split; [lia|reflexivity].
Qed.

(** * The request pump *)

Lemma connected_ext (a b : world) :
  client_sockfd a = client_sockfd b -> socks a = socks b ->
  connected b -> connected a.
Proof. unfold connected. now intros -> ->. Qed.

Lemma length_concat_frames ps :
  (List.length ps <= List.length (List.concat (map request_frame ps)))%nat.
Proof.
  induction ps as [|p ps IH]; [simpl; lia|].
  cbn [map List.concat]. rewrite length_app.
  unfold request_frame at 1. rewrite length_frame. cbn [List.length]. lia.
Qed.

Lemma pump_loop ps :
  (forall st req resp,
      Z.land (fst (fst (DAP_ProcessCommand st req resp))) 0xFFFF
      <= CMSIS_DAP_PACKET_SIZE) ->
  Forall (fun p => 1 <= Z.of_nat (List.length p) <= CMSIS_DAP_PACKET_SIZE) ps ->
  forall fuel (w : world),
    (List.length ps < fuel)%nat ->
    connected w ->
    wscript w = [] ->
    client_rx w = List.concat (map request_frame ps) ->
    Z.of_nat (List.length (client_rx w)) < 2 ^ 32 ->
    exists w',
      process_dap_requests_loop fuel w = Some (0, w') /\
      trace w' =
      trace w ++ pump_events (client_sockfd w) ps (dap w) (request w) (response w) /\
      client_rx w' = [] /\
      client_sockfd w' = client_sockfd w.
Proof.
  intros HD HF. unfold CMSIS_DAP_PACKET_SIZE in *.
  induction HF as [|p ps Hp HF IH]; intros fuel w Hf C W Q B;
    (destruct fuel as [|fuel]; [simpl in Hf; lia|]).
  - simpl in Q.
    rewrite (process_dap_requests_loop_step fuel w 0 (request w) w
               (recv_dap_request_empty_queue w _ _ C Q)).
    simpl. eexists. split; [reflexivity|]. cbn. rewrite app_nil_r.
    split; [reflexivity|]. split; [|reflexivity].
    rewrite <- Q. now apply client_rx_ext.
  - cbn [map List.concat] in Q. simpl in Hf.
    set (rest := List.concat (map request_frame ps)) in *.
    pose proof (recv_dap_request_complete w p rest (request w) sizeof_request C Q
                  ltac:(lia) ltac:(unfold sizeof_request, CMSIS_DAP_PACKET_SIZE; lia) B)
      as R.
    rewrite (process_dap_requests_loop_step fuel w _ _ _ R).
    destruct (Z.leb_spec (Z.of_nat (List.length p)) 0); [lia|].
    set (w1 := set_client_rx rest w).
    assert (C1 : connected w1) by (now apply connected_set_client_rx).
    assert (Q1 : client_rx w1 = rest) by (now apply client_rx_set_client_rx).
    assert (F1 : client_sockfd w1 = client_sockfd w)
      by apply client_sockfd_set_client_rx.
    assert (D1 : dap w1 = dap w /\ response w1 = response w /\
                 trace w1 = trace w /\ wscript w1 = wscript w).
    { unfold w1, set_client_rx.
      destruct (sock_lookup (client_sockfd w) (socks w)); auto. }
    destruct D1 as [D1 [D2 [D3 D4]]]. rewrite D1, D2.
    cbn [pump_events].
    specialize (HD (dap w) (store (request w) p) (response w)).
    destruct (DAP_ProcessCommand (dap w) (store (request w) p) (response w))
      as [[x resp'] st'].
    cbn [fst] in HD.
    pose proof (Z.land_nonneg x 0xFFFF) as Hx.
    set (n := Z.land x 0xFFFF) in *.
    set (w1' := set_dap st' _).
    assert (C1' : connected w1') by (now apply (connected_ext w1' w1)).
    assert (W1' : wscript w1' = []) by (cbn; congruence).
    rewrite (send_dap_response_fits w1' resp' n C1'
               ltac:(unfold CMSIS_DAP_PACKET_SIZE; lia)).
    unfold next_write. rewrite W1', (written_nil w1' W1'), Z.eqb_refl.
    unfold sizeof_hdr.
    destruct (Z.ltb_spec (n + 8) 0); [lia|]. cbn [Z.ltb Z.compare].
    set (w2 := emit _ w1').
    destruct (IH fuel w2) as [w' [E [T [Q' F']]]].
    + lia.
    + now apply (connected_ext w2 w1).
    + exact W1'.
    + rewrite <- Q1. now apply client_rx_ext.
    + replace (client_rx w2) with rest
        by (rewrite <- Q1; symmetry; now apply client_rx_ext).
      rewrite Q, length_app in B. lia.
    + exists w'. split; [exact E|]. split; [|split; [exact Q'|]].
      * rewrite T. cbn. rewrite F1, D3, <- !app_assoc. reflexivity.
      * rewrite F'. cbn. exact F1.
Qed.

(** C5, as the code has it: when n complete request frames with payloads
    of 1 to 1024 bytes are queued before one call of process_dap_requests,
    the processor keeps its response length within 1024 and the writes
    complete, that one call returns 0 with the queue empty, having run the
    command processor once per frame in the order of arrival and written
    each response right after its command and before the next command. *)
Theorem process_dap_requests_pipelined (w : world) ps :
  connected w ->
  wscript w = [] ->
  client_rx w = List.concat (map request_frame ps) ->
  Z.of_nat (List.length (client_rx w)) < 2 ^ 32 ->
  Forall (fun p => 1 <= Z.of_nat (List.length p) <= CMSIS_DAP_PACKET_SIZE) ps ->
  (forall st req resp,
      Z.land (fst (fst (DAP_ProcessCommand st req resp))) 0xFFFF
      <= CMSIS_DAP_PACKET_SIZE) ->
  exists w',
    process_dap_requests w = Some (0, w') /\
    trace w' =
    trace w ++ pump_events (client_sockfd w) ps (dap w) (request w) (response w) /\
    client_rx w' = [] /\
    client_sockfd w' = client_sockfd w.
Proof.
  intros C W Q B HF HD.
  apply (pump_loop ps HD HF (S (List.length (client_rx w))) w); try assumption.
  rewrite Q. pose proof (length_concat_frames ps). lia.
Qed.

(** * Further properties of the reassembler *)

Lemma firstn_store buf p : firstn (List.length p) (store buf p) = p.
Proof.
  unfold store. now rewrite firstn_app, Nat.sub_diag, firstn_all, firstn_O, app_nil_r.
Qed.

Lemma trace_set_client_rx q (w : world) : trace (set_client_rx q w) = trace w.
Proof.
  unfold set_client_rx.
  destruct (sock_lookup (client_sockfd w) (socks w)); reflexivity.
Qed.

(** X1: a complete request frame at the head of the queue is returned
    whatever follows it: the result is its payload length, the payload is
    at the start of the buffer, and exactly the frame's bytes (header plus
    payload) are consumed, the bytes behind it staying queued. *)
Theorem recv_dap_request_head_frame (w : world) p rest buf len :
  connected w ->
  client_rx w = request_frame p ++ rest ->
  Z.of_nat (List.length p) < 2 ^ 16 ->
  Z.of_nat (List.length p) <= len ->
  Z.of_nat (List.length (client_rx w)) < 2 ^ 32 ->
  exists buf' w',
    recv_dap_request buf len w = Some ((Z.of_nat (List.length p), buf'), w') /\
    firstn (List.length p) buf' = p /\
    skipn (List.length p) buf' = skipn (List.length p) buf /\
    client_rx w' = rest /\
    client_rx w' = skipn (8 + List.length p) (client_rx w) /\
    trace w' = trace w.
Proof.
  intros C Q Hp Hl Hb.
  exists (store buf p), (set_client_rx rest w).
  split; [now apply recv_dap_request_complete|].
  split; [apply firstn_store|].
  split; [apply skipn_store; lia|].
  rewrite client_rx_set_client_rx by assumption.
  split; [reflexivity|]. split; [|apply trace_set_client_rx].
  rewrite Q. change (8 + List.length p)%nat with (List.length (request_frame p)).
  now rewrite skipn_app, Nat.sub_diag, skipn_all.
Qed.

(** X2: a header with the right signature but a packet type other than
    REQUEST makes recv_dap_request return -1 and discard exactly the eight
    header bytes; the buffer is untouched and the bytes behind the header
    stay queued. *)
Theorem recv_dap_request_wrong_type (w : world) buf len :
  connected w ->
  8 <= Z.of_nat (List.length (client_rx w)) < 2 ^ 32 ->
  Hdr.signature (head_hdr (client_rx w)) = DAP_PKT_HDR_SIGNATURE ->
  Hdr.packet_type (head_hdr (client_rx w)) <> DAP_PKT_TYPE_REQUEST ->
  recv_dap_request buf len w =
  Some ((-1, buf), set_client_rx (skipn 8 (client_rx w)) w) /\
  client_rx (set_client_rx (skipn 8 (client_rx w)) w) = skipn 8 (client_rx w).
Proof.
  intros C Hq Hs Ht. split; [|now apply client_rx_set_client_rx].
  rewrite (recv_dap_request_stream w buf len C). unfold recv_stream, sizeof_hdr.
  rewrite to_size_t_small by lia.
  destruct (Z.ltb_spec (Z.of_nat (List.length (client_rx w))) 8); [lia|].
  rewrite Hs, Z.eqb_refl. apply Z.eqb_neq in Ht. rewrite Ht. reflexivity.
Qed.

Lemma recv_stream_consumption q buf len :
  exists k : nat,
    snd (recv_stream q buf len) = skipn k q /\
    let r := fst (fst (recv_stream q buf len)) in
    -1 <= r < 2 ^ 16 /\
    (0 < r -> Z.of_nat k = 8 + r) /\
    (r <= 0 -> k = 0%nat \/ k = 8%nat).
Proof.
  unfold recv_stream.
  pose proof (head_hdr_length_range q) as Hn.
  set (n := Hdr.length (head_hdr q)) in *.
  destruct (to_size_t (Z.of_nat (List.length q)) <? sizeof_hdr).
  { exists 0%nat. cbn. repeat split; auto; lia. }
  destruct (negb _).
  { exists 8%nat. cbn [fst snd]. repeat split; auto; lia. }
  destruct (negb _).
  { exists 8%nat. cbn [fst snd]. repeat split; auto; lia. }
  destruct (to_size_t (Z.of_nat (List.length q)) <? to_size_t (sizeof_hdr + n)).
  { exists 0%nat. cbn. repeat split; auto; lia. }
  destruct (len <? n).
  { exists 0%nat. cbn. repeat split; auto; lia. }
  exists (Z.to_nat n + 8)%nat. cbn [fst snd].
  split; [now rewrite skipn_skipn|].
  split; [lia|]. split; [lia|].
  intros Hr. assert (n = 0) as -> by lia. right. reflexivity.
Qed.

(** X3: whatever is queued, recv_dap_request takes bytes only from the
    front of the queue: 8 + r of them when it returns r > 0, and otherwise
    none or exactly the 8 header bytes.  Its result lies between -1 and
    65535, and it logs, writes and closes nothing. *)
Theorem recv_dap_request_consumption (w : world) buf len :
  exists r buf' w' (k : nat),
    recv_dap_request buf len w = Some ((r, buf'), w') /\
    client_rx w' = skipn k (client_rx w) /\
    -1 <= r < 2 ^ 16 /\
    (0 < r -> Z.of_nat k = 8 + r) /\
    (r <= 0 -> k = 0%nat \/ k = 8%nat) /\
    trace w' = trace w /\
    client_sockfd w' = client_sockfd w.
Proof.
  destruct (connected_dec w) as [C|C].
  - rewrite (recv_dap_request_stream w buf len C).
    destruct (recv_stream_consumption (client_rx w) buf len) as [k [K1 K2]].
    destruct (recv_stream (client_rx w) buf len) as [[r buf'] q'].
    cbn [fst snd] in K1, K2. destruct K2 as [K2 [K3 K4]].
    exists r, buf', (set_client_rx q' w), k.
    split; [reflexivity|].
    rewrite client_rx_set_client_rx by assumption.
    repeat split; try assumption; try lia.
    + apply trace_set_client_rx.
    + apply client_sockfd_set_client_rx.
  - destruct (recv_dap_request_unconnected w buf len C) as [w' [E [K1 [K2 K3]]]].
    exists 0, buf, w', 0%nat. split; [exact E|].
    split; [now apply client_rx_ext|].
    repeat split; auto; lia.
Qed.

(** * Further properties of the disconnect probe *)

Lemma probe_peek_data (w : world) :
  connected w -> client_rx w <> [] ->
  probe_peek w = Some ((1, firstn 1 (client_rx w)), w).
Proof.
  intros C Q. destruct (connected_client_rx w C) as [s [E R]].
  unfold probe_peek, bind, get, sys_recv. rewrite E, R.
  destruct (client_rx w) as [|b q]; [congruence|reflexivity].
Qed.

Lemma handle_client_unread (w : world) :
  connected w -> client_rx w <> [] -> handle_client w = Some (0, w).
Proof.
  intros C Q. pose proof (probe_peek_data w C Q) as P.
  assert (S0 : socket_disconnected w = Some (0, w)).
  { change (socket_disconnected w) with (socket_disconnected_loop (S (S (intr w))) w).
    rewrite (socket_disconnected_loop_peek _ w 1 _ w P). reflexivity. }
  destruct C as [N _].
  now rewrite (handle_client_result w 0 w N S0 eq_refl).
Qed.

(** X4: unread data hide a disconnect.  While at least one byte is queued
    on the client socket, handle_client returns 0 and leaves the world
    exactly as it was, also when the peer has closed its side or a socket
    error is pending. *)
Theorem handle_client_unread_data (w : world) :
  connected w ->
  client_rx w <> [] ->
  socket_disconnected w = Some (0, w) /\ handle_client w = Some (0, w).
Proof.
  intros C Q. split; [|now apply handle_client_unread].
  change (socket_disconnected w) with (socket_disconnected_loop (S (S (intr w))) w).
  now rewrite (socket_disconnected_loop_peek _ w 1 _ w (probe_peek_data w C Q)).
Qed.

Lemma set_intr_same (w : world) : set_intr (intr w) w = w.
Proof. now destruct w. Qed.

Lemma socket_disconnected_loop_idle n :
  forall fuel (w : world) s,
    intr w = n -> (n < fuel)%nat ->
    sock_lookup (client_sockfd w) (socks w) = Some s ->
    rx s = [] -> so_error s = None -> peer_shut s = false ->
    socket_disconnected_loop fuel w =
    Some (0, set_errno EAGAIN (set_intr 0 w)).
Proof.
  induction n as [|n IH]; intros fuel w s I F E R SE PS;
    (destruct fuel as [|fuel]; [lia|]).
  - assert (P : probe_peek w = Some ((-1, []), set_errno EAGAIN w)).
    { unfold probe_peek, bind, get, sys_recv. now rewrite E, R, SE, PS, I. }
    rewrite (socket_disconnected_loop_peek fuel w _ _ _ P).
    rewrite <- I, set_intr_same. reflexivity.
  - assert (P : probe_peek w = Some ((-1, []), set_errno EINTR (set_intr n w))).
    { unfold probe_peek, bind, get, sys_recv. now rewrite E, R, SE, PS, I. }
    rewrite (socket_disconnected_loop_peek fuel w _ _ _ P).
    cbn [Z.ltb Z.compare errno set_errno]. rewrite Z.eqb_refl.
    rewrite (IH fuel (set_errno EINTR (set_intr n w)) s);
      try assumption; try reflexivity; try lia.
Qed.

(** X5: signals do not change what the probe finds.  On an idle client
    socket (nothing queued, no error, peer still there) with any number of
    pending interruptions, socket_disconnected retries through every EINTR
    and returns 0, and handle_client keeps the connection. *)
Theorem socket_disconnected_interrupted (w : world) s :
  client_sockfd w <> 0 ->
  sock_lookup (client_sockfd w) (socks w) = Some s ->
  rx s = [] -> so_error s = None -> peer_shut s = false ->
  socket_disconnected w = Some (0, set_errno EAGAIN (set_intr 0 w)) /\
  handle_client w = Some (0, set_errno EAGAIN (set_intr 0 w)).
Proof.
  intros N E R SE PS.
  assert (S0 : socket_disconnected w = Some (0, set_errno EAGAIN (set_intr 0 w))).
  { change (socket_disconnected w) with (socket_disconnected_loop (S (S (intr w))) w).
    apply (socket_disconnected_loop_idle (intr w) _ w s); auto. }
  split; [exact S0|].
  now rewrite (handle_client_result w 0 _ N S0 eq_refl).
Qed.

(** * Further properties of the tick *)

Lemma set_request_same (w : world) : set_request (request w) w = w.
Proof. now destruct w. Qed.

Lemma set_errno_twice a b (w : world) : set_errno a (set_errno b w) = set_errno a w.
Proof. reflexivity. Qed.

Lemma handle_server_nothing_pending (w : world) :
  backlog w = [] -> handle_server w = Some (0, set_errno EAGAIN w).
Proof.
  intros B. unfold handle_server, bind, sys_accept, get. now rewrite B.
Qed.

Lemma process_dap_requests_prefix (w : world) p k :
  connected w ->
  Z.of_nat (List.length p) < 2 ^ 16 ->
  (k < 8 + List.length p)%nat ->
  client_rx w = firstn k (request_frame p) ->
  process_dap_requests w = Some (0, w).
Proof.
  intros C Hp Hk Q. unfold process_dap_requests. unfold bind at 1. unfold get at 1.
  rewrite (process_dap_requests_loop_step _ w 0 (request w) w
             (recv_dap_request_prefix w p k _ _ C Hp Hk Q)).
  cbn [Z.leb Z.compare]. now rewrite set_request_same.
Qed.

Lemma cmsis_dap_tcp_process_steps (w : world) r0 w0 w1 :
  handle_server w = Some (r0, w0) ->
  handle_client w0 = Some (0, w1) ->
  cmsis_dap_tcp_process w =
  if client_sockfd w1 =? 0 then Some (0, w1) else process_dap_requests w1.
Proof.
  intros H0 H1. unfold cmsis_dap_tcp_process.
  rewrite (bind_eq _ _ _ _ _ H0), (bind_eq _ _ _ _ _ H1).
  unfold bind, get. now destruct (client_sockfd w1 =? 0).
Qed.

Lemma connected_set_errno e (w : world) : connected w -> connected (set_errno e w).
Proof. exact (fun C => C). Qed.

Lemma tick_partial_frame (w : world) p k :
  connected w ->
  backlog w = [] ->
  client_rx w = firstn k (request_frame p) ->
  (0 < k < 8 + List.length p)%nat ->
  Z.of_nat (List.length p) < 2 ^ 16 ->
  cmsis_dap_tcp_process w = Some (0, set_errno EAGAIN w).
Proof.
  intros C B Q Hk Hp.
  set (w1 := set_errno EAGAIN w).
  assert (C1 : connected w1) by exact C.
  assert (Q1 : client_rx w1 = firstn k (request_frame p)) by exact Q.
  assert (NE : client_rx w1 <> []).
  { rewrite Q1. intros E. apply (f_equal (@List.length byte)) in E.
    rewrite length_firstn in E. unfold request_frame in E.
    rewrite length_frame in E. simpl in E. lia. }
  rewrite (cmsis_dap_tcp_process_steps w 0 w1 w1
             (handle_server_nothing_pending w B) (handle_client_unread w1 C1 NE)).
  destruct C1 as [N1 _]. apply Z.eqb_neq in N1. rewrite N1.
  apply (process_dap_requests_prefix w1 p k); auto. lia.
Qed.

(** X6: a peer that stops in the middle of a frame wedges the server.  With
    a non-empty proper prefix of a request frame queued and no connection
    waiting, cmsis_dap_tcp_process returns 0 and changes nothing but errno,
    and so does every later call, however many follow: nothing is consumed,
    nothing is sent and the connection is never closed, whether or not the
    peer has closed its side or a socket error is pending. *)
Theorem partial_frame_wedges_every_tick (w : world) p k n :
  connected w ->
  backlog w = [] ->
  client_rx w = firstn k (request_frame p) ->
  (0 < k < 8 + List.length p)%nat ->
  Z.of_nat (List.length p) < 2 ^ 16 ->
  cmsis_dap_tcp_process w = Some (0, set_errno EAGAIN w) /\
  ticks (S n) w = Some (repeat 0 (S n), set_errno EAGAIN w) /\
  client_sockfd (set_errno EAGAIN w) = client_sockfd w /\
  socks (set_errno EAGAIN w) = socks w /\
  trace (set_errno EAGAIN w) = trace w.
Proof.
  intros C B Q Hk Hp.
  split; [now apply (tick_partial_frame w p k)|].
  split; [|auto].
  revert w C B Q. induction n as [|n IH]; intros w C B Q.
  - cbn [ticks]. unfold bind.
    now rewrite (tick_partial_frame w p k C B Q Hk Hp).
  - change (ticks (S (S n)))
      with (bind cmsis_dap_tcp_process
              (fun r => bind (ticks (S n)) (fun rs => ret (r :: rs)))).
    unfold bind at 1.
    rewrite (tick_partial_frame w p k C B Q Hk Hp).
    unfold bind at 1.
    rewrite (IH (set_errno EAGAIN w)) by assumption.
    now rewrite set_errno_twice.
Qed.

(** X7: an idle tick is a no-op.  With a client connected, nothing queued,
    no error, the peer still there and no connection waiting, the tick
    returns 0 and changes only errno and the count of pending
    interruptions: no byte is read or written and nothing is logged. *)
Theorem cmsis_dap_tcp_process_idle (w : world) s :
  client_sockfd w <> 0 ->
  sock_lookup (client_sockfd w) (socks w) = Some s ->
  rx s = [] -> so_error s = None -> peer_shut s = false ->
  backlog w = [] ->
  cmsis_dap_tcp_process w = Some (0, set_errno EAGAIN (set_intr 0 w)).
Proof.
  intros N E R SE PS B.
  set (w0 := set_errno EAGAIN w).
  set (w1 := set_errno EAGAIN (set_intr 0 w)).
  assert (HC : handle_client w0 = Some (0, w1)).
  { assert (S0 : socket_disconnected w0 = Some (0, w1)).
    { change (socket_disconnected w0)
        with (socket_disconnected_loop (S (S (intr w0))) w0).
      apply (socket_disconnected_loop_idle (intr w0) _ w0 s); auto. }
    now rewrite (handle_client_result w0 0 _ N S0 eq_refl). }
  rewrite (cmsis_dap_tcp_process_steps w 0 w0 w1
             (handle_server_nothing_pending w B) HC).
  change (client_sockfd w1) with (client_sockfd w).
  apply Z.eqb_neq in N. rewrite N.
  apply process_dap_requests_idle.
  - split; [now apply Z.eqb_neq|]. exists s. exact E.
  - unfold client_rx. change (sock_lookup (client_sockfd w1) (socks w1))
      with (sock_lookup (client_sockfd w) (socks w)). now rewrite E.
Qed.

Lemma handle_server_accepts (w : world) fd s rest :
  client_sockfd w = 0 ->
  backlog w = Conn fd s :: rest ->
  0 <= fd ->
  handle_server w =
  Some (0, emit (EvLog "cmsis_dap_tcp: client connected")
             (set_client_sockfd fd
                (set_socks (sock_put fd s (socks w)) (set_backlog rest w)))).
Proof.
  intros Z0 B F.
  unfold handle_server, bind, sys_accept, get, fprintf_stderr, modify,
    sys_fcntl_nonblock.
  rewrite B. destruct (Z.ltb_spec fd 0); [lia|].
  cbn [client_sockfd set_socks set_backlog]. rewrite Z0. cbn [Z.eqb negb].
  cbn [socks emit set_trace set_socks set_client_sockfd].
  rewrite sock_lookup_put_same. reflexivity.
Qed.

(** X8: with no client, handle_server makes the waiting connection the
    client: it returns 0, client_sockfd is the accepted descriptor, the
    bytes already queued on that connection are the client's queue, and one
    line is logged; nothing is closed. *)
Theorem handle_server_new_client (w : world) fd s rest :
  client_sockfd w = 0 ->
  backlog w = Conn fd s :: rest ->
  0 < fd ->
  exists w',
    handle_server w = Some (0, w') /\
    client_sockfd w' = fd /\
    connected w' /\
    client_rx w' = rx s /\
    backlog w' = rest /\
    trace w' = trace w ++ [EvLog "cmsis_dap_tcp: client connected"] /\
    (single_client w -> single_client w').
Proof.
  intros Z0 B F. eexists. split; [apply (handle_server_accepts w fd s rest Z0 B); lia|].
  split; [reflexivity|]. split; [|split; [|split; [reflexivity|split; [reflexivity|]]]].
  - split; [cbn; lia|]. exists s. cbn. apply sock_lookup_put_same.
  - unfold client_rx. cbn. now rewrite sock_lookup_put_same.
  - unfold single_client, open_fds. rewrite Z0. cbn. intros S.
    apply map_eq_nil in S. rewrite S. cbn.
    destruct (Z.eqb_spec fd 0); [lia|reflexivity].
Qed.

(** X9: a failing accept never reaches the caller of the tick.
    handle_server returns 0 when accept would block and -1 on any other
    errno, leaving the client alone; cmsis_dap_tcp_process drops that
    result and goes on as after a quiet accept, so with no client the tick
    still returns 0. *)
Theorem accept_failure_swallowed (w : world) e rest :
  backlog w = AcceptFail e :: rest ->
  let w0 := set_errno e (set_backlog rest w) in
  handle_server w = Some (if e =? EAGAIN then 0 else -1, w0) /\
  cmsis_dap_tcp_process w = tick_after_accept w0 /\
  (client_sockfd w = 0 -> cmsis_dap_tcp_process w = Some (0, w0)).
Proof.
  intros B w0.
  assert (H : handle_server w = Some (if e =? EAGAIN then 0 else -1, w0)).
  { unfold handle_server, bind, sys_accept, get. rewrite B.
    cbn [Z.ltb Z.compare errno set_errno]. unfold EWOULDBLOCK.
    fold EAGAIN. rewrite orb_diag. now destruct (e =? EAGAIN). }
  assert (T : cmsis_dap_tcp_process w = tick_after_accept w0).
  { change cmsis_dap_tcp_process with (bind handle_server (fun _ => tick_after_accept)).
    now rewrite (bind_eq _ _ _ _ _ H). }
  split; [exact H|]. split; [exact T|].
  intros Z0. rewrite T.
  assert (Z1 : client_sockfd w0 = 0) by exact Z0.
  assert (HC : handle_client w0 = Some (0, w0)).
  { unfold handle_client, bind, get. now rewrite Z1. }
  unfold tick_after_accept. rewrite (bind_eq _ _ _ _ _ HC).
  unfold bind, get. now rewrite Z1.
Qed.

(** X10: every tick returns, and keeps the one-client invariant: if at most
    one connection is open and it is the one client_sockfd names, and
    accept hands out a new non-zero descriptor, the same holds after the
    tick. *)
Theorem tick_keeps_single_client (w : world) :
  single_client w -> accept_fresh w ->
  exists r w',
    cmsis_dap_tcp_process w = Some (r, w') /\
    single_client w' /\
    (List.length (open_fds w') <= 1)%nat.
Proof.
  intros S A.
  destruct (cmsis_dap_tcp_process_single_client w S A) as [r [w' [E S']]].
  exists r, w'. split; [exact E|]. split; [exact S'|].
  unfold single_client in S'. rewrite S'.
  destruct (client_sockfd w' =? 0); simpl; lia.
Qed.

(** * Further properties of the request pump *)

(** X11: process_dap_requests returns for every world; its result is zero
    or negative, never a count; and it never opens or closes a connection:
    client_sockfd and the open descriptors are as before, also when it
    returns an error. *)
Theorem process_dap_requests_keeps_connection (w : world) :
  exists r w',
    process_dap_requests w = Some (r, w') /\
    r <= 0 /\
    client_sockfd w' = client_sockfd w /\
    open_fds w' = open_fds w.
Proof.
  destruct (process_dap_requests_total w) as [r [w' [E [K1 K2]]]].
  exists r, w'. split; [exact E|]. split; [|auto].
  unfold process_dap_requests, bind, get in E.
  exact (process_dap_requests_loop_nonpositive _ w r w' E).
Qed.

Lemma land_ffff_range x : 0 <= Z.land x 0xFFFF < 2 ^ 16.
Proof.
  change 0xFFFF with (Z.ones 16). rewrite Z.land_ones by lia.
  apply Z.mod_pos_bound. lia.
Qed.

Lemma run_command_keeps p rest (w : world) :
  connected w ->
  let '(n, resp, w1) := run_command p rest w in
  0 <= n < 2 ^ 16 /\
  connected w1 /\
  client_sockfd w1 = client_sockfd w /\
  client_rx w1 = rest /\
  wscript w1 = wscript w /\
  request w1 = store (request w) p /\
  response w1 = resp /\
  trace w1 = trace w ++ [EvCommand (store (request w) p)].
Proof.
  intros C. unfold run_command.
  destruct (DAP_ProcessCommand (dap w) (store (request w) p) (response w))
    as [[x resp'] st'].
  split; [apply land_ffff_range|].
  set (w0 := set_client_rx rest w).
  assert (C0 : connected w0) by (now apply connected_set_client_rx).
  assert (Q0 : client_rx w0 = rest) by (now apply client_rx_set_client_rx).
  assert (D0 : client_sockfd w0 = client_sockfd w /\ wscript w0 = wscript w /\
               trace w0 = trace w).
  { unfold w0, set_client_rx.
    destruct (sock_lookup (client_sockfd w) (socks w)); auto. }
  destruct D0 as [D1 [D2 D3]].
  split; [exact C0|]. split; [exact D1|]. split; [exact Q0|].
  split; [exact D2|]. split; [reflexivity|]. split; [reflexivity|].
  cbn. now rewrite D3.
Qed.

Lemma pump_first_turn fuel (w : world) p rest :
  connected w ->
  client_rx w = request_frame p ++ rest ->
  1 <= Z.of_nat (List.length p) <= CMSIS_DAP_PACKET_SIZE ->
  Z.of_nat (List.length (client_rx w)) < 2 ^ 32 ->
  process_dap_requests_loop (S fuel) w =
  let '(n, resp, w1) := run_command p rest w in
  match send_dap_response resp n w1 with
  | Some (r2, w2) =>
      if r2 <? 0 then Some (r2, w2) else process_dap_requests_loop fuel w2
  | None => None
  end.
Proof.
  intros C Q Hp B. unfold CMSIS_DAP_PACKET_SIZE in Hp.
  pose proof (recv_dap_request_complete w p rest (request w) sizeof_request C Q
                ltac:(lia) ltac:(unfold sizeof_request, CMSIS_DAP_PACKET_SIZE; lia) B)
    as R.
  rewrite (process_dap_requests_loop_step fuel w _ _ _ R).
  destruct (Z.leb_spec (Z.of_nat (List.length p)) 0); [lia|].
  unfold run_command.
  assert (D : dap (set_client_rx rest w) = dap w /\
              response (set_client_rx rest w) = response w).
  { unfold set_client_rx.
    destruct (sock_lookup (client_sockfd w) (socks w)); auto. }
  destruct D as [-> ->].
  destruct (DAP_ProcessCommand (dap w) (store (request w) p) (response w))
    as [[x resp'] st'].
  reflexivity.
Qed.

Lemma process_dap_requests_fuel (w : world) :
  process_dap_requests w =
  process_dap_requests_loop (S (List.length (client_rx w))) w.
Proof. reflexivity. Qed.

(** X12: a response longer than the packet buffer ends the pump.  When the
    command processor reports a response length over 1024 for the frame at
    the head of the queue, process_dap_requests returns -1 after running
    that one command: nothing is written, one line is logged, the frame is
    consumed, the frames behind it stay queued and the client stays
    connected. *)
Theorem process_dap_requests_oversized_response (w : world) p rest :
  connected w ->
  client_rx w = request_frame p ++ rest ->
  1 <= Z.of_nat (List.length p) <= CMSIS_DAP_PACKET_SIZE ->
  Z.of_nat (List.length (client_rx w)) < 2 ^ 32 ->
  CMSIS_DAP_PACKET_SIZE < response_len p rest w ->
  exists w',
    process_dap_requests w = Some (-1, w') /\
    trace w' =
    trace w ++ [EvCommand (store (request w) p);
                EvLog "cmsis_dap_tcp: response too large for buffer!"] /\
    client_rx w' = rest /\
    connected w' /\
    client_sockfd w' = client_sockfd w.
Proof.
  intros C Q Hp B Hn. unfold response_len in Hn.
  rewrite process_dap_requests_fuel, (pump_first_turn _ w p rest C Q Hp B).
  pose proof (run_command_keeps p rest w C) as K.
  destruct (run_command p rest w) as [[n resp] w1]. cbn [fst] in Hn.
  destruct K as [Kn [C1 [F1 [Q1 [_ [_ [_ T1]]]]]]].
  rewrite send_dap_response_large by lia.
  cbn [Z.ltb Z.compare].
  eexists. split; [reflexivity|].
  split; [cbn; now rewrite T1, <- app_assoc|].
  split; [rewrite <- Q1; now apply client_rx_ext|].
  split; [now apply (connected_ext _ w1)|exact F1].
Qed.

(** X13: a write that is not complete ends the pump.  When the write of the
    response to the head frame reports anything but the full count,
    process_dap_requests returns a negative result right after that one
    write: no retry, no further command; the frames behind stay queued and
    the client stays connected. *)
Theorem process_dap_requests_failed_write (w : world) p rest :
  connected w ->
  client_rx w = request_frame p ++ rest ->
  1 <= Z.of_nat (List.length p) <= CMSIS_DAP_PACKET_SIZE ->
  Z.of_nat (List.length (client_rx w)) < 2 ^ 32 ->
  response_len p rest w <= CMSIS_DAP_PACKET_SIZE ->
  next_write (response_len p rest w + sizeof_hdr) w
    <> response_len p rest w + sizeof_hdr ->
  exists r w',
    process_dap_requests w = Some (r, w') /\
    r < 0 /\
    trace w' =
    trace w ++ [EvCommand (store (request w) p);
                EvWrite (client_sockfd w)
                  (response_packet (response_len p rest w) (response_buf p rest w))
                  (next_write (response_len p rest w + sizeof_hdr) w)] /\
    wscript w' = tl (wscript w) /\
    client_rx w' = rest /\
    connected w' /\
    client_sockfd w' = client_sockfd w.
Proof.
  intros C Q Hp B. unfold response_len, response_buf.
  pose proof (run_command_keeps p rest w C) as K.
  rewrite process_dap_requests_fuel, (pump_first_turn _ w p rest C Q Hp B).
  destruct (run_command p rest w) as [[n resp] w1]. cbn [fst snd].
  destruct K as [Kn [C1 [F1 [Q1 [W1 [_ [_ T1]]]]]]].
  set (wr := next_write (n + sizeof_hdr) w).
  intros Hn Hw.
  rewrite (send_dap_response_fits w1 resp n C1 ltac:(lia)).
  assert (NW : next_write (n + sizeof_hdr) w1 = wr).
  { unfold wr, next_write. now rewrite W1. }
  rewrite NW, F1. fold (response_packet n resp).
  set (w2 := emit _ (written w1)).
  assert (K2 : trace w2 = trace w ++ [EvCommand (store (request w) p);
                 EvWrite (client_sockfd w) (response_packet n resp) wr] /\
               wscript w2 = tl (wscript w) /\ client_rx w2 = rest /\
               connected w2 /\ client_sockfd w2 = client_sockfd w).
  { split; [cbn; now rewrite T1, <- app_assoc|].
    split; [cbn; now rewrite W1|].
    split; [rewrite <- Q1; now apply client_rx_ext|].
    split; [now apply (connected_ext _ w1)|exact F1]. }
  destruct (Z.ltb_spec wr 0) as [L|L].
  - cbn [Z.ltb]. destruct (Z.ltb_spec wr 0); [|lia].
    exists wr, w2. split; [reflexivity|]. split; [lia|exact K2].
  - destruct (Z.eqb_spec wr (n + sizeof_hdr)); [contradiction|].
    cbn [Z.ltb Z.compare].
    exists (-1), w2. split; [reflexivity|]. split; [lia|exact K2].
Qed.

Lemma pump_loop_tail ps tail p0 k :
  (forall st req resp,
      Z.land (fst (fst (DAP_ProcessCommand st req resp))) 0xFFFF
      <= CMSIS_DAP_PACKET_SIZE) ->
  Forall (fun p => 1 <= Z.of_nat (List.length p) <= CMSIS_DAP_PACKET_SIZE) ps ->
  tail = firstn k (request_frame p0) ->
  (k < 8 + List.length p0)%nat ->
  Z.of_nat (List.length p0) < 2 ^ 16 ->
  forall fuel (w : world),
    (List.length ps < fuel)%nat ->
    connected w ->
    wscript w = [] ->
    client_rx w = List.concat (map request_frame ps) ++ tail ->
    Z.of_nat (List.length (client_rx w)) < 2 ^ 32 ->
    exists w',
      process_dap_requests_loop fuel w = Some (0, w') /\
      trace w' =
      trace w ++ pump_events (client_sockfd w) ps (dap w) (request w) (response w) /\
      client_rx w' = tail /\
      client_sockfd w' = client_sockfd w /\
      connected w'.
Proof.
  intros HD HF Ht Hk Hp0.
  induction HF as [|p ps Hp HF IH]; intros fuel w Hf C W Q B;
    (destruct fuel as [|fuel]; [simpl in Hf; lia|]).
  - cbn [map List.concat app] in Q. rewrite Ht in Q.
    rewrite (process_dap_requests_loop_step fuel w 0 (request w) w
               (recv_dap_request_prefix w p0 k _ _ C Hp0 Hk Q)).
    cbn [Z.leb Z.compare]. rewrite set_request_same.
    exists w. split; [reflexivity|]. cbn [pump_events]. rewrite app_nil_r.
    rewrite Ht. auto.
  - cbn [map List.concat] in Q. rewrite <- app_assoc in Q. simpl in Hf.
    set (rest := List.concat (map request_frame ps) ++ tail) in *.
    rewrite (pump_first_turn fuel w p rest C Q Hp B).
    unfold run_command. cbn [pump_events].
    specialize (HD (dap w) (store (request w) p) (response w)).
    destruct (DAP_ProcessCommand (dap w) (store (request w) p) (response w))
      as [[x resp'] st'].
    cbn [fst] in HD.
    pose proof (land_ffff_range x) as Hx.
    set (n := Z.land x 0xFFFF) in *.
    set (w0 := set_client_rx rest w).
    assert (C0 : connected w0) by (now apply connected_set_client_rx).
    assert (Q0 : client_rx w0 = rest) by (now apply client_rx_set_client_rx).
    assert (D0 : client_sockfd w0 = client_sockfd w /\ wscript w0 = wscript w /\
                 trace w0 = trace w).
    { unfold w0, set_client_rx.
      destruct (sock_lookup (client_sockfd w) (socks w)); auto. }
    destruct D0 as [F0 [W0 T0]].
    set (w1 := set_dap st' _).
    assert (C1 : connected w1) by (now apply (connected_ext w1 w0)).
    assert (W1 : wscript w1 = []) by (cbn; congruence).
    rewrite (send_dap_response_fits w1 resp' n C1 ltac:(lia)).
    unfold next_write. rewrite W1, (written_nil w1 W1), Z.eqb_refl.
    unfold sizeof_hdr.
    destruct (Z.ltb_spec (n + 8) 0); [lia|]. cbn [Z.ltb Z.compare].
    set (w2 := emit _ w1).
    destruct (IH fuel w2) as [w' [E [T [Q' [F' C']]]]].
    + lia.
    + now apply (connected_ext w2 w0).
    + exact W1.
    + rewrite <- Q0. now apply client_rx_ext.
    + replace (client_rx w2) with rest
        by (rewrite <- Q0; symmetry; now apply client_rx_ext).
      rewrite Q, length_app in B. lia.
    + exists w'. split; [exact E|]. split; [|split; [exact Q'|split; [|exact C']]].
      * rewrite T. cbn. rewrite F0, T0, <- !app_assoc. reflexivity.
      * rewrite F'. cbn. exact F0.
Qed.

(** X14: frames that are whole are served, the rest waits.  With n complete
    request frames (payloads of 1 to 1024 bytes) queued and, behind them, a
    proper prefix of a further frame, one call of process_dap_requests
    runs the n commands and writes the n responses in order, returns 0 and
    leaves exactly the prefix queued. *)
Theorem process_dap_requests_partial_tail (w : world) ps p0 k :
  connected w ->
  wscript w = [] ->
  client_rx w = List.concat (map request_frame ps) ++ firstn k (request_frame p0) ->
  (k < 8 + List.length p0)%nat ->
  Z.of_nat (List.length p0) < 2 ^ 16 ->
  Z.of_nat (List.length (client_rx w)) < 2 ^ 32 ->
  Forall (fun p => 1 <= Z.of_nat (List.length p) <= CMSIS_DAP_PACKET_SIZE) ps ->
  (forall st req resp,
      Z.land (fst (fst (DAP_ProcessCommand st req resp))) 0xFFFF
      <= CMSIS_DAP_PACKET_SIZE) ->
  exists w',
    process_dap_requests w = Some (0, w') /\
    trace w' =
    trace w ++ pump_events (client_sockfd w) ps (dap w) (request w) (response w) /\
    client_rx w' = firstn k (request_frame p0) /\
    client_sockfd w' = client_sockfd w.
Proof.
  intros C W Q Hk Hp0 B HF HD.
  destruct (pump_loop_tail ps _ p0 k HD HF eq_refl Hk Hp0
              (S (List.length (client_rx w))) w) as [w' [E [T [Q' [F' _]]]]];
    try assumption.
  - rewrite Q, length_app. pose proof (length_concat_frames ps). lia.
  - exists w'. auto.
Qed.

(** X15: a client is served in the tick that accepts it.  With no client;
    a connection waiting, its descriptor positive, whose queue already
    holds one or more complete request frames and nothing else, every
    payload of 1 to 1024 bytes; every write complete; and a processor that
    keeps its response length within 1024 bytes: one tick accepts the
    connection, finds it alive, runs every command and writes every
    response in order, and returns 0 with the new client connected and its
    queue empty. *)
Theorem cmsis_dap_tcp_process_serves_new_client (w : world) fd s rest ps :
  client_sockfd w = 0 ->
  backlog w = Conn fd s :: rest ->
  0 < fd ->
  wscript w = [] ->
  ps <> [] ->
  rx s = List.concat (map request_frame ps) ->
  Z.of_nat (List.length (rx s)) < 2 ^ 32 ->
  Forall (fun p => 1 <= Z.of_nat (List.length p) <= CMSIS_DAP_PACKET_SIZE) ps ->
  (forall st req resp,
      Z.land (fst (fst (DAP_ProcessCommand st req resp))) 0xFFFF
      <= CMSIS_DAP_PACKET_SIZE) ->
  exists w',
    cmsis_dap_tcp_process w = Some (0, w') /\
    client_sockfd w' = fd /\
    connected w' /\
    client_rx w' = [] /\
    trace w' =
    trace w ++ EvLog "cmsis_dap_tcp: client connected"
            :: pump_events fd ps (dap w) (request w) (response w).
Proof.
  intros Z0 B F W NE R Bd HF HD.
  pose proof (handle_server_accepts w fd s rest Z0 B ltac:(lia)) as HS.
  set (w0 := emit _ _) in HS.
  assert (C0 : connected w0).
  { split; [cbn; lia|]. exists s. cbn. apply sock_lookup_put_same. }
  assert (Q0 : client_rx w0 = rx s).
  { unfold client_rx. cbn. now rewrite sock_lookup_put_same. }
  assert (N0 : client_rx w0 <> []).
  { rewrite Q0, R. destruct ps as [|p ps]; [congruence|].
    cbn [map List.concat]. unfold request_frame at 1, frame, hdr_bytes.
    cbv [le_split]. discriminate. }
  rewrite (cmsis_dap_tcp_process_steps w 0 w0 w0 HS (handle_client_unread w0 C0 N0)).
  change (client_sockfd w0) with fd.
  destruct (Z.eqb_spec fd 0); [lia|].
  rewrite process_dap_requests_fuel.
  destruct (pump_loop_tail ps [] [] 0 HD HF eq_refl ltac:(simpl; lia)
              ltac:(simpl; lia) (S (List.length (client_rx w0))) w0)
    as [w' [E [T [Q' [F' C']]]]].
  - rewrite Q0, R. pose proof (length_concat_frames ps). lia.
  - exact C0.
  - exact W.
  - now rewrite Q0, R, app_nil_r.
  - now rewrite Q0.
  - exists w'. split; [exact E|]. split; [exact F'|]. split; [exact C'|].
    split; [exact Q'|]. rewrite T. cbn. now rewrite <- app_assoc.
Qed.

(** * The header codec *)

Lemma le_split_le_combine_2 a b : le_split 2 (le_combine [a; b]) = [a; b].
Proof. exact (split_le_combine [a; b]). Qed.

Lemma le_split_le_combine_4 a b c d :
  le_split 4 (le_combine [a; b; c; d]) = [a; b; c; d].
Proof. exact (split_le_combine [a; b; c; d]). Qed.

(** X16: the header encoding loses nothing in either direction.  A header
    whose fields fit their C types is read back unchanged from its eight
    bytes, whatever follows them; and any eight bytes, read as a header and
    written out again, are the same eight bytes. *)
Theorem hdr_bytes_round_trip h t bs :
  0 <= Hdr.signature h < 2 ^ 32 ->
  0 <= Hdr.length h < 2 ^ 16 ->
  0 <= Hdr.packet_type h < 2 ^ 8 ->
  0 <= Hdr.reserved h < 2 ^ 8 ->
  List.length bs = 8%nat ->
  List.length (hdr_bytes h) = 8%nat /\
  hdr_of_bytes (hdr_bytes h ++ t) = h /\
  hdr_bytes (hdr_of_bytes bs) = bs.
Proof.
  intros Hs Hl Ht Hr Hb. split; [reflexivity|]. split.
  - rewrite hdr_of_bytes_hdr_bytes. destruct h as [s l ty r]. cbn in *.
    rewrite !Z.mod_small by lia. reflexivity.
  - destruct bs as [|b0 [|b1 [|b2 [|b3 [|b4 [|b5 [|b6 [|b7 [|b8 bs]]]]]]]]];
      try discriminate.
    unfold hdr_bytes, hdr_of_bytes.
    cbn [firstn skipn nth Hdr.signature Hdr.length Hdr.packet_type Hdr.reserved].
    rewrite le_split_le_combine_4, le_split_le_combine_2, !byte.of_Z_unsigned.
    reflexivity.
Qed.

(** * Start-up *)

Lemma cmsis_dap_tcp_init_start_server (os : listen_calls) port (w : world) :
  cmsis_dap_tcp_init os port w = start_server os port w.
Proof.
  unfold cmsis_dap_tcp_init, bind.
  destruct (start_server os port w) as [[r w']|]; reflexivity.
Qed.

(** X17: start_server, and cmsis_dap_tcp_init with it, returns 0 exactly
    when socket gave a descriptor, bind returned 0, and fcntl and listen did
    not fail, and -1 otherwise.  Either way its only effects are the
    assignment of server_sockfd and one log line: after a failed bind,
    fcntl or listen the socket it opened is not closed, and the client and
    its connection are not touched. *)
Theorem start_server_result (os : listen_calls) port (w : world) :
  let ok := (0 <=? socket_ret os) && (bind_ret os =? 0)
            && (0 <=? fcntl_ret os) && (0 <=? listen_ret os) in
  exists msg,
    start_server os port w =
    Some (if ok then 0 else -1,
          emit (EvLog msg) (set_server_sockfd (socket_ret os) w)) /\
    cmsis_dap_tcp_init os port w = start_server os port w /\
    (ok = true <-> msg = "cmsis_dap_tcp: listening on port"%string).
Proof.
  cbv zeta. rewrite cmsis_dap_tcp_init_start_server.
  unfold start_server, bind, modify, get, fprintf_stderr.
  cbn [server_sockfd set_server_sockfd].
  rewrite !Z.ltb_antisym.
  destruct (0 <=? socket_ret os); cbn [negb andb];
    [|eexists; split; [reflexivity|]; split; [reflexivity|split; discriminate]].
  destruct (bind_ret os =? 0); cbn [negb andb];
    [|eexists; split; [reflexivity|]; split; [reflexivity|split; discriminate]].
  destruct (0 <=? fcntl_ret os); cbn [negb andb];
    [|eexists; split; [reflexivity|]; split; [reflexivity|split; discriminate]].
  destruct (0 <=? listen_ret os); cbn [negb andb];
    [|eexists; split; [reflexivity|]; split; [reflexivity|split; discriminate]].
  eexists. split; [reflexivity|]. split; [reflexivity|split; reflexivity].
Qed.

(** * The serial number string *)

Lemma fmt_02X_nonzero b :
  Forall (fun c => Byte.eqb c Byte.x00 = false) (fmt_02X b).
Proof. destruct b; repeat constructor. Qed.

Lemma fmt_02X_hex b : Forall (fun c => In c hex_upper) (fmt_02X b).
Proof.
  assert (H : forallb (fun c => existsb (Byte.eqb c) hex_upper) (fmt_02X b) = true)
    by (destruct b; reflexivity).
  apply Forall_forall. intros c Hc.
  rewrite forallb_forall in H. specialize (H c Hc).
  apply existsb_exists in H. destruct H as [x [Hx E]].
  apply Byte.byte_dec_bl in E. now subst x.
Qed.

Lemma unhex_fmt_02X b t : unhex (fmt_02X b ++ t) = b :: unhex t.
Proof.
  unfold fmt_02X. cbn [app unhex]. f_equal. destruct b; reflexivity.
Qed.

Lemma strlen_terminated ds t :
  Forall (fun c => Byte.eqb c Byte.x00 = false) ds ->
  strlen (ds ++ Byte.x00 :: t) = Z.of_nat (List.length ds).
Proof.
  induction 1 as [|c ds Hc _ IH]; [reflexivity|].
  cbn [app strlen List.length]. rewrite Hc, IH. lia.
Qed.

(** X18: DAP_GetSerNumString always returns 13 and stores twelve upper-case
    hex digits and a NUL; reading the digits back gives the six bytes of
    the MAC address, so two devices with different addresses never report
    the same serial number. *)
Theorem DAP_GetSerNumString_mac mac mac' str :
  List.length mac = 6%nat ->
  List.length mac' = 6%nat ->
  fst (DAP_GetSerNumString mac str) = 13 /\
  strlen (snd (DAP_GetSerNumString mac str)) = 12 /\
  Forall (fun c => In c hex_upper) (firstn 12 (snd (DAP_GetSerNumString mac str))) /\
  unhex (firstn 12 (snd (DAP_GetSerNumString mac str))) = mac /\
  skipn 13 (snd (DAP_GetSerNumString mac str)) = skipn 13 str /\
  (snd (DAP_GetSerNumString mac str) = snd (DAP_GetSerNumString mac' str) ->
   mac = mac').
Proof.
  assert (K : forall m, List.length m = 6%nat ->
            exists ds, List.length ds = 12%nat /\
              Forall (fun c => Byte.eqb c Byte.x00 = false) ds /\
              Forall (fun c => In c hex_upper) ds /\
              unhex ds = m /\
              snd (DAP_GetSerNumString m str) = ds ++ Byte.x00 :: skipn 13 str /\
              fst (DAP_GetSerNumString m str) = to_u8 (strlen (ds ++ Byte.x00 :: skipn 13 str) + 1)).
  { intros m Hm.
    destruct m as [|a [|b [|c [|d [|e [|f [|g m]]]]]]]; try discriminate.
    exists (fmt_02X a ++ fmt_02X b ++ fmt_02X c ++ fmt_02X d ++ fmt_02X e ++ fmt_02X f).
    split; [reflexivity|].
    split; [repeat (apply Forall_app; split); apply fmt_02X_nonzero|].
    split; [repeat (apply Forall_app; split); apply fmt_02X_hex|].
    split.
    { rewrite <- (app_nil_r (fmt_02X f)).
      now rewrite !unhex_fmt_02X. }
    split; reflexivity. }
  intros Hm Hm'.
  destruct (K mac Hm) as [ds [L [NZ [HX [U [S F]]]]]].
  destruct (K mac' Hm') as [ds' [L' [_ [_ [U' [S' _]]]]]].
  rewrite F, S, strlen_terminated, L by assumption.
  assert (F12 : firstn 12 (ds ++ Byte.x00 :: skipn 13 str) = ds).
  { rewrite firstn_app, L, Nat.sub_diag, firstn_O, app_nil_r.
    apply firstn_all2. lia. }
  rewrite F12.
  split; [reflexivity|]. split; [reflexivity|]. split; [exact HX|].
  split; [exact U|]. split.
  - rewrite skipn_app, L, skipn_all2 by lia. reflexivity.
  - rewrite S'. intros E. apply (f_equal (firstn 12)) in E.
    rewrite F12 in E.
    rewrite firstn_app, L', firstn_all2 in E by lia. simpl in E.
    rewrite app_nil_r in E. congruence.
Qed.

(** * The reset pins *)

Lemma testbit_shiftl_1 n m : 0 <= n -> Z.testbit (Z.shiftl 1 n) m = (n =? m).
Proof. intros H. rewrite Z.shiftl_1_l. now apply Z.pow2_bits_eqb. Qed.

Lemma land_1_odd bit : (Z.land bit 1 =? 0) = negb (Z.odd bit).
Proof.
  change 1 with (Z.ones 1). rewrite Z.land_ones by lia.
  change (2 ^ 1) with 2. rewrite Zmod_odd. now destruct (Z.odd bit).
Qed.

Lemma open_drain_out n bit hw :
  0 <= n ->
  let hw' :=
    if negb (Z.land bit 1 =? 0) then gpio_ll_output_disable hw n
    else gpio_ll_output_enable (gpio_ll_set_level hw n 0) n in
  drives_high hw' n = false /\
  Z.testbit (gpio_enable hw') n = negb (Z.odd bit) /\
  gpio_in hw' = gpio_in hw /\
  forall m, m <> n ->
    Z.testbit (gpio_out hw') m = Z.testbit (gpio_out hw) m /\
    Z.testbit (gpio_enable hw') m = Z.testbit (gpio_enable hw) m.
Proof.
  intros Hn. cbv zeta. rewrite land_1_odd, negb_involutive.
  unfold drives_high, gpio_ll_output_disable, gpio_ll_output_enable,
    gpio_ll_set_level.
  destruct (Z.odd bit); cbn [Z.eqb gpio_out gpio_enable gpio_in negb].
  - rewrite Z.ldiff_spec, testbit_shiftl_1, Z.eqb_refl by assumption.
    rewrite andb_false_r. repeat split; auto.
    rewrite Z.ldiff_spec, testbit_shiftl_1 by assumption.
    destruct (Z.eqb_spec n m); [congruence|]. apply andb_true_r.
  - rewrite Z.lor_spec, Z.ldiff_spec, testbit_shiftl_1, Z.eqb_refl by assumption.
    rewrite orb_true_r, andb_false_r. repeat split; auto.
    + rewrite Z.ldiff_spec, testbit_shiftl_1 by assumption.
      destruct (Z.eqb_spec n m); [congruence|]. apply andb_true_r.
    + rewrite Z.lor_spec, testbit_shiftl_1 by assumption.
      destruct (Z.eqb_spec n m); [congruence|]. apply orb_false_r.
Qed.

(** X19: nRESET and nTRST are open-drain outputs.  Whatever the registers
    held, after PIN_nRESET_OUT or PIN_nTRST_OUT the pin is never an output
    driving high: it is released (an input) when bit 0 of the argument is
    set and driven low when it is clear, and the latch and enable bits of
    every other pin are as before. *)
Theorem reset_pins_open_drain bit hw :
  (drives_high (PIN_nRESET_OUT bit hw) GPIO_NRESET = false /\
   Z.testbit (gpio_enable (PIN_nRESET_OUT bit hw)) GPIO_NRESET = negb (Z.odd bit) /\
   forall m, m <> GPIO_NRESET ->
     Z.testbit (gpio_out (PIN_nRESET_OUT bit hw)) m = Z.testbit (gpio_out hw) m /\
     Z.testbit (gpio_enable (PIN_nRESET_OUT bit hw)) m
     = Z.testbit (gpio_enable hw) m) /\
  (drives_high (PIN_nTRST_OUT bit hw) GPIO_NTRST = false /\
   Z.testbit (gpio_enable (PIN_nTRST_OUT bit hw)) GPIO_NTRST = negb (Z.odd bit) /\
   forall m, m <> GPIO_NTRST ->
     Z.testbit (gpio_out (PIN_nTRST_OUT bit hw)) m = Z.testbit (gpio_out hw) m /\
     Z.testbit (gpio_enable (PIN_nTRST_OUT bit hw)) m
     = Z.testbit (gpio_enable hw) m).
Proof.
  split.
  - destruct (open_drain_out GPIO_NRESET bit hw ltac:(unfold GPIO_NRESET; lia))
      as [A [B [_ C]]]. auto.
  - destruct (open_drain_out GPIO_NTRST bit hw ltac:(unfold GPIO_NTRST; lia))
      as [A [B [_ C]]]. auto.
Qed.

(** * No client, and bad headers *)

Lemma recv_dap_request_no_client (w : world) buf len :
  client_sockfd w = 0 -> recv_dap_request buf len w = Some ((0, buf), w).
Proof.
  intros Z0. unfold recv_dap_request, bind at 1, socket_available, bind, get.
  now rewrite Z0.
Qed.

(** X20: with no client nothing is attempted.  While client_sockfd is 0,
    recv_dap_request returns 0, send_dap_response of a payload that fits
    returns -1, handle_client and process_dap_requests return 0, and none
    of them changes the world: no system call is made and nothing is
    logged. *)
Theorem no_client_inert (w : world) buf len :
  client_sockfd w = 0 ->
  0 <= len <= CMSIS_DAP_PACKET_SIZE ->
  recv_dap_request buf len w = Some ((0, buf), w) /\
  send_dap_response buf len w = Some (-1, w) /\
  handle_client w = Some (0, w) /\
  process_dap_requests w = Some (0, w).
Proof.
  intros Z0 Hl. split; [now apply recv_dap_request_no_client|]. split; [|split].
  - unfold send_dap_response, sizeof_packet_buf, sizeof_hdr, CMSIS_DAP_PACKET_SIZE in *.
    rewrite to_size_t_small by lia.
    destruct (Z.gtb_spec len (1024 + 8 - 8)); [lia|].
    unfold bind, socket_write, bind, get. now rewrite Z0.
  - unfold handle_client, bind, get. now rewrite Z0.
  - rewrite process_dap_requests_fuel.
    rewrite (process_dap_requests_loop_step _ w 0 (request w) w
               (recv_dap_request_no_client w _ _ Z0)).
    cbn [Z.leb Z.compare]. now rewrite set_request_same.
Qed.

Lemma recv_dap_request_bad_header (w : world) buf len :
  connected w ->
  8 <= Z.of_nat (List.length (client_rx w)) < 2 ^ 32 ->
  Hdr.signature (head_hdr (client_rx w)) <> DAP_PKT_HDR_SIGNATURE \/
  Hdr.packet_type (head_hdr (client_rx w)) <> DAP_PKT_TYPE_REQUEST ->
  recv_dap_request buf len w =
  Some ((-1, buf), set_client_rx (skipn 8 (client_rx w)) w).
Proof.
  intros C Hq Hb.
  rewrite (recv_dap_request_stream w buf len C). unfold recv_stream, sizeof_hdr.
  rewrite to_size_t_small by lia.
  destruct (Z.ltb_spec (Z.of_nat (List.length (client_rx w))) 8); [lia|].
  destruct (Z.eqb_spec (Hdr.signature (head_hdr (client_rx w))) DAP_PKT_HDR_SIGNATURE);
    [|reflexivity].
  destruct (Z.eqb_spec (Hdr.packet_type (head_hdr (client_rx w))) DAP_PKT_TYPE_REQUEST);
    [|reflexivity].
  tauto.
Qed.

(** X21: a bad header is reported by the tick and costs the client nothing
    but eight bytes.  With a client connected, no connection waiting and a
    queued header whose signature or packet type is wrong, the tick
    returns -1, discards exactly the eight header bytes, runs no command,
    writes and logs nothing, and leaves the client connected. *)
Theorem cmsis_dap_tcp_process_bad_header (w : world) :
  connected w ->
  backlog w = [] ->
  8 <= Z.of_nat (List.length (client_rx w)) < 2 ^ 32 ->
  Hdr.signature (head_hdr (client_rx w)) <> DAP_PKT_HDR_SIGNATURE \/
  Hdr.packet_type (head_hdr (client_rx w)) <> DAP_PKT_TYPE_REQUEST ->
  exists w',
    cmsis_dap_tcp_process w = Some (-1, w') /\
    connected w' /\
    client_sockfd w' = client_sockfd w /\
    client_rx w' = skipn 8 (client_rx w) /\
    trace w' = trace w /\
    request w' = request w.
Proof.
  intros C B Hq Hb.
  set (w1 := set_errno EAGAIN w).
  assert (C1 : connected w1) by exact C.
  assert (Q1 : client_rx w1 = client_rx w) by reflexivity.
  assert (NE : client_rx w1 <> []).
  { rewrite Q1. intros E. rewrite E in Hq. simpl in Hq. lia. }
  rewrite (cmsis_dap_tcp_process_steps w 0 w1 w1
             (handle_server_nothing_pending w B) (handle_client_unread w1 C1 NE)).
  destruct C1 as [N1 X1]. apply Z.eqb_neq in N1. rewrite N1.
  rewrite process_dap_requests_fuel.
  rewrite (process_dap_requests_loop_step _ w1 _ _ _
             (recv_dap_request_bad_header w1 (request w1) sizeof_request C Hq Hb)).
  cbn [Z.leb Z.compare]. rewrite Q1.
  set (w2 := set_client_rx (skipn 8 (client_rx w)) w1).
  exists (set_request (request w1) w2). split; [reflexivity|].
  assert (C2 : connected w2) by (now apply connected_set_client_rx).
  split; [exact C2|].
  split; [apply (client_sockfd_set_client_rx _ w1)|].
  split; [|split].
  - transitivity (client_rx w2); [now apply client_rx_ext|].
    now apply client_rx_set_client_rx.
  - cbn [trace set_request]. apply (trace_set_client_rx _ w1).
  - reflexivity.
Qed.

Lemma head_hdr_block b t : List.length b = 8%nat -> head_hdr (b ++ t) = head_hdr b.
Proof.
  intros L. unfold head_hdr.
  now rewrite firstn_app, L, Nat.sub_diag, firstn_O, app_nil_r.
Qed.

Lemma recv_chunks_quiet n buf (w : world) r buf1 w1 :
  recv_dap_request buf sizeof_request w = Some ((r, buf1), w1) ->
  recv_chunks (repeat [] (S n)) buf w =
  match recv_chunks (repeat [] n) buf1 w1 with
  | Some ((rs, buf2), w2) => Some ((r :: rs, buf2), w2)
  | None => None
  end.
Proof.
  intros H. cbn [repeat]. apply recv_chunks_cons. now rewrite feed_nil.
Qed.

(** X22: the reassembler finds its way back only in steps of eight bytes.
    When the queue holds m blocks of eight bytes, none of them starting
    with the signature, and then a complete request frame, m + 1 calls of
    recv_dap_request return -1 m times, each call discarding one block,
    and then the frame's payload, intact; the queue is then empty. *)
Theorem recv_dap_request_resync_blocks (w : world) blocks p buf :
  connected w ->
  Forall (fun b => List.length b = 8%nat /\
                   Hdr.signature (head_hdr b) <> DAP_PKT_HDR_SIGNATURE) blocks ->
  client_rx w = List.concat blocks ++ request_frame p ->
  Z.of_nat (List.length p) <= CMSIS_DAP_PACKET_SIZE ->
  Z.of_nat (List.length (client_rx w)) < 2 ^ 32 ->
  recv_chunks (repeat [] (S (List.length blocks))) buf w =
  Some ((repeat (-1) (List.length blocks) ++ [Z.of_nat (List.length p)],
         store buf p), set_client_rx [] w).
Proof.
  intros C HB Q Hp B. unfold CMSIS_DAP_PACKET_SIZE in Hp.
  revert w C Q B. induction HB as [|b blocks [Lb Sb] HB IH]; intros w C Q B.
  - cbn [List.concat app] in Q. cbn [List.length].
    rewrite (recv_chunks_quiet 0 buf w _ _ _
               (recv_dap_request_complete w p [] buf sizeof_request C
                  ltac:(now rewrite app_nil_r) ltac:(lia)
                  ltac:(unfold sizeof_request, CMSIS_DAP_PACKET_SIZE; lia) B)).
    reflexivity.
  - cbn [List.concat] in Q. rewrite <- app_assoc in Q.
    set (rest := List.concat blocks ++ request_frame p) in *.
    assert (S8 : skipn 8 (client_rx w) = rest).
    { rewrite Q, skipn_app, Lb, Nat.sub_diag, skipn_all2 by lia. reflexivity. }
    assert (R : recv_dap_request buf sizeof_request w =
                Some ((-1, buf), set_client_rx rest w)).
    { rewrite <- S8. apply recv_dap_request_bad_header; [assumption| |].
      - rewrite Q, length_app, Lb in *. lia.
      - left. rewrite Q, head_hdr_block by assumption. exact Sb. }
    cbn [List.length].
    rewrite (recv_chunks_quiet _ buf w _ _ _ R).
    rewrite (IH (set_client_rx rest w)).
    + cbn [repeat app]. now rewrite set_client_rx_twice.
    + now apply connected_set_client_rx.
    + now apply client_rx_set_client_rx.
    + rewrite client_rx_set_client_rx by assumption.
      rewrite Q, length_app in B. lia.
Qed.

End Properties.

(** * Concrete runs *)

Example request_frame_bytes :
  request_frame [Byte.x2a; Byte.x07] =
  [Byte.x44; Byte.x41; Byte.x50; Byte.x00; Byte.x02; Byte.x00; Byte.x01; Byte.x00;
   Byte.x2a; Byte.x07].
Proof. reflexivity. Qed.

Example recv_whole_frame :
  recv_dap_request [Byte.xff; Byte.xff; Byte.xff] 3
    (client_world (request_frame [Byte.x2a; Byte.x07])) =
  Some ((2, [Byte.x2a; Byte.x07; Byte.xff]), client_world []).
Proof. reflexivity. Qed.

Example pump_two_frames :
  option_map (fun rw => (fst rw, trace (snd rw)))
    (process_dap_requests
       (client_world (request_frame [Byte.x05] ++ request_frame [Byte.x06; Byte.x09]))) =
  Some (0, [EvCommand (store zeros [Byte.x05]);
            EvWrite 3 (response_frame [Byte.x05]) 9;
            EvCommand (store zeros [Byte.x06; Byte.x09]);
            EvWrite 3 (response_frame [Byte.x06]) 9]).
Proof. vm_compute. reflexivity. Qed.

(** ** C1 *)

(** The frame send_dap_response writes for a one-byte payload, fed to
    recv_dap_request: the call returns -1, the header is thrown away and the
    payload byte is left in the queue, never copied to the buffer. *)
Lemma response_frame_not_received :
  send_dap_response [Byte.x2a] 1 (client_world []) =
    Some (0, emit (EvWrite 3 (response_frame [Byte.x2a]) 9) (client_world [])) /\
  recv_chunks [response_frame [Byte.x2a]] zeros (client_world []) =
    Some (([-1], zeros), client_world [Byte.x2a]).
Proof. split; vm_compute; reflexivity. Qed.

Lemma request_frame_round_trip_witness :
  exists k j buf',
    recv_chunks
      [[Byte.x44; Byte.x41; Byte.x50]; [];
       [Byte.x00; Byte.x02; Byte.x00; Byte.x01; Byte.x00; Byte.x2a];
       [Byte.x07]; []]
      zeros (client_world []) =
    Some ((repeat 0 k ++ Z.of_nat (List.length [Byte.x2a; Byte.x07]) :: repeat 0 j,
           buf'), client_world []) /\
    buf' = store zeros [Byte.x2a; Byte.x07] /\
    firstn (List.length [Byte.x2a; Byte.x07]) buf' = [Byte.x2a; Byte.x07].
Proof.
  apply (request_frame_round_trip (client_world []) [Byte.x2a; Byte.x07]).
  - connected_here.
  - reflexivity.
  - by_evaluation.
  - reflexivity.
Defined.

(** ** C2 *)

(** Only the header is queued, declaring 2000 bytes: the call returns 0,
    not an error. *)
Lemma oversized_header_alone_returns_zero :
  let q := hdr_bytes (Hdr.mk DAP_PKT_HDR_SIGNATURE 2000 DAP_PKT_TYPE_REQUEST 0) in
  Hdr.signature (head_hdr q) = DAP_PKT_HDR_SIGNATURE /\
  Hdr.packet_type (head_hdr q) = DAP_PKT_TYPE_REQUEST /\
  Hdr.length (head_hdr q) = 2000 /\
  recv_dap_request zeros CMSIS_DAP_PACKET_SIZE (client_world q) =
    Some ((0, zeros), client_world q).
Proof. repeat split; vm_compute; reflexivity. Qed.

Lemma recv_dap_request_length_beyond_buffer_witness :
  let q := hdr_bytes (Hdr.mk DAP_PKT_HDR_SIGNATURE 5 DAP_PKT_TYPE_REQUEST 0)
             ++ [Byte.x01; Byte.x02; Byte.x03; Byte.x04; Byte.x05] in
  recv_dap_request zeros 4 (client_world q) = Some ((-1, zeros), client_world q).
Proof.
  intros q.
  refine (recv_dap_request_length_beyond_buffer (client_world q) zeros 4 _ _ _ _ _).
  - connected_here.
  - by_evaluation.
  - reflexivity.
  - reflexivity.
  - by_evaluation.
Defined.

(** ** C3 *)

(** Four bytes that are not a signature, then a complete request frame:
    the first call returns -1 and takes eight bytes, the frame's signature
    among them; what is left is too short for a header, so every later call
    returns 0 and changes nothing: the payload is never returned. *)
Lemma four_garbage_bytes_lose_the_frame :
  let garbage := [Byte.x00; Byte.x00; Byte.x00; Byte.x00] in
  let left := skipn 4 (request_frame [Byte.x2a]) in
  recv_dap_request zeros CMSIS_DAP_PACKET_SIZE
    (client_world (garbage ++ request_frame [Byte.x2a])) =
    Some ((-1, zeros), client_world left) /\
  recv_dap_request zeros CMSIS_DAP_PACKET_SIZE (client_world left) =
    Some ((0, zeros), client_world left).
Proof. split; vm_compute; reflexivity. Qed.

Lemma recv_dap_request_bad_signature_witness :
  let garbage := [Byte.x00; Byte.x01; Byte.x02; Byte.x03;
                  Byte.x04; Byte.x05; Byte.x06; Byte.x07] in
  let q := garbage ++ request_frame [Byte.x2a] in
  recv_dap_request zeros CMSIS_DAP_PACKET_SIZE (client_world q) =
    Some ((-1, zeros), set_client_rx (skipn 8 q) (client_world q)) /\
  forall p,
    skipn 8 q = request_frame p ->
    Z.of_nat (List.length p) < 2 ^ 16 ->
    Z.of_nat (List.length p) <= CMSIS_DAP_PACKET_SIZE ->
    recv_dap_request zeros CMSIS_DAP_PACKET_SIZE
      (set_client_rx (skipn 8 q) (client_world q)) =
    Some ((Z.of_nat (List.length p), store zeros p),
          set_client_rx [] (client_world q)).
Proof.
  intros garbage q.
  apply (recv_dap_request_bad_signature (client_world q) zeros
           CMSIS_DAP_PACKET_SIZE q).
  - connected_here.
  - reflexivity.
  - by_evaluation.
  - by_evaluation.
Defined.

(** ** C4 *)

Lemma recv_dap_request_partial_frame_witness :
  recv_dap_request zeros CMSIS_DAP_PACKET_SIZE
    (client_world (firstn 9 (request_frame [Byte.x2a; Byte.x07]))) =
  Some ((0, zeros), client_world (firstn 9 (request_frame [Byte.x2a; Byte.x07]))).
Proof.
  apply (recv_dap_request_partial_frame _ [Byte.x2a; Byte.x07] 9%nat).
  - connected_here.
  - by_evaluation.
  - simpl. lia.
  - reflexivity.
Defined.

(** ** C5 *)

(** Two complete request frames are queued, the first with an empty
    payload: process_dap_requests takes the first header, returns 0, and
    has run no command and written no response; the second frame is still
    queued. *)
Lemma empty_request_stops_the_pump :
  let q := request_frame [] ++ request_frame [Byte.x2a] in
  process_dap_requests (client_world q) =
    Some (0, client_world (request_frame [Byte.x2a])) /\
  trace (client_world (request_frame [Byte.x2a])) = [].
Proof. split; vm_compute; reflexivity. Qed.

Lemma process_dap_requests_pipelined_witness :
  let ps := [[Byte.x01]; [Byte.x02; Byte.x03]; [Byte.x04]] in
  let w := client_world (List.concat (map request_frame ps)) in
  exists w',
    process_dap_requests w = Some (0, w') /\
    trace w' =
    trace w ++ pump_events (client_sockfd w) ps (dap w)
                     (request w) (response w) /\
    client_rx w' = [] /\
    client_sockfd w' = client_sockfd w.
Proof.
  intros ps w.
  apply (process_dap_requests_pipelined w ps).
  - connected_here.
  - reflexivity.
  - reflexivity.
  - by_evaluation.
  - repeat constructor; by_evaluation.
  - intros st req resp. by_evaluation.
Defined.

(** ** C6 *)

Example second_connection_tick :
  cmsis_dap_tcp_process busy_world =
  Some (0, mkWorld 3 2 zeros zeros EAGAIN [(3, mkSock [] false None)] [] 0 []
             [EvLog "cmsis_dap_tcp: dropping new connection."; EvClose 4] tt).
Proof. vm_compute. reflexivity. Qed.

(** One client is active, with eight zero bytes queued, and a second
    connection is pending: the second connection is closed and the first is
    kept, but the tick returns -1, the pump having met the bad header. *)
Lemma second_connection_tick_fails :
  connected noisy_busy_world /\
  single_client noisy_busy_world /\
  backlog noisy_busy_world = [Conn 4 (mkSock [] false None)] /\
  ~ In 4 (open_fds noisy_busy_world) /\
  cmsis_dap_tcp_process noisy_busy_world =
  Some (-1, mkWorld 3 2 zeros zeros 0 [(3, mkSock [] false None)] [] 0 []
              [EvLog "cmsis_dap_tcp: dropping new connection."; EvClose 4] tt).
Proof.
  split; [connected_here|]. split; [reflexivity|]. split; [reflexivity|].
  split; [simpl; lia|]. vm_compute. reflexivity.
Qed.

Lemma second_connection_dropped_witness :
  let w0 := emit (EvClose 4)
              (emit (EvLog "cmsis_dap_tcp: dropping new connection.")
                 (set_backlog [] busy_world)) in
  handle_server busy_world = Some (0, w0) /\
  client_sockfd w0 = client_sockfd busy_world /\
  socks w0 = socks busy_world /\
  sock_lookup 4 (socks w0) = None /\
  cmsis_dap_tcp_process busy_world = tick_after_accept w0 /\
  exists r w',
    cmsis_dap_tcp_process busy_world = Some (r, w') /\
    single_client w' /\
    (List.length (open_fds w') <= 1)%nat /\
    ~ In 4 (open_fds w') /\
    r <= 0 /\
    (Z.of_nat (List.length (client_rx busy_world)) < 8 -> r = 0).
Proof.
  apply (second_connection_dropped busy_world 4
           (mkSock [Byte.x01] false None) []).
  - connected_here.
  - reflexivity.
  - reflexivity.
  - lia.
  - simpl. lia.
Defined.

(** ** C7 *)

Example short_write_fails :
  send_dap_response [Byte.x2a] 1 short_write_world =
  Some (-1, emit (EvWrite 3 (response_frame [Byte.x2a]) 5) (client_world [])).
Proof. reflexivity. Qed.

Lemma send_dap_response_results_witness :
  (CMSIS_DAP_PACKET_SIZE < 1 \/ 1 < 0 ->
   send_dap_response [Byte.x2a] 1 short_write_world =
   Some (-1, emit (EvLog "cmsis_dap_tcp: response too large for buffer!")
               short_write_world)) /\
  (0 <= 1 <= CMSIS_DAP_PACKET_SIZE ->
   let wr := next_write (1 + sizeof_hdr) short_write_world in
   exists r data,
     send_dap_response [Byte.x2a] 1 short_write_world =
     Some (r, emit (EvWrite (client_sockfd short_write_world) data wr)
                (written short_write_world)) /\
     (r = 0 <-> wr = 1 + sizeof_hdr) /\
     (wr <> 1 + sizeof_hdr -> r < 0)).
Proof.
  apply (send_dap_response_results short_write_world [Byte.x2a] 1).
  - connected_here.
  - by_evaluation.
Defined.

(** ** C8 *)

Lemma send_dap_response_wire_bytes_witness :
  exists r wr w',
    send_dap_response [Byte.x2a; Byte.x07; Byte.xff] 2 (client_world []) =
      Some (r, w') /\
    trace w' =
    trace (client_world []) ++
      [EvWrite (client_sockfd (client_world []))
         ([Byte.x44; Byte.x41; Byte.x50; Byte.x00]
            ++ [byte.of_Z 2; byte.of_Z (Z.shiftr 2 8)]
            ++ [Byte.x02; Byte.x00]
            ++ firstn (Z.to_nat 2) [Byte.x2a; Byte.x07; Byte.xff]) wr] /\
    le_combine [byte.of_Z 2; byte.of_Z (Z.shiftr 2 8)] = 2 /\
    List.length (firstn (Z.to_nat 2) [Byte.x2a; Byte.x07; Byte.xff]) = Z.to_nat 2 /\
    response_frame (firstn (Z.to_nat 2) [Byte.x2a; Byte.x07; Byte.xff]) =
    [Byte.x44; Byte.x41; Byte.x50; Byte.x00]
      ++ [byte.of_Z 2; byte.of_Z (Z.shiftr 2 8)]
      ++ [Byte.x02; Byte.x00]
      ++ firstn (Z.to_nat 2) [Byte.x2a; Byte.x07; Byte.xff].
Proof.
  apply (send_dap_response_wire_bytes (client_world [])
           [Byte.x2a; Byte.x07; Byte.xff] 2).
  - connected_here.
  - by_evaluation.
  - by_evaluation.
Defined.

(** ** C9 *)

Example probe_half_closed :
  socket_disconnected half_closed_world = Some (1, half_closed_world).
Proof. reflexivity. Qed.

Example probe_idle : socket_disconnected (client_world []) =
                     Some (0, set_errno EAGAIN (client_world [])).
Proof. reflexivity. Qed.

Example probe_reset_closes :
  option_map (fun rw => (fst rw, client_sockfd (snd rw), socks (snd rw)))
    (handle_client reset_world) = Some (0, 0, []).
Proof. reflexivity. Qed.

Lemma socket_disconnected_probe_witness :
  socket_disconnected half_closed_world = Some (1, half_closed_world) /\
  handle_client half_closed_world = Some (0, disconnect_client half_closed_world) /\
  client_sockfd (disconnect_client half_closed_world) = 0 /\
  sock_lookup (client_sockfd half_closed_world)
    (socks (disconnect_client half_closed_world)) = None.
Proof.
  refine (proj1 (proj2 (socket_disconnected_probe half_closed_world 0 []
                          half_closed_world _ _)) eq_refl).
  - simpl. lia.
  - reflexivity.
Defined.

(** ** C10 *)

Example recv_into_small_buffer :
  recv_dap_request [Byte.xff; Byte.xff; Byte.xff] 1
    (client_world (request_frame [Byte.x2a; Byte.x07])) =
  Some ((-1, [Byte.xff; Byte.xff; Byte.xff]),
        client_world (request_frame [Byte.x2a; Byte.x07])).
Proof. reflexivity. Qed.

Lemma recv_dap_request_buffer_bounds_witness :
  let w := client_world (request_frame [Byte.x2a; Byte.x07]) in
  let buf := [Byte.xff; Byte.xff; Byte.xff] in
  exists r buf' w',
    recv_dap_request buf 3 w = Some ((r, buf'), w') /\
    let n := Hdr.length (head_hdr (client_rx w)) in
    let data := firstn (Z.to_nat n) (skipn 8 (client_rx w)) in
    (0 < r -> r = n /\ n <= 3 /\ Z.of_nat (List.length data) = n /\
              buf' = store buf data) /\
    (r <= 0 -> buf' = buf) /\
    (3 < n -> buf' = buf) /\
    skipn (Z.to_nat 3) buf' = skipn (Z.to_nat 3) buf.
Proof.
  exact (recv_dap_request_buffer_bounds
           (client_world (request_frame [Byte.x2a; Byte.x07]))
           [Byte.xff; Byte.xff; Byte.xff] 3).
Defined.


(** * Concrete runs of the further properties *)

Lemma recv_dap_request_head_frame_witness :
  let w := client_world (request_frame [Byte.x2a; Byte.x07] ++ [Byte.xff]) in
  exists buf' w',
    recv_dap_request zeros CMSIS_DAP_PACKET_SIZE w = Some ((2, buf'), w') /\
    firstn 2 buf' = [Byte.x2a; Byte.x07] /\
    skipn 2 buf' = skipn 2 zeros /\
    client_rx w' = [Byte.xff] /\
    client_rx w' = skipn 10 (client_rx w) /\
    trace w' = trace w.
Proof.
  intros w.
  refine (recv_dap_request_head_frame w [Byte.x2a; Byte.x07] [Byte.xff] zeros
            CMSIS_DAP_PACKET_SIZE _ _ _ _ _).
  - connected_here.
  - reflexivity.
  - by_evaluation.
  - by_evaluation.
  - by_evaluation.
Defined.

Lemma recv_dap_request_wrong_type_witness :
  let w := client_world (response_frame [Byte.x2a]) in
  recv_dap_request zeros CMSIS_DAP_PACKET_SIZE w =
  Some ((-1, zeros), set_client_rx (skipn 8 (client_rx w)) w) /\
  client_rx (set_client_rx (skipn 8 (client_rx w)) w) = skipn 8 (client_rx w).
Proof.
  intros w.
  refine (recv_dap_request_wrong_type w zeros CMSIS_DAP_PACKET_SIZE _ _ _ _).
  - connected_here.
  - by_evaluation.
  - reflexivity.
  - by_evaluation.
Defined.

Lemma handle_client_unread_data_witness :
  socket_disconnected (client_world [Byte.x01]) = Some (0, client_world [Byte.x01]) /\
  handle_client (client_world [Byte.x01]) = Some (0, client_world [Byte.x01]).
Proof.
  apply (handle_client_unread_data (client_world [Byte.x01])).
  - connected_here.
  - discriminate.
Defined.

Lemma socket_disconnected_interrupted_witness :
  socket_disconnected interrupted_world =
    Some (0, set_errno EAGAIN (set_intr 0 interrupted_world)) /\
  handle_client interrupted_world =
    Some (0, set_errno EAGAIN (set_intr 0 interrupted_world)).
Proof.
  apply (socket_disconnected_interrupted interrupted_world (mkSock [] false None)).
  - by_evaluation.
  - reflexivity.
  - reflexivity.
  - reflexivity.
  - reflexivity.
Defined.

Lemma partial_frame_wedges_every_tick_witness :
  let w := client_world (firstn 9 (request_frame [Byte.x2a; Byte.x07])) in
  cmsis_dap_tcp_process w = Some (0, set_errno EAGAIN w) /\
  ticks 4 w = Some (repeat 0 4, set_errno EAGAIN w) /\
  client_sockfd (set_errno EAGAIN w) = client_sockfd w /\
  socks (set_errno EAGAIN w) = socks w /\
  trace (set_errno EAGAIN w) = trace w.
Proof.
  intros w.
  refine (partial_frame_wedges_every_tick w [Byte.x2a; Byte.x07] 9%nat 3%nat _ _ _ _ _).
  - connected_here.
  - reflexivity.
  - reflexivity.
  - simpl. lia.
  - by_evaluation.
Defined.

Lemma cmsis_dap_tcp_process_idle_witness :
  cmsis_dap_tcp_process interrupted_world =
  Some (0, set_errno EAGAIN (set_intr 0 interrupted_world)).
Proof.
  apply (cmsis_dap_tcp_process_idle interrupted_world (mkSock [] false None)).
  - by_evaluation.
  - reflexivity.
  - reflexivity.
  - reflexivity.
  - reflexivity.
  - reflexivity.
Defined.

Lemma handle_server_new_client_witness :
  let w := fresh_world [Byte.x01] in
  exists w',
    handle_server w = Some (0, w') /\
    client_sockfd w' = 4 /\
    connected w' /\
    client_rx w' = rx (mkSock [Byte.x01] false None) /\
    backlog w' = [] /\
    trace w' = trace w ++ [EvLog "cmsis_dap_tcp: client connected"] /\
    (single_client w -> single_client w').
Proof.
  intros w.
  refine (handle_server_new_client w 4 (mkSock [Byte.x01] false None) [] _ _ _).
  - reflexivity.
  - reflexivity.
  - lia.
Defined.

Lemma accept_failure_swallowed_witness :
  let w := refused_world 24 in
  let w0 := set_errno 24 (set_backlog [] w) in
  handle_server w = Some (if 24 =? EAGAIN then 0 else -1, w0) /\
  cmsis_dap_tcp_process w = tick_after_accept w0 /\
  (client_sockfd w = 0 -> cmsis_dap_tcp_process w = Some (0, w0)).
Proof.
  intros w.
  refine (accept_failure_swallowed w 24 [] _).
  reflexivity.
Defined.

Lemma tick_keeps_single_client_witness :
  exists r w',
    cmsis_dap_tcp_process busy_world = Some (r, w') /\
    single_client w' /\
    (List.length (open_fds w') <= 1)%nat.
Proof.
  apply (tick_keeps_single_client busy_world).
  - reflexivity.
  - simpl. split; [lia | intros [E | []]; discriminate E].
Defined.

Lemma process_dap_requests_oversized_response_witness :
  let w := chatty_world (request_frame [Byte.x2a] ++ request_frame [Byte.x07]) in
  exists w',
    process_dap_requests w = Some (-1, w') /\
    trace w' =
    trace w ++ [EvCommand (store (request w) [Byte.x2a]);
                EvLog "cmsis_dap_tcp: response too large for buffer!"] /\
    client_rx w' = request_frame [Byte.x07] /\
    connected w' /\
    client_sockfd w' = client_sockfd w.
Proof.
  intros w.
  refine (process_dap_requests_oversized_response w [Byte.x2a]
            (request_frame [Byte.x07]) _ _ _ _ _).
  - connected_here.
  - reflexivity.
  - by_evaluation.
  - by_evaluation.
  - by_evaluation.
Defined.

Lemma process_dap_requests_failed_write_witness :
  let w := feed (request_frame [Byte.x2a]) short_write_world in
  exists r w',
    process_dap_requests w = Some (r, w') /\
    r < 0 /\
    trace w' =
    trace w ++ [EvCommand (store (request w) [Byte.x2a]);
                EvWrite (client_sockfd w)
                  (response_packet (response_len [Byte.x2a] [] w)
                     (response_buf [Byte.x2a] [] w))
                  (next_write (response_len [Byte.x2a] [] w + sizeof_hdr) w)] /\
    wscript w' = tl (wscript w) /\
    client_rx w' = [] /\
    connected w' /\
    client_sockfd w' = client_sockfd w.
Proof.
  intros w.
  refine (process_dap_requests_failed_write w [Byte.x2a] [] _ _ _ _ _ _).
  - connected_here.
  - reflexivity.
  - by_evaluation.
  - by_evaluation.
  - by_evaluation.
  - by_evaluation.
Defined.

Lemma process_dap_requests_partial_tail_witness :
  let w := client_world (request_frame [Byte.x05] ++ firstn 3 (request_frame [Byte.x06])) in
  exists w',
    process_dap_requests w = Some (0, w') /\
    trace w' =
    trace w ++ pump_events (client_sockfd w) [[Byte.x05]] (dap w) (request w) (response w) /\
    client_rx w' = firstn 3 (request_frame [Byte.x06]) /\
    client_sockfd w' = client_sockfd w.
Proof.
  intros w.
  refine (process_dap_requests_partial_tail w [[Byte.x05]] [Byte.x06] 3%nat
            _ _ _ _ _ _ _ _).
  - connected_here.
  - reflexivity.
  - reflexivity.
  - simpl. lia.
  - by_evaluation.
  - by_evaluation.
  - repeat constructor; by_evaluation.
  - intros st req resp. by_evaluation.
Defined.

Lemma cmsis_dap_tcp_process_serves_new_client_witness :
  let ps := [[Byte.x05]; [Byte.x06; Byte.x09]] in
  let w := fresh_world (List.concat (map request_frame ps)) in
  exists w',
    cmsis_dap_tcp_process w = Some (0, w') /\
    client_sockfd w' = 4 /\
    connected w' /\
    client_rx w' = [] /\
    trace w' =
    trace w ++ EvLog "cmsis_dap_tcp: client connected"
            :: pump_events 4 ps (dap w) (request w) (response w).
Proof.
  intros ps w.
  refine (cmsis_dap_tcp_process_serves_new_client w 4
            (mkSock (List.concat (map request_frame ps)) false None) [] ps
            _ _ _ _ _ _ _ _ _).
  - reflexivity.
  - reflexivity.
  - lia.
  - reflexivity.
  - discriminate.
  - reflexivity.
  - by_evaluation.
  - repeat constructor; by_evaluation.
  - intros st req resp. by_evaluation.
Defined.

Lemma hdr_bytes_round_trip_witness :
  let h := Hdr.mk DAP_PKT_HDR_SIGNATURE 2 DAP_PKT_TYPE_REQUEST 0 in
  let bs := [Byte.x44; Byte.x41; Byte.x50; Byte.x00;
             Byte.xe8; Byte.x03; Byte.x02; Byte.x7f] in
  List.length (hdr_bytes h) = 8%nat /\
  hdr_of_bytes (hdr_bytes h ++ [Byte.x2a]) = h /\
  hdr_bytes (hdr_of_bytes bs) = bs.
Proof.
  intros h bs.
  refine (hdr_bytes_round_trip h [Byte.x2a] bs _ _ _ _ _).
  - by_evaluation.
  - by_evaluation.
  - by_evaluation.
  - by_evaluation.
  - reflexivity.
Defined.

Lemma DAP_GetSerNumString_mac_witness :
  let mac := [Byte.x24; Byte.x0a; Byte.xc4; Byte.x00; Byte.x1b; Byte.xff] in
  let mac' := [Byte.x24; Byte.x0a; Byte.xc4; Byte.x00; Byte.x1b; Byte.xfe] in
  fst (DAP_GetSerNumString mac zeros) = 13 /\
  strlen (snd (DAP_GetSerNumString mac zeros)) = 12 /\
  Forall (fun c => In c hex_upper) (firstn 12 (snd (DAP_GetSerNumString mac zeros))) /\
  unhex (firstn 12 (snd (DAP_GetSerNumString mac zeros))) = mac /\
  skipn 13 (snd (DAP_GetSerNumString mac zeros)) = skipn 13 zeros /\
  (snd (DAP_GetSerNumString mac zeros) = snd (DAP_GetSerNumString mac' zeros) ->
   mac = mac').
Proof.
  intros mac mac'.
  refine (DAP_GetSerNumString_mac mac mac' zeros _ _).
  - reflexivity.
  - reflexivity.
Defined.

Example serial_number_digits :
  firstn 13 (snd (DAP_GetSerNumString
                    [Byte.x24; Byte.x0a; Byte.xc4; Byte.x00; Byte.x1b; Byte.xff] zeros)) =
  [Byte.x32; Byte.x34; Byte.x30; Byte.x41; Byte.x43; Byte.x34;
   Byte.x30; Byte.x30; Byte.x31; Byte.x42; Byte.x46; Byte.x46; Byte.x00].
Proof. reflexivity. Qed.

Lemma no_client_inert_witness :
  let w := refused_world EAGAIN in
  recv_dap_request zeros 1 w = Some ((0, zeros), w) /\
  send_dap_response zeros 1 w = Some (-1, w) /\
  handle_client w = Some (0, w) /\
  process_dap_requests w = Some (0, w).
Proof.
  intros w.
  refine (no_client_inert w zeros 1 _ _).
  - reflexivity.
  - by_evaluation.
Defined.

Lemma cmsis_dap_tcp_process_bad_header_witness :
  let w := client_world (response_frame [Byte.x2a]) in
  exists w',
    cmsis_dap_tcp_process w = Some (-1, w') /\
    connected w' /\
    client_sockfd w' = client_sockfd w /\
    client_rx w' = skipn 8 (client_rx w) /\
    trace w' = trace w /\
    request w' = request w.
Proof.
  intros w.
  refine (cmsis_dap_tcp_process_bad_header w _ _ _ _).
  - connected_here.
  - reflexivity.
  - by_evaluation.
  - right. by_evaluation.
Defined.

Lemma recv_dap_request_resync_blocks_witness :
  let blocks := [[Byte.x00; Byte.x01; Byte.x02; Byte.x03;
                  Byte.x04; Byte.x05; Byte.x06; Byte.x07];
                 [Byte.x41; Byte.x44; Byte.x50; Byte.x00;
                  Byte.x01; Byte.x00; Byte.x01; Byte.x00]] in
  let w := client_world (List.concat blocks ++ request_frame [Byte.x2a]) in
  recv_chunks (repeat [] 3) zeros w =
  Some ((repeat (-1) 2 ++ [1], store zeros [Byte.x2a]), set_client_rx [] w).
Proof.
  intros blocks w.
  refine (recv_dap_request_resync_blocks w blocks [Byte.x2a] zeros _ _ _ _ _).
  - connected_here.
  - repeat constructor; by_evaluation.
  - reflexivity.
  - by_evaluation.
  - by_evaluation.
Defined.
